(** * VGA text streaming driver (dosbox-x, [src/hardware/vga_textstream.cpp])

    A shallow embedding of the streaming driver: the framed wire protocol
    ([SendMessage] / [ReadMessage]), the session handshake ([HandleHello],
    [SendModeNotification]), the text snapshot ([SnapshotTextBuffer],
    [SnapshotCursor]), the ANSI renderer ([GenerateTextOutput] and the
    [Emit*] helpers) and the terminal input tokenizer ([ProcessInputByte]).

    Conventions.
    - A [uint8_t], [uint16_t], [int] or [size_t] value is a [Z]; casts that
      can truncate are written out ([to_u8], [to_u16], [to_u32], [to_int]).
    - A byte buffer ([std::vector<uint8_t>], [std::string], a [char] array)
      is a [list Z].
    - The object's members keep their names, trailing underscore included.
      Member functions take the object last and return the updated object.
    - The outside world the object acts on is carried with it: the client
      socket ([sock_room], [sock_tx], [sock_rx]) and the log of keycodes
      handed to [BIOS_AddKeyToBuffer] ([bios_keys]).
    - The emulator's registers and memory ([vga], [mem_readb]) are inputs.
    - Every function runs to its end on its own; socket setup ([Listen])
      and the send mutex are outside the model.  One pass of the reader
      thread's loop ([InputThreadFunc]) is modelled with the results of its
      system calls as arguments.  One interleaving of the two threads is
      modelled, [OnVSync_interleaved]: the reader thread runs between the
      guard of [OnVSync] and its body.  Logging has no effect and is left
      out. *)

From Stdlib Require Import ZArith List Bool Lia.
Import ListNotations.
Local Open Scope Z_scope.

(** ** Integer types *)

Definition to_u8 (x : Z) : Z := x mod 256.
Definition to_u16 (x : Z) : Z := x mod 65536.
Definition to_u32 (x : Z) : Z := x mod 4294967296.
(** Conversion to a 32-bit [int] (two's complement wrap-around). *)
Definition to_int (x : Z) : Z := (x + 2147483648) mod 4294967296 - 2147483648.

Definition is_u8 (x : Z) : Prop := 0 <= x < 256.

(** [size()] of a buffer, as a [size_t]. *)
Definition size (l : list Z) : Z := Z.of_nat (length l).

(** Constant-table lookup [t[i]]. *)
Definition tbl (t : list Z) (i : Z) : Z := nth (Z.to_nat i) t 0.

(** ** Loops *)

(** [for (int i = i0; i < i0 + n; i++) body(i)], the loop-carried state
    threaded through the body.  The bounds of every loop modelled with it
    are not modified by its body. *)
Fixpoint for_range {St : Type} (n : nat) (i : Z) (body : Z -> St -> St)
    (s : St) : St :=
  match n with
  | O => s
  | S n' => for_range n' (i + 1) body (body i s)
  end.

(** ** Constants of [vga_textstream.h] *)

Definition STREAM_PROTOCOL_VERSION : Z := 0x0001.
Definition TEXTSTREAM_MAX_COLS : Z := 132.
Definition TEXTSTREAM_MAX_ROWS : Z := 60.

Module StreamChannel.
Definition CONTROL : Z := 0x00.
Definition TEXT_OUT : Z := 0x01.
Definition KEYBOARD_IN : Z := 0x02.
Definition MOUSE_IN : Z := 0x03.
Definition GFX_RAW : Z := 0x40.
Definition GFX_PNG : Z := 0x41.
Definition GFX_JPEG : Z := 0x42.
Definition GFX_H264 : Z := 0x43.
Definition AUDIO_PCM : Z := 0x50.
Definition AUDIO_OPUS : Z := 0x51.
End StreamChannel.

Module ControlMsg.
Definition HELLO : Z := 0x01.
Definition GOODBYE : Z := 0x02.
Definition MODE_TEXT : Z := 0x10.
Definition MODE_GRAPHICS : Z := 0x11.
Definition MODE_UNSUPPORTED : Z := 0x12.
Definition REFRESH : Z := 0x20.
Definition RESIZE : Z := 0x21.
Definition CAPS_QUERY : Z := 0x30.
Definition CAPS_REPLY : Z := 0x31.
End ControlMsg.

Module StreamCap.
Definition TEXT_OUTPUT : Z := 0x01.
Definition KEYBOARD_INPUT : Z := 0x02.
Definition MOUSE_INPUT : Z := 0x03.
Definition GRAPHICS_PNG : Z := 0x10.
Definition GRAPHICS_JPEG : Z := 0x11.
Definition GRAPHICS_H264 : Z := 0x12.
Definition AUDIO_PCM : Z := 0x20.
Definition AUDIO_OPUS : Z := 0x21.
End StreamCap.

(** ** Data model *)

Record TextCell := mkTextCell { character : Z; attribute : Z }.

(** [TextCell::operator==] and [operator!=]. *)
Definition TextCell_eq (a b : TextCell) : bool :=
  (character a =? character b) && (attribute a =? attribute b).
Definition TextCell_ne (a b : TextCell) : bool := negb (TextCell_eq a b).

Record TextCursor := mkTextCursor { row : Z; col : Z; visible : bool }.

(** [TextCursor::operator!=]. *)
Definition TextCursor_ne (a b : TextCursor) : bool :=
  negb (row a =? row b) || negb (col a =? col b)
  || negb (eqb (visible a) (visible b)).

(** A frame buffer [TextCell g[MAX_ROWS][MAX_COLS]], read as [g r c]. *)
Definition Grid : Type := Z -> Z -> TextCell.

Definition grid_set (g : Grid) (r c : Z) (v : TextCell) : Grid :=
  fun r' c' => if (r' =? r) && (c' =? c) then v else g r' c'.

Inductive InputState := NORMAL | ESC | CSI | SS3.

(** The emulator's video modes.  The enumeration is declared in [vga.h];
    the modes the driver names are listed, every other one is an
    [M_OTHER]. *)
Inductive VGAModes :=
| M_CGA2 | M_CGA4 | M_CGA16 | M_EGA | M_VGA
| M_LIN4 | M_LIN8 | M_LIN15 | M_LIN16 | M_LIN24 | M_LIN32
| M_TEXT | M_HERC_TEXT | M_TANDY_TEXT | M_ERROR
| M_OTHER (n : nat).

Definition VGAModes_eqb (a b : VGAModes) : bool :=
  match a, b with
  | M_CGA2, M_CGA2 | M_CGA4, M_CGA4 | M_CGA16, M_CGA16 | M_EGA, M_EGA
  | M_VGA, M_VGA | M_LIN4, M_LIN4 | M_LIN8, M_LIN8 | M_LIN15, M_LIN15
  | M_LIN16, M_LIN16 | M_LIN24, M_LIN24 | M_LIN32, M_LIN32
  | M_TEXT, M_TEXT | M_HERC_TEXT, M_HERC_TEXT
  | M_TANDY_TEXT, M_TANDY_TEXT | M_ERROR, M_ERROR => true
  | M_OTHER n, M_OTHER m => Nat.eqb n m
  | _, _ => false
  end.

(** The registers of [vga] the driver reads.  The CRTC registers are
    byte registers; [config_display_start] is a machine word. *)
Record VGA_Type := mkVGA {
  mode : VGAModes;
  crtc_offset : Z;
  crtc_maximum_scan_line : Z;
  crtc_vertical_display_end : Z;
  crtc_cursor_location_high : Z;
  crtc_cursor_location_low : Z;
  crtc_cursor_start : Z;
  config_display_start : Z
}.

(** ** Tables *)

Definition cp437_to_unicode : list Z :=
  [
    0x0000; 0x263A; 0x263B; 0x2665; 0x2666; 0x2663; 0x2660; 0x2022;
    0x25D8; 0x25CB; 0x25D9; 0x2642; 0x2640; 0x266A; 0x266B; 0x263C;
    0x25BA; 0x25C4; 0x2195; 0x203C; 0x00B6; 0x00A7; 0x25AC; 0x21A8;
    0x2191; 0x2193; 0x2192; 0x2190; 0x221F; 0x2194; 0x25B2; 0x25BC;
    0x0020; 0x0021; 0x0022; 0x0023; 0x0024; 0x0025; 0x0026; 0x0027;
    0x0028; 0x0029; 0x002A; 0x002B; 0x002C; 0x002D; 0x002E; 0x002F;
    0x0030; 0x0031; 0x0032; 0x0033; 0x0034; 0x0035; 0x0036; 0x0037;
    0x0038; 0x0039; 0x003A; 0x003B; 0x003C; 0x003D; 0x003E; 0x003F;
    0x0040; 0x0041; 0x0042; 0x0043; 0x0044; 0x0045; 0x0046; 0x0047;
    0x0048; 0x0049; 0x004A; 0x004B; 0x004C; 0x004D; 0x004E; 0x004F;
    0x0050; 0x0051; 0x0052; 0x0053; 0x0054; 0x0055; 0x0056; 0x0057;
    0x0058; 0x0059; 0x005A; 0x005B; 0x005C; 0x005D; 0x005E; 0x005F;
    0x0060; 0x0061; 0x0062; 0x0063; 0x0064; 0x0065; 0x0066; 0x0067;
    0x0068; 0x0069; 0x006A; 0x006B; 0x006C; 0x006D; 0x006E; 0x006F;
    0x0070; 0x0071; 0x0072; 0x0073; 0x0074; 0x0075; 0x0076; 0x0077;
    0x0078; 0x0079; 0x007A; 0x007B; 0x007C; 0x007D; 0x007E; 0x2302;
    0x00C7; 0x00FC; 0x00E9; 0x00E2; 0x00E4; 0x00E0; 0x00E5; 0x00E7;
    0x00EA; 0x00EB; 0x00E8; 0x00EF; 0x00EE; 0x00EC; 0x00C4; 0x00C5;
    0x00C9; 0x00E6; 0x00C6; 0x00F4; 0x00F6; 0x00F2; 0x00FB; 0x00F9;
    0x00FF; 0x00D6; 0x00DC; 0x00A2; 0x00A3; 0x00A5; 0x20A7; 0x0192;
    0x00E1; 0x00ED; 0x00F3; 0x00FA; 0x00F1; 0x00D1; 0x00AA; 0x00BA;
    0x00BF; 0x2310; 0x00AC; 0x00BD; 0x00BC; 0x00A1; 0x00AB; 0x00BB;
    0x2591; 0x2592; 0x2593; 0x2502; 0x2524; 0x2561; 0x2562; 0x2556;
    0x2555; 0x2563; 0x2551; 0x2557; 0x255D; 0x255C; 0x255B; 0x2510;
    0x2514; 0x2534; 0x252C; 0x251C; 0x2500; 0x253C; 0x255E; 0x255F;
    0x255A; 0x2554; 0x2569; 0x2566; 0x2560; 0x2550; 0x256C; 0x2567;
    0x2568; 0x2564; 0x2565; 0x2559; 0x2558; 0x2552; 0x2553; 0x256B;
    0x256A; 0x2518; 0x250C; 0x2588; 0x2584; 0x258C; 0x2590; 0x2580;
    0x03B1; 0x00DF; 0x0393; 0x03C0; 0x03A3; 0x03C3; 0x00B5; 0x03C4;
    0x03A6; 0x0398; 0x03A9; 0x03B4; 0x221E; 0x03C6; 0x03B5; 0x2229;
    0x2261; 0x00B1; 0x2265; 0x2264; 0x2320; 0x2321; 0x00F7; 0x2248;
    0x00B0; 0x2219; 0x00B7; 0x221A; 0x207F; 0x00B2; 0x25A0; 0x00A0
  ].

Definition vga_fg : list Z := [30; 34; 32; 36; 31; 35; 33; 37; 90; 94; 92; 96; 91; 95; 93; 97].

Definition vga_bg : list Z := [40; 44; 42; 46; 41; 45; 43; 47].

Definition ascii_scancode : list Z :=
  [
    0x00; 0x1E; 0x30; 0x2E; 0x20; 0x12; 0x21; 0x22; 0x0E; 0x0F; 0x1C; 0x25; 0x26; 0x1C; 0x31; 0x18;
    0x19; 0x10; 0x13; 0x1F; 0x14; 0x16; 0x2F; 0x11; 0x2D; 0x15; 0x2C; 0x01; 0x2B; 0x1B; 0x07; 0x0C;
    0x39; 0x02; 0x28; 0x04; 0x05; 0x06; 0x08; 0x28; 0x0A; 0x0B; 0x09; 0x0D; 0x33; 0x0C; 0x34; 0x35;
    0x0B; 0x02; 0x03; 0x04; 0x05; 0x06; 0x07; 0x08; 0x09; 0x0A; 0x27; 0x27; 0x33; 0x0D; 0x34; 0x35;
    0x03; 0x1E; 0x30; 0x2E; 0x20; 0x12; 0x21; 0x22; 0x23; 0x17; 0x24; 0x25; 0x26; 0x32; 0x31; 0x18;
    0x19; 0x10; 0x13; 0x1F; 0x14; 0x16; 0x2F; 0x11; 0x2D; 0x15; 0x2C; 0x1A; 0x2B; 0x1B; 0x07; 0x0C;
    0x29; 0x1E; 0x30; 0x2E; 0x20; 0x12; 0x21; 0x22; 0x23; 0x17; 0x24; 0x25; 0x26; 0x32; 0x31; 0x18;
    0x19; 0x10; 0x13; 0x1F; 0x14; 0x16; 0x2F; 0x11; 0x2D; 0x15; 0x2C; 0x1A; 0x2B; 0x1B; 0x29; 0x0E
  ].

(** ** The driver object *)

(** The members of [class VGATextStream] the modelled functions use,
    followed by the outside world: [sock_room] is the room left in the
    client socket's send buffer, [sock_tx] the bytes delivered to the client
    so far, [sock_rx] the bytes received from the client and not read yet,
    [bios_keys] the keycodes passed to [BIOS_AddKeyToBuffer] so far. *)
Record VGATextStream := mkVGATextStream {
  client_fd_ : Z;
  current_ : Grid;
  previous_ : Grid;
  cursor_ : TextCursor;
  prev_cursor_ : TextCursor;
  cols_ : Z;
  rows_ : Z;
  prev_cols_ : Z;
  prev_rows_ : Z;
  ansi_attr_ : Z;
  ansi_row_ : Z;
  ansi_col_ : Z;
  text_buffer_ : list Z;
  input_state_ : InputState;
  csi_params_ : list Z;
  last_mode_ : VGAModes;
  mode_notified_ : bool;
  client_wants_text_ : bool;
  client_wants_graphics_ : bool;
  client_wants_audio_ : bool;
  enabled_ : bool;
  force_redraw_ : bool;
  vsync_count_ : Z;
  handshake_done_ : bool;
  sock_room : Z;
  sock_tx : list Z;
  sock_rx : list Z;
  bios_keys : list Z
}.

Definition set_client_fd_ (v : Z) (s : VGATextStream) : VGATextStream :=
  mkVGATextStream v (current_ s) (previous_ s) (cursor_ s) (prev_cursor_ s)
    (cols_ s) (rows_ s) (prev_cols_ s) (prev_rows_ s) (ansi_attr_ s)
    (ansi_row_ s) (ansi_col_ s) (text_buffer_ s) (input_state_ s)
    (csi_params_ s) (last_mode_ s) (mode_notified_ s) (client_wants_text_ s)
    (client_wants_graphics_ s) (client_wants_audio_ s) (enabled_ s)
    (force_redraw_ s) (vsync_count_ s) (handshake_done_ s) (sock_room s)
    (sock_tx s) (sock_rx s) (bios_keys s).

Definition set_current_ (v : Grid) (s : VGATextStream) : VGATextStream :=
  mkVGATextStream (client_fd_ s) v (previous_ s) (cursor_ s) (prev_cursor_ s)
    (cols_ s) (rows_ s) (prev_cols_ s) (prev_rows_ s) (ansi_attr_ s)
    (ansi_row_ s) (ansi_col_ s) (text_buffer_ s) (input_state_ s)
    (csi_params_ s) (last_mode_ s) (mode_notified_ s) (client_wants_text_ s)
    (client_wants_graphics_ s) (client_wants_audio_ s) (enabled_ s)
    (force_redraw_ s) (vsync_count_ s) (handshake_done_ s) (sock_room s)
    (sock_tx s) (sock_rx s) (bios_keys s).

Definition set_previous_ (v : Grid) (s : VGATextStream) : VGATextStream :=
  mkVGATextStream (client_fd_ s) (current_ s) v (cursor_ s) (prev_cursor_ s)
    (cols_ s) (rows_ s) (prev_cols_ s) (prev_rows_ s) (ansi_attr_ s)
    (ansi_row_ s) (ansi_col_ s) (text_buffer_ s) (input_state_ s)
    (csi_params_ s) (last_mode_ s) (mode_notified_ s) (client_wants_text_ s)
    (client_wants_graphics_ s) (client_wants_audio_ s) (enabled_ s)
    (force_redraw_ s) (vsync_count_ s) (handshake_done_ s) (sock_room s)
    (sock_tx s) (sock_rx s) (bios_keys s).

Definition set_cursor_ (v : TextCursor) (s : VGATextStream) : VGATextStream :=
  mkVGATextStream (client_fd_ s) (current_ s) (previous_ s) v (prev_cursor_ s)
    (cols_ s) (rows_ s) (prev_cols_ s) (prev_rows_ s) (ansi_attr_ s)
    (ansi_row_ s) (ansi_col_ s) (text_buffer_ s) (input_state_ s)
    (csi_params_ s) (last_mode_ s) (mode_notified_ s) (client_wants_text_ s)
    (client_wants_graphics_ s) (client_wants_audio_ s) (enabled_ s)
    (force_redraw_ s) (vsync_count_ s) (handshake_done_ s) (sock_room s)
    (sock_tx s) (sock_rx s) (bios_keys s).

Definition set_prev_cursor_ (v : TextCursor) (s : VGATextStream) : VGATextStream :=
  mkVGATextStream (client_fd_ s) (current_ s) (previous_ s) (cursor_ s) v
    (cols_ s) (rows_ s) (prev_cols_ s) (prev_rows_ s) (ansi_attr_ s)
    (ansi_row_ s) (ansi_col_ s) (text_buffer_ s) (input_state_ s)
    (csi_params_ s) (last_mode_ s) (mode_notified_ s) (client_wants_text_ s)
    (client_wants_graphics_ s) (client_wants_audio_ s) (enabled_ s)
    (force_redraw_ s) (vsync_count_ s) (handshake_done_ s) (sock_room s)
    (sock_tx s) (sock_rx s) (bios_keys s).

Definition set_cols_ (v : Z) (s : VGATextStream) : VGATextStream :=
  mkVGATextStream (client_fd_ s) (current_ s) (previous_ s) (cursor_ s)
    (prev_cursor_ s) v (rows_ s) (prev_cols_ s) (prev_rows_ s) (ansi_attr_ s)
    (ansi_row_ s) (ansi_col_ s) (text_buffer_ s) (input_state_ s)
    (csi_params_ s) (last_mode_ s) (mode_notified_ s) (client_wants_text_ s)
    (client_wants_graphics_ s) (client_wants_audio_ s) (enabled_ s)
    (force_redraw_ s) (vsync_count_ s) (handshake_done_ s) (sock_room s)
    (sock_tx s) (sock_rx s) (bios_keys s).

Definition set_rows_ (v : Z) (s : VGATextStream) : VGATextStream :=
  mkVGATextStream (client_fd_ s) (current_ s) (previous_ s) (cursor_ s)
    (prev_cursor_ s) (cols_ s) v (prev_cols_ s) (prev_rows_ s) (ansi_attr_ s)
    (ansi_row_ s) (ansi_col_ s) (text_buffer_ s) (input_state_ s)
    (csi_params_ s) (last_mode_ s) (mode_notified_ s) (client_wants_text_ s)
    (client_wants_graphics_ s) (client_wants_audio_ s) (enabled_ s)
    (force_redraw_ s) (vsync_count_ s) (handshake_done_ s) (sock_room s)
    (sock_tx s) (sock_rx s) (bios_keys s).

Definition set_prev_cols_ (v : Z) (s : VGATextStream) : VGATextStream :=
  mkVGATextStream (client_fd_ s) (current_ s) (previous_ s) (cursor_ s)
    (prev_cursor_ s) (cols_ s) (rows_ s) v (prev_rows_ s) (ansi_attr_ s)
    (ansi_row_ s) (ansi_col_ s) (text_buffer_ s) (input_state_ s)
    (csi_params_ s) (last_mode_ s) (mode_notified_ s) (client_wants_text_ s)
    (client_wants_graphics_ s) (client_wants_audio_ s) (enabled_ s)
    (force_redraw_ s) (vsync_count_ s) (handshake_done_ s) (sock_room s)
    (sock_tx s) (sock_rx s) (bios_keys s).

Definition set_prev_rows_ (v : Z) (s : VGATextStream) : VGATextStream :=
  mkVGATextStream (client_fd_ s) (current_ s) (previous_ s) (cursor_ s)
    (prev_cursor_ s) (cols_ s) (rows_ s) (prev_cols_ s) v (ansi_attr_ s)
    (ansi_row_ s) (ansi_col_ s) (text_buffer_ s) (input_state_ s)
    (csi_params_ s) (last_mode_ s) (mode_notified_ s) (client_wants_text_ s)
    (client_wants_graphics_ s) (client_wants_audio_ s) (enabled_ s)
    (force_redraw_ s) (vsync_count_ s) (handshake_done_ s) (sock_room s)
    (sock_tx s) (sock_rx s) (bios_keys s).

Definition set_ansi_attr_ (v : Z) (s : VGATextStream) : VGATextStream :=
  mkVGATextStream (client_fd_ s) (current_ s) (previous_ s) (cursor_ s)
    (prev_cursor_ s) (cols_ s) (rows_ s) (prev_cols_ s) (prev_rows_ s) v
    (ansi_row_ s) (ansi_col_ s) (text_buffer_ s) (input_state_ s)
    (csi_params_ s) (last_mode_ s) (mode_notified_ s) (client_wants_text_ s)
    (client_wants_graphics_ s) (client_wants_audio_ s) (enabled_ s)
    (force_redraw_ s) (vsync_count_ s) (handshake_done_ s) (sock_room s)
    (sock_tx s) (sock_rx s) (bios_keys s).

Definition set_ansi_row_ (v : Z) (s : VGATextStream) : VGATextStream :=
  mkVGATextStream (client_fd_ s) (current_ s) (previous_ s) (cursor_ s)
    (prev_cursor_ s) (cols_ s) (rows_ s) (prev_cols_ s) (prev_rows_ s)
    (ansi_attr_ s) v (ansi_col_ s) (text_buffer_ s) (input_state_ s)
    (csi_params_ s) (last_mode_ s) (mode_notified_ s) (client_wants_text_ s)
    (client_wants_graphics_ s) (client_wants_audio_ s) (enabled_ s)
    (force_redraw_ s) (vsync_count_ s) (handshake_done_ s) (sock_room s)
    (sock_tx s) (sock_rx s) (bios_keys s).

Definition set_ansi_col_ (v : Z) (s : VGATextStream) : VGATextStream :=
  mkVGATextStream (client_fd_ s) (current_ s) (previous_ s) (cursor_ s)
    (prev_cursor_ s) (cols_ s) (rows_ s) (prev_cols_ s) (prev_rows_ s)
    (ansi_attr_ s) (ansi_row_ s) v (text_buffer_ s) (input_state_ s)
    (csi_params_ s) (last_mode_ s) (mode_notified_ s) (client_wants_text_ s)
    (client_wants_graphics_ s) (client_wants_audio_ s) (enabled_ s)
    (force_redraw_ s) (vsync_count_ s) (handshake_done_ s) (sock_room s)
    (sock_tx s) (sock_rx s) (bios_keys s).

Definition set_text_buffer_ (v : list Z) (s : VGATextStream) : VGATextStream :=
  mkVGATextStream (client_fd_ s) (current_ s) (previous_ s) (cursor_ s)
    (prev_cursor_ s) (cols_ s) (rows_ s) (prev_cols_ s) (prev_rows_ s)
    (ansi_attr_ s) (ansi_row_ s) (ansi_col_ s) v (input_state_ s)
    (csi_params_ s) (last_mode_ s) (mode_notified_ s) (client_wants_text_ s)
    (client_wants_graphics_ s) (client_wants_audio_ s) (enabled_ s)
    (force_redraw_ s) (vsync_count_ s) (handshake_done_ s) (sock_room s)
    (sock_tx s) (sock_rx s) (bios_keys s).

Definition set_input_state_ (v : InputState) (s : VGATextStream) : VGATextStream :=
  mkVGATextStream (client_fd_ s) (current_ s) (previous_ s) (cursor_ s)
    (prev_cursor_ s) (cols_ s) (rows_ s) (prev_cols_ s) (prev_rows_ s)
    (ansi_attr_ s) (ansi_row_ s) (ansi_col_ s) (text_buffer_ s) v
    (csi_params_ s) (last_mode_ s) (mode_notified_ s) (client_wants_text_ s)
    (client_wants_graphics_ s) (client_wants_audio_ s) (enabled_ s)
    (force_redraw_ s) (vsync_count_ s) (handshake_done_ s) (sock_room s)
    (sock_tx s) (sock_rx s) (bios_keys s).

Definition set_csi_params_ (v : list Z) (s : VGATextStream) : VGATextStream :=
  mkVGATextStream (client_fd_ s) (current_ s) (previous_ s) (cursor_ s)
    (prev_cursor_ s) (cols_ s) (rows_ s) (prev_cols_ s) (prev_rows_ s)
    (ansi_attr_ s) (ansi_row_ s) (ansi_col_ s) (text_buffer_ s)
    (input_state_ s) v (last_mode_ s) (mode_notified_ s)
    (client_wants_text_ s) (client_wants_graphics_ s) (client_wants_audio_ s)
    (enabled_ s) (force_redraw_ s) (vsync_count_ s) (handshake_done_ s)
    (sock_room s) (sock_tx s) (sock_rx s) (bios_keys s).

Definition set_last_mode_ (v : VGAModes) (s : VGATextStream) : VGATextStream :=
  mkVGATextStream (client_fd_ s) (current_ s) (previous_ s) (cursor_ s)
    (prev_cursor_ s) (cols_ s) (rows_ s) (prev_cols_ s) (prev_rows_ s)
    (ansi_attr_ s) (ansi_row_ s) (ansi_col_ s) (text_buffer_ s)
    (input_state_ s) (csi_params_ s) v (mode_notified_ s)
    (client_wants_text_ s) (client_wants_graphics_ s) (client_wants_audio_ s)
    (enabled_ s) (force_redraw_ s) (vsync_count_ s) (handshake_done_ s)
    (sock_room s) (sock_tx s) (sock_rx s) (bios_keys s).

Definition set_mode_notified_ (v : bool) (s : VGATextStream) : VGATextStream :=
  mkVGATextStream (client_fd_ s) (current_ s) (previous_ s) (cursor_ s)
    (prev_cursor_ s) (cols_ s) (rows_ s) (prev_cols_ s) (prev_rows_ s)
    (ansi_attr_ s) (ansi_row_ s) (ansi_col_ s) (text_buffer_ s)
    (input_state_ s) (csi_params_ s) (last_mode_ s) v (client_wants_text_ s)
    (client_wants_graphics_ s) (client_wants_audio_ s) (enabled_ s)
    (force_redraw_ s) (vsync_count_ s) (handshake_done_ s) (sock_room s)
    (sock_tx s) (sock_rx s) (bios_keys s).

Definition set_client_wants_text_ (v : bool) (s : VGATextStream) : VGATextStream :=
  mkVGATextStream (client_fd_ s) (current_ s) (previous_ s) (cursor_ s)
    (prev_cursor_ s) (cols_ s) (rows_ s) (prev_cols_ s) (prev_rows_ s)
    (ansi_attr_ s) (ansi_row_ s) (ansi_col_ s) (text_buffer_ s)
    (input_state_ s) (csi_params_ s) (last_mode_ s) (mode_notified_ s) v
    (client_wants_graphics_ s) (client_wants_audio_ s) (enabled_ s)
    (force_redraw_ s) (vsync_count_ s) (handshake_done_ s) (sock_room s)
    (sock_tx s) (sock_rx s) (bios_keys s).

Definition set_client_wants_graphics_ (v : bool) (s : VGATextStream) : VGATextStream :=
  mkVGATextStream (client_fd_ s) (current_ s) (previous_ s) (cursor_ s)
    (prev_cursor_ s) (cols_ s) (rows_ s) (prev_cols_ s) (prev_rows_ s)
    (ansi_attr_ s) (ansi_row_ s) (ansi_col_ s) (text_buffer_ s)
    (input_state_ s) (csi_params_ s) (last_mode_ s) (mode_notified_ s)
    (client_wants_text_ s) v (client_wants_audio_ s) (enabled_ s)
    (force_redraw_ s) (vsync_count_ s) (handshake_done_ s) (sock_room s)
    (sock_tx s) (sock_rx s) (bios_keys s).

Definition set_client_wants_audio_ (v : bool) (s : VGATextStream) : VGATextStream :=
  mkVGATextStream (client_fd_ s) (current_ s) (previous_ s) (cursor_ s)
    (prev_cursor_ s) (cols_ s) (rows_ s) (prev_cols_ s) (prev_rows_ s)
    (ansi_attr_ s) (ansi_row_ s) (ansi_col_ s) (text_buffer_ s)
    (input_state_ s) (csi_params_ s) (last_mode_ s) (mode_notified_ s)
    (client_wants_text_ s) (client_wants_graphics_ s) v (enabled_ s)
    (force_redraw_ s) (vsync_count_ s) (handshake_done_ s) (sock_room s)
    (sock_tx s) (sock_rx s) (bios_keys s).

Definition set_enabled_ (v : bool) (s : VGATextStream) : VGATextStream :=
  mkVGATextStream (client_fd_ s) (current_ s) (previous_ s) (cursor_ s)
    (prev_cursor_ s) (cols_ s) (rows_ s) (prev_cols_ s) (prev_rows_ s)
    (ansi_attr_ s) (ansi_row_ s) (ansi_col_ s) (text_buffer_ s)
    (input_state_ s) (csi_params_ s) (last_mode_ s) (mode_notified_ s)
    (client_wants_text_ s) (client_wants_graphics_ s) (client_wants_audio_ s)
    v (force_redraw_ s) (vsync_count_ s) (handshake_done_ s) (sock_room s)
    (sock_tx s) (sock_rx s) (bios_keys s).

Definition set_force_redraw_ (v : bool) (s : VGATextStream) : VGATextStream :=
  mkVGATextStream (client_fd_ s) (current_ s) (previous_ s) (cursor_ s)
    (prev_cursor_ s) (cols_ s) (rows_ s) (prev_cols_ s) (prev_rows_ s)
    (ansi_attr_ s) (ansi_row_ s) (ansi_col_ s) (text_buffer_ s)
    (input_state_ s) (csi_params_ s) (last_mode_ s) (mode_notified_ s)
    (client_wants_text_ s) (client_wants_graphics_ s) (client_wants_audio_ s)
    (enabled_ s) v (vsync_count_ s) (handshake_done_ s) (sock_room s)
    (sock_tx s) (sock_rx s) (bios_keys s).

Definition set_vsync_count_ (v : Z) (s : VGATextStream) : VGATextStream :=
  mkVGATextStream (client_fd_ s) (current_ s) (previous_ s) (cursor_ s)
    (prev_cursor_ s) (cols_ s) (rows_ s) (prev_cols_ s) (prev_rows_ s)
    (ansi_attr_ s) (ansi_row_ s) (ansi_col_ s) (text_buffer_ s)
    (input_state_ s) (csi_params_ s) (last_mode_ s) (mode_notified_ s)
    (client_wants_text_ s) (client_wants_graphics_ s) (client_wants_audio_ s)
    (enabled_ s) (force_redraw_ s) v (handshake_done_ s) (sock_room s)
    (sock_tx s) (sock_rx s) (bios_keys s).

Definition set_handshake_done_ (v : bool) (s : VGATextStream) : VGATextStream :=
  mkVGATextStream (client_fd_ s) (current_ s) (previous_ s) (cursor_ s)
    (prev_cursor_ s) (cols_ s) (rows_ s) (prev_cols_ s) (prev_rows_ s)
    (ansi_attr_ s) (ansi_row_ s) (ansi_col_ s) (text_buffer_ s)
    (input_state_ s) (csi_params_ s) (last_mode_ s) (mode_notified_ s)
    (client_wants_text_ s) (client_wants_graphics_ s) (client_wants_audio_ s)
    (enabled_ s) (force_redraw_ s) (vsync_count_ s) v (sock_room s)
    (sock_tx s) (sock_rx s) (bios_keys s).

Definition set_sock_room (v : Z) (s : VGATextStream) : VGATextStream :=
  mkVGATextStream (client_fd_ s) (current_ s) (previous_ s) (cursor_ s)
    (prev_cursor_ s) (cols_ s) (rows_ s) (prev_cols_ s) (prev_rows_ s)
    (ansi_attr_ s) (ansi_row_ s) (ansi_col_ s) (text_buffer_ s)
    (input_state_ s) (csi_params_ s) (last_mode_ s) (mode_notified_ s)
    (client_wants_text_ s) (client_wants_graphics_ s) (client_wants_audio_ s)
    (enabled_ s) (force_redraw_ s) (vsync_count_ s) (handshake_done_ s) v
    (sock_tx s) (sock_rx s) (bios_keys s).

Definition set_sock_tx (v : list Z) (s : VGATextStream) : VGATextStream :=
  mkVGATextStream (client_fd_ s) (current_ s) (previous_ s) (cursor_ s)
    (prev_cursor_ s) (cols_ s) (rows_ s) (prev_cols_ s) (prev_rows_ s)
    (ansi_attr_ s) (ansi_row_ s) (ansi_col_ s) (text_buffer_ s)
    (input_state_ s) (csi_params_ s) (last_mode_ s) (mode_notified_ s)
    (client_wants_text_ s) (client_wants_graphics_ s) (client_wants_audio_ s)
    (enabled_ s) (force_redraw_ s) (vsync_count_ s) (handshake_done_ s)
    (sock_room s) v (sock_rx s) (bios_keys s).

Definition set_sock_rx (v : list Z) (s : VGATextStream) : VGATextStream :=
  mkVGATextStream (client_fd_ s) (current_ s) (previous_ s) (cursor_ s)
    (prev_cursor_ s) (cols_ s) (rows_ s) (prev_cols_ s) (prev_rows_ s)
    (ansi_attr_ s) (ansi_row_ s) (ansi_col_ s) (text_buffer_ s)
    (input_state_ s) (csi_params_ s) (last_mode_ s) (mode_notified_ s)
    (client_wants_text_ s) (client_wants_graphics_ s) (client_wants_audio_ s)
    (enabled_ s) (force_redraw_ s) (vsync_count_ s) (handshake_done_ s)
    (sock_room s) (sock_tx s) v (bios_keys s).

Definition set_bios_keys (v : list Z) (s : VGATextStream) : VGATextStream :=
  mkVGATextStream (client_fd_ s) (current_ s) (previous_ s) (cursor_ s)
    (prev_cursor_ s) (cols_ s) (rows_ s) (prev_cols_ s) (prev_rows_ s)
    (ansi_attr_ s) (ansi_row_ s) (ansi_col_ s) (text_buffer_ s)
    (input_state_ s) (csi_params_ s) (last_mode_ s) (mode_notified_ s)
    (client_wants_text_ s) (client_wants_graphics_ s) (client_wants_audio_ s)
    (enabled_ s) (force_redraw_ s) (vsync_count_ s) (handshake_done_ s)
    (sock_room s) (sock_tx s) (sock_rx s) v.

(** Simplification of field reads of updated objects. *)
Ltac obj :=
  cbn [client_fd_ current_ previous_ cursor_ prev_cursor_ cols_ rows_
       prev_cols_ prev_rows_ ansi_attr_ ansi_row_ ansi_col_ text_buffer_
       input_state_ csi_params_ last_mode_ mode_notified_
       client_wants_text_ client_wants_graphics_ client_wants_audio_
       enabled_ force_redraw_ vsync_count_ handshake_done_ sock_room
       sock_tx sock_rx bios_keys set_client_fd_ set_current_ set_previous_
       set_cursor_ set_prev_cursor_ set_cols_ set_rows_ set_prev_cols_
       set_prev_rows_ set_ansi_attr_ set_ansi_row_ set_ansi_col_
       set_text_buffer_ set_input_state_ set_csi_params_ set_last_mode_
       set_mode_notified_ set_client_wants_text_ set_client_wants_graphics_
       set_client_wants_audio_ set_enabled_ set_force_redraw_
       set_vsync_count_ set_handshake_done_ set_sock_room set_sock_tx
       set_sock_rx set_bios_keys fst snd] in *.

(** The same by full unfolding: an updated object becomes a constructor
    application. *)
Ltac obj_cbv :=
  cbv beta iota delta
      [client_fd_ current_ previous_ cursor_ prev_cursor_ cols_ rows_
       prev_cols_ prev_rows_ ansi_attr_ ansi_row_ ansi_col_ text_buffer_
       input_state_ csi_params_ last_mode_ mode_notified_
       client_wants_text_ client_wants_graphics_ client_wants_audio_
       enabled_ force_redraw_ vsync_count_ handshake_done_ sock_room
       sock_tx sock_rx bios_keys set_client_fd_ set_current_ set_previous_
       set_cursor_ set_prev_cursor_ set_cols_ set_rows_ set_prev_cols_
       set_prev_rows_ set_ansi_attr_ set_ansi_row_ set_ansi_col_
       set_text_buffer_ set_input_state_ set_csi_params_ set_last_mode_
       set_mode_notified_ set_client_wants_text_ set_client_wants_graphics_
       set_client_wants_audio_ set_enabled_ set_force_redraw_
       set_vsync_count_ set_handshake_done_ set_sock_room set_sock_tx
       set_sock_rx set_bios_keys fst snd].

(** Boolean comparisons in the form [lia] reads. *)
Ltac zbool := rewrite ?Z.gtb_ltb, ?Z.geb_leb in *.

(** Case analysis on the condition of a conditional of the goal. *)
Ltac case_if :=
  match goal with |- context [if ?b then _ else _] => destruct b eqn:? end.

(** ** The client socket *)

(** [write(client_fd_, buf, len)] on the non-blocking client socket: the
    kernel takes as many bytes as the send buffer has room for and returns
    their number, or fails with -1 when there is no room. *)
Definition sys_write (buf : list Z) (s : VGATextStream) : Z * VGATextStream :=
  if sock_room s <=? 0 then (-1, s)
  else
    let n := Z.min (sock_room s) (size buf) in
    (n, set_sock_room (sock_room s - n)
          (set_sock_tx (sock_tx s ++ firstn (Z.to_nat n) buf) s)).

(** [read(client_fd_, buf, count)]: the bytes read (at most [count], fewer
    when fewer are pending) and their number, or -1 when nothing is
    pending. *)
Definition sys_read (count : Z) (s : VGATextStream)
  : Z * list Z * VGATextStream :=
  match sock_rx s with
  | [] => (-1, [], s)
  | _ =>
      let got := firstn (Z.to_nat count) (sock_rx s) in
      (size got, got, set_sock_rx (skipn (Z.to_nat count) (sock_rx s)) s)
  end.

(** [std::vector::resize(len)]: keep the first [len] elements, pad with
    zero bytes. *)
Definition resize (len : Z) (v : list Z) : list Z :=
  firstn (Z.to_nat len) v ++ repeat 0 (Z.to_nat len - length v)%nat.

(** Store [data] into [v] from index [off] on ([read] into
    [payload.data() + total]). *)
Definition store_at (off : Z) (data v : list Z) : list Z :=
  firstn (Z.to_nat off) v ++ data
  ++ skipn (Z.to_nat off + length data)%nat v.

(** ** Protocol framing *)

(** [SendMessage(channel, data, len)] with [len = data.size()]; every caller
    passes a buffer and its size, so [data] is non-null whenever [len > 0].
    The send mutex has no effect on a single caller. *)
Definition SendMessage (channel : Z) (data : list Z) (s : VGATextStream)
  : VGATextStream :=
  let len := size data in
  if (client_fd_ s <? 0) || (len >? 0xFFFFFF) then s
  else
    let header :=
      [ channel;
        Z.land (Z.shiftr len 16) 0xFF;
        Z.land (Z.shiftr len 8) 0xFF;
        Z.land len 0xFF ] in
    let '(sent, s1) := sys_write header s in
    if negb (sent =? 4) then s1
    else if len >? 0 then snd (sys_write data s1)
    else s1.

Definition SendControl (msg : Z) (data : list Z) (s : VGATextStream)
  : VGATextStream :=
  SendMessage StreamChannel.CONTROL (msg :: data) s.

(** The payload loop of [ReadMessage]: [while (total < len)].  Every
    iteration that continues reads at least one byte, so [len - total]
    iterations are enough; [fuel] counts them. *)
Fixpoint read_payload (fuel : nat) (len total : Z) (payload : list Z)
    (s : VGATextStream) : bool * list Z * VGATextStream :=
  if total <? len then
    match fuel with
    | O => (false, payload, s)
    | S fuel' =>
        let '(n, got, s') := sys_read (len - total) s in
        if n <=? 0 then (false, payload, s')
        else read_payload fuel' len (total + n) (store_at total got payload) s'
    end
  else (true, payload, s).

(** [ReadMessage(channel, payload)]: the result, the two output arguments
    and the object.  [channel] and [payload] come in with the values the
    caller's variables hold. *)
Definition ReadMessage (channel : Z) (payload : list Z) (s : VGATextStream)
  : bool * Z * list Z * VGATextStream :=
  if client_fd_ s <? 0 then (false, channel, payload, s)
  else
    let '(n, header, s1) := sys_read 4 s in
    if negb (n =? 4) then (false, channel, payload, s1)
    else
      let channel := nth 0 header 0 in
      let len :=
        Z.lor (Z.lor (Z.shiftl (nth 1 header 0) 16)
                     (Z.shiftl (nth 2 header 0) 8))
              (nth 3 header 0) in
      let payload := resize len payload in
      if len >? 0 then
        let '(ok, payload, s2) :=
          read_payload (Z.to_nat len) len 0 payload s1 in
        (ok, channel, payload, s2)
      else (true, channel, payload, s1).

(** ** ANSI output generation *)

Definition push_back (b : Z) (s : VGATextStream) : VGATextStream :=
  set_text_buffer_ (text_buffer_ s ++ [b]) s.

Definition insert_end (bs : list Z) (s : VGATextStream) : VGATextStream :=
  set_text_buffer_ (text_buffer_ s ++ bs) s.

(** The decimal digits of a non-negative number, most significant first;
    ten digits cover every [int]. *)
Fixpoint digits (fuel : nat) (n : Z) (acc : list Z) : list Z :=
  match fuel with
  | O => acc
  | S fuel' =>
      let acc' := (0x30 + n mod 10) :: acc in
      if n / 10 =? 0 then acc' else digits fuel' (n / 10) acc'
  end.

(** The conversion ["%d"] of [snprintf]. *)
Definition fmt_d (n : Z) : list Z :=
  if n <? 0 then 0x2D :: digits 10 (- n) [] else digits 10 n [].

(** The text [snprintf(buf, 16, "\x1b[%d;%dH", row + 1, col + 1)] writes
    for [EmitMoveCursor(row, col)]; it is at most 14 characters for the rows
    and columns a cursor can have, so all of it is in [buf]. *)
Definition move_bytes (r c : Z) : list Z :=
  [0x1B; 0x5B] ++ fmt_d (r + 1) ++ [0x3B] ++ fmt_d (c + 1) ++ [0x48].

Definition EmitMoveCursor (r c : Z) (s : VGATextStream) : VGATextStream :=
  set_ansi_col_ c (set_ansi_row_ r (insert_end (move_bytes r c) s)).

(** The text [EmitSetAttribute(attr)] formats: ["\x1b[0;%d;%d;5m"] when the
    blink bit is set, ["\x1b[0;%d;%dm"] otherwise. *)
Definition sgr_bytes (attr : Z) : list Z :=
  let fg := tbl vga_fg (Z.land attr 0x0F) in
  let bg := tbl vga_bg (Z.land (Z.shiftr attr 4) 0x07) in
  let blink := negb (Z.land attr 0x80 =? 0) in
  if blink then
    [0x1B; 0x5B; 0x30; 0x3B] ++ fmt_d fg ++ [0x3B] ++ fmt_d bg
    ++ [0x3B; 0x35; 0x6D]
  else
    [0x1B; 0x5B; 0x30; 0x3B] ++ fmt_d fg ++ [0x3B] ++ fmt_d bg ++ [0x6D].

Definition EmitSetAttribute (attr : Z) (s : VGATextStream) : VGATextStream :=
  set_ansi_attr_ attr (insert_end (sgr_bytes attr) s).

(** The UTF-8 bytes [EmitCharacter] appends for the CP437 byte [ch]. *)
Definition utf8_of_cp437 (ch : Z) : list Z :=
  let u := tbl cp437_to_unicode ch in
  if u <? 0x80 then [to_u8 u]
  else if u <? 0x800 then
    [ to_u8 (Z.lor 0xC0 (Z.shiftr u 6));
      to_u8 (Z.lor 0x80 (Z.land u 0x3F)) ]
  else
    [ to_u8 (Z.lor 0xE0 (Z.shiftr u 12));
      to_u8 (Z.lor 0x80 (Z.land (Z.shiftr u 6) 0x3F));
      to_u8 (Z.lor 0x80 (Z.land u 0x3F)) ].

Definition EmitCharacter (ch : Z) (s : VGATextStream) : VGATextStream :=
  let s := insert_end (utf8_of_cp437 ch) s in
  let s := set_ansi_col_ (ansi_col_ s + 1) s in
  if ansi_col_ s >=? cols_ s then
    set_ansi_row_ (ansi_row_ s + 1) (set_ansi_col_ 0 s)
  else s.

Definition EmitClearScreen (s : VGATextStream) : VGATextStream :=
  let hide := [0x1B; 0x5B; 0x3F; 0x32; 0x35; 0x6C] in
  let s := insert_end hide s in
  let seq := [0x1B; 0x5B; 0x32; 0x4A; 0x1B; 0x5B; 0x48] in
  let s := insert_end seq s in
  set_ansi_col_ 0 (set_ansi_row_ 0 s).

Definition EmitCursorVisibility (vis : bool) (s : VGATextStream)
  : VGATextStream :=
  let seq :=
    if vis then [0x1B; 0x5B; 0x3F; 0x32; 0x35; 0x68]
    else [0x1B; 0x5B; 0x3F; 0x32; 0x35; 0x6C] in
  insert_end seq s.

Definition FlushTextOutput (s : VGATextStream) : VGATextStream :=
  match text_buffer_ s with
  | [] => s
  | _ => SendMessage StreamChannel.TEXT_OUT (text_buffer_ s) s
  end.

(** The cell emission both render loops share: an SGR sequence when the
    cell's attribute is not the last one emitted, then the character. *)
Definition emit_cell (curr : TextCell) (s : VGATextStream) : VGATextStream :=
  let s :=
    if negb (attribute curr =? ansi_attr_ s)
    then EmitSetAttribute (attribute curr) s else s in
  EmitCharacter (character curr) s.

(** The search for the last column of a row that is not a space on a black
    background: [while (last_col >= 0 && ...) last_col--].  It runs at most
    [cols_] times. *)
Fixpoint find_last_col (fuel : nat) (line : Z -> TextCell) (last_col : Z) : Z :=
  match fuel with
  | O => last_col
  | S fuel' =>
      if (last_col >=? 0) && (character (line last_col) =? 0x20)
         && (Z.land (attribute (line last_col)) 0x70 =? 0)
      then find_last_col fuel' line (last_col - 1)
      else last_col
  end.

(** One cell of a full redraw (the body of the loop over [col]). *)
Definition full_redraw_cell (r c : Z) (s : VGATextStream) : VGATextStream :=
  emit_cell (current_ s r c) s.

(** One row of a full redraw (the body of the loop over [row]). *)
Definition full_redraw_row (r : Z) (s : VGATextStream) : VGATextStream :=
  let s :=
    if r >? 0 then
      let s := if negb (ansi_attr_ s =? 0x07) then EmitSetAttribute 0x07 s else s in
      push_back 0x0A (push_back 0x0D s)
    else s in
  let last_col :=
    find_last_col (Z.to_nat (cols_ s)) (current_ s r) (cols_ s - 1) in
  let s :=
    for_range (Z.to_nat (last_col + 1)) 0 (full_redraw_cell r) s in
  if negb (ansi_attr_ s =? 0x07) && (last_col <? cols_ s - 1)
  then EmitSetAttribute 0x07 s else s.

(** The loop-carried state of a differential update: the write head
    [write_row], [write_col] and the object. *)
Definition DiffState : Type := Z * Z * VGATextStream.

(** One cell of a differential update (the body of the loop over [col]). *)
Definition diff_cell (r c : Z) (st : DiffState) : DiffState :=
  let '(write_row, write_col, s) := st in
  let curr := current_ s r c in
  let prev := previous_ s r c in
  if TextCell_ne curr prev then
    let s :=
      if negb (r =? write_row) || negb (c =? write_col)
      then EmitMoveCursor r c s else s in
    let s := emit_cell curr s in
    let write_row := r in
    let write_col := c + 1 in
    if write_col >=? cols_ s then (write_row + 1, 0, s)
    else (write_row, write_col, s)
  else st.

Definition diff_row (r : Z) (st : DiffState) : DiffState :=
  for_range (Z.to_nat (cols_ (snd st))) 0 (diff_cell r) st.

Definition GenerateTextOutput (s : VGATextStream) : VGATextStream :=
  let s := set_text_buffer_ [] s in
  let full := force_redraw_ s in
  let s := set_force_redraw_ false s in
  let s :=
    if full then
      let s := EmitClearScreen s in
      let s := EmitSetAttribute 0x07 s in
      let s := for_range (Z.to_nat (rows_ s)) 0 full_redraw_row s in
      set_ansi_col_ 0 (set_ansi_row_ (rows_ s - 1) s)
    else
      snd (for_range (Z.to_nat (rows_ s)) 0 diff_row (-1, -1, s)) in
  let s :=
    if TextCursor_ne (cursor_ s) (prev_cursor_ s) then
      let s :=
        if visible (cursor_ s)
        then EmitMoveCursor (row (cursor_ s)) (col (cursor_ s)) s else s in
      if negb (eqb (visible (cursor_ s)) (visible (prev_cursor_ s)))
      then EmitCursorVisibility (visible (cursor_ s)) s else s
    else s in
  let s := FlushTextOutput s in
  set_prev_cursor_ (cursor_ s) (set_previous_ (current_ s) s).

Definition Invalidate (s : VGATextStream) : VGATextStream :=
  set_ansi_col_ (-1) (set_ansi_row_ (-1) (set_ansi_attr_ 0xFF
    (set_force_redraw_ true s))).

(** ** Keyboard input parsing (ANSI to DOS scancodes) *)

(** [BIOS_AddKeyToBuffer(code)] is the emulator's: the call is recorded,
    with its keycode, at the end of [bios_keys]. *)
Definition BIOS_AddKeyToBuffer (code : Z) (s : VGATextStream) : VGATextStream :=
  set_bios_keys (bios_keys s ++ [code]) s.

Definition InjectKey (scancode ascii : Z) (extended : bool) (s : VGATextStream)
  : VGATextStream :=
  let keycode :=
    if extended then to_u16 (Z.lor (Z.shiftl scancode 8) 0x00)
    else to_u16 (Z.lor (Z.shiftl scancode 8) ascii) in
  BIOS_AddKeyToBuffer keycode s.

Definition isspace (ch : Z) : bool :=
  (ch =? 0x20) || ((0x09 <=? ch) && (ch <=? 0x0D)).

Fixpoint atoi_digits (str : list Z) (acc : Z) : Z :=
  match str with
  | ch :: rest =>
      if (0x30 <=? ch) && (ch <=? 0x39)
      then atoi_digits rest (acc * 10 + (ch - 0x30)) else acc
  | [] => acc
  end.

Fixpoint atoi_skip (str : list Z) : list Z :=
  match str with
  | ch :: rest => if isspace ch then atoi_skip rest else str
  | [] => []
  end.

(** What [strtol] returns for a number outside [long] (64 bits): the
    nearest bound. *)
Definition strtol_saturate (v : Z) : Z :=
  Z.max (-9223372036854775808) (Z.min 9223372036854775807 v).

(** [atoi]: leading white space, an optional sign, then decimal digits up
    to the first other character; the result is an [int].  For a number
    outside [int] the C standard promises nothing, and the C library computes
    [(int) strtol(str, NULL, 10)]: the number saturated to a [long], then
    truncated to 32 bits. *)
Definition atoi (str : list Z) : Z :=
  to_int
    (strtol_saturate
       match atoi_skip str with
       | ch :: rest =>
           if ch =? 0x2D then - atoi_digits rest 0
           else if ch =? 0x2B then atoi_digits rest 0
           else atoi_digits (ch :: rest) 0
       | [] => 0
       end).

(** The dispatch on the parameter of [CSI <param> ~]. *)
Definition csi_tilde (param : Z) (s : VGATextStream) : VGATextStream :=
  if param =? 1 then InjectKey 0x47 0 true s
  else if param =? 2 then InjectKey 0x52 0 true s
  else if param =? 3 then InjectKey 0x53 0 true s
  else if param =? 4 then InjectKey 0x4F 0 true s
  else if param =? 5 then InjectKey 0x49 0 true s
  else if param =? 6 then InjectKey 0x51 0 true s
  else if param =? 11 then InjectKey 0x3B 0 false s
  else if param =? 12 then InjectKey 0x3C 0 false s
  else if param =? 13 then InjectKey 0x3D 0 false s
  else if param =? 14 then InjectKey 0x3E 0 false s
  else if param =? 15 then InjectKey 0x3F 0 false s
  else if param =? 17 then InjectKey 0x40 0 false s
  else if param =? 18 then InjectKey 0x41 0 false s
  else if param =? 19 then InjectKey 0x42 0 false s
  else if param =? 20 then InjectKey 0x43 0 false s
  else if param =? 21 then InjectKey 0x44 0 false s
  else if param =? 23 then InjectKey 0x85 0 false s
  else if param =? 24 then InjectKey 0x86 0 false s
  else s.

(** The dispatch on the final byte of a CSI sequence. *)
Definition csi_final (byte : Z) (s : VGATextStream) : VGATextStream :=
  if byte =? 0x41 then InjectKey 0x48 0 true s
  else if byte =? 0x42 then InjectKey 0x50 0 true s
  else if byte =? 0x43 then InjectKey 0x4D 0 true s
  else if byte =? 0x44 then InjectKey 0x4B 0 true s
  else if byte =? 0x48 then InjectKey 0x47 0 true s
  else if byte =? 0x46 then InjectKey 0x4F 0 true s
  else if byte =? 0x7E then
    let param :=
      match csi_params_ s with [] => 0 | _ => atoi (csi_params_ s) end in
    csi_tilde param s
  else s.

(** The dispatch on the byte after [ESC O]. *)
Definition ss3_final (byte : Z) (s : VGATextStream) : VGATextStream :=
  if byte =? 0x41 then InjectKey 0x48 0 true s
  else if byte =? 0x42 then InjectKey 0x50 0 true s
  else if byte =? 0x43 then InjectKey 0x4D 0 true s
  else if byte =? 0x44 then InjectKey 0x4B 0 true s
  else if byte =? 0x50 then InjectKey 0x3B 0 false s
  else if byte =? 0x51 then InjectKey 0x3C 0 false s
  else if byte =? 0x52 then InjectKey 0x3D 0 false s
  else if byte =? 0x53 then InjectKey 0x3E 0 false s
  else s.

Definition ProcessInputByte (byte : Z) (s : VGATextStream) : VGATextStream :=
  match input_state_ s with
  | NORMAL =>
      if byte =? 0x1B then set_input_state_ ESC s
      else if byte =? 0x7F then InjectKey 0x0E 0x08 false s
      else if byte <? 0x20 then
        if byte =? 0x0D then InjectKey 0x1C 0x0D false s
        else if byte =? 0x09 then InjectKey 0x0F 0x09 false s
        else if byte =? 0x08 then InjectKey 0x0E 0x08 false s
        else if (byte >=? 1) && (byte <=? 26) then
          let sc := tbl ascii_scancode (0x61 + byte - 1) in
          InjectKey sc byte false s
        else s
      else if byte <? 0x80 then
        let sc := tbl ascii_scancode byte in
        InjectKey sc byte false s
      else s
  | ESC =>
      if byte =? 0x5B then set_csi_params_ [] (set_input_state_ CSI s)
      else if byte =? 0x4F then set_input_state_ SS3 s
      else
        let s :=
          if (byte >=? 0x61) && (byte <=? 0x7A) then
            let sc := tbl ascii_scancode byte in
            BIOS_AddKeyToBuffer (to_u16 (Z.shiftl sc 8)) s
          else InjectKey 0x01 0x1B false s in
        set_input_state_ NORMAL s
  | CSI =>
      if (byte >=? 0x30) && (byte <=? 0x3F) then
        set_csi_params_ (csi_params_ s ++ [byte]) s
      else if (byte >=? 0x40) && (byte <=? 0x7E) then
        let s := csi_final byte s in
        set_input_state_ NORMAL (set_csi_params_ [] s)
      else set_input_state_ NORMAL s
  | SS3 =>
      let s := ss3_final byte s in
      set_input_state_ NORMAL s
  end.

(** The keyboard channel carries raw terminal input: every byte of the
    payload goes through the tokenizer, in order. *)
Definition HandleKeyboardInput (data : list Z) (s : VGATextStream)
  : VGATextStream :=
  fold_left (fun s byte => ProcessInputByte byte s) data s.

Definition HandleMouseInput (data : list Z) (s : VGATextStream)
  : VGATextStream := s.

(** ** The emulator-facing part *)

Section WithEmulator.

(** The emulator's video registers and its memory, as the driver finds
    them during one call. *)
Variable vga : VGA_Type.
Variable mem_readb : Z -> Z.

Definition IsTextMode : bool :=
  match mode vga with
  | M_TEXT | M_HERC_TEXT | M_TANDY_TEXT => true
  | _ => false
  end.

Definition IsGraphicsMode : bool :=
  match mode vga with
  | M_CGA2 | M_CGA4 | M_CGA16 | M_EGA | M_VGA
  | M_LIN4 | M_LIN8 | M_LIN15 | M_LIN16 | M_LIN24 | M_LIN32 => true
  | _ => false
  end.

(** *** Session management *)

Definition SendHello (s : VGATextStream) : VGATextStream :=
  let caps :=
    [StreamCap.TEXT_OUTPUT; StreamCap.KEYBOARD_INPUT; StreamCap.MOUSE_INPUT] in
  let payload :=
    [ Z.land (Z.shiftr STREAM_PROTOCOL_VERSION 8) 0xFF;
      Z.land STREAM_PROTOCOL_VERSION 0xFF;
      to_u8 (size caps) ] ++ caps in
  SendControl ControlMsg.HELLO payload s.

Definition SendModeNotification (s : VGATextStream) : VGATextStream :=
  if negb (handshake_done_ s) then s
  else if IsTextMode then
    let data :=
      [ Z.land (Z.shiftr (cols_ s) 8) 0xFF; Z.land (cols_ s) 0xFF;
        Z.land (Z.shiftr (rows_ s) 8) 0xFF; Z.land (rows_ s) 0xFF ] in
    set_mode_notified_ true (SendControl ControlMsg.MODE_TEXT data s)
  else if IsGraphicsMode then
    set_mode_notified_ true (SendControl ControlMsg.MODE_UNSUPPORTED [] s)
  else s.

(** The effect of one capability byte of a HELLO (the [switch]). *)
Definition hello_cap (cap : Z) (s : VGATextStream) : VGATextStream :=
  if cap =? StreamCap.TEXT_OUTPUT then set_client_wants_text_ true s
  else if (cap =? StreamCap.GRAPHICS_PNG) || (cap =? StreamCap.GRAPHICS_JPEG)
          || (cap =? StreamCap.GRAPHICS_H264)
  then set_client_wants_graphics_ true s
  else if (cap =? StreamCap.AUDIO_PCM) || (cap =? StreamCap.AUDIO_OPUS)
  then set_client_wants_audio_ true s
  else s.

(** The capability loop of [HandleHello]:
    [for (i = 0; i < cap_count && (3 + i) < payload.size(); i++)].  It runs
    at most [cap_count] times. *)
Fixpoint hello_caps (fuel : nat) (i cap_count : Z) (payload : list Z)
    (s : VGATextStream) : VGATextStream :=
  match fuel with
  | O => s
  | S fuel' =>
      if (i <? cap_count) && (3 + i <? size payload) then
        let cap := nth (Z.to_nat (3 + i)) payload 0 in
        hello_caps fuel' (i + 1) cap_count payload (hello_cap cap s)
      else s
  end.

Definition HandleHello (payload : list Z) (s : VGATextStream) : VGATextStream :=
  if size payload <? 3 then s
  else
    let cap_count := nth 2 payload 0 in
    let s := set_client_wants_text_ false s in
    let s := set_client_wants_graphics_ false s in
    let s := set_client_wants_audio_ false s in
    let s := hello_caps (Z.to_nat cap_count) 0 cap_count payload s in
    let s := set_handshake_done_ true s in
    SendModeNotification s.

(** [close(client_fd_)] and the bookkeeping that follows it. *)
Definition drop_client (s : VGATextStream) : VGATextStream :=
  set_handshake_done_ false (set_client_fd_ (-1) s).

Definition HandleControlInput (data : list Z) (s : VGATextStream)
  : VGATextStream :=
  match data with
  | [] => s
  | msg :: msg_data =>
      if msg =? ControlMsg.HELLO then HandleHello msg_data s
      else if msg =? ControlMsg.GOODBYE then drop_client s
      else if msg =? ControlMsg.REFRESH then Invalidate s
      else s
  end.

Definition ProcessMessage (channel : Z) (payload : list Z) (s : VGATextStream)
  : VGATextStream :=
  if channel =? StreamChannel.CONTROL then HandleControlInput payload s
  else if channel =? StreamChannel.KEYBOARD_IN then HandleKeyboardInput payload s
  else if channel =? StreamChannel.MOUSE_IN then HandleMouseInput payload s
  else s.

(** *** Text buffer snapshot *)

(** The cell copy of [SnapshotTextBuffer] (the body of the loop over
    [col]); addresses are 32-bit [PhysPt] values. *)
Definition snapshot_cell (base r c : Z) (s : VGATextStream) : VGATextStream :=
  let addr := to_u32 (base + (r * cols_ s + c) * 2) in
  set_current_
    (grid_set (current_ s) r c
       (mkTextCell (mem_readb addr) (mem_readb (to_u32 (addr + 1))))) s.

Definition SnapshotTextBuffer (s : VGATextStream) : VGATextStream :=
  let cols :=
    if crtc_offset vga >? 0 then to_int (crtc_offset vga * 2) else 80 in
  let cols := if cols >? TEXTSTREAM_MAX_COLS then TEXTSTREAM_MAX_COLS else cols in
  let s := set_cols_ cols s in
  let max_sl := Z.land (crtc_maximum_scan_line vga) 0x1F in
  let rows :=
    if max_sl >? 0
    then to_int ((crtc_vertical_display_end vga + 1) / (max_sl + 1)) else 25 in
  let rows := if rows >? TEXTSTREAM_MAX_ROWS then TEXTSTREAM_MAX_ROWS else rows in
  let rows := if rows <? 24 then 25 else rows in
  let s := set_rows_ rows s in
  let s :=
    if negb (cols_ s =? prev_cols_ s) || negb (rows_ s =? prev_rows_ s) then
      let s := set_force_redraw_ true s in
      let s := set_prev_cols_ (cols_ s) s in
      let s := set_prev_rows_ (rows_ s) s in
      SendModeNotification s
    else s in
  let base := to_u32 (0xB8000 + config_display_start vga * 2) in
  for_range (Z.to_nat (rows_ s)) 0
    (fun r s => for_range (Z.to_nat (cols_ s)) 0 (snapshot_cell base r) s) s.

Definition SnapshotCursor (s : VGATextStream) : VGATextStream :=
  let pos :=
    Z.lor (Z.shiftl (crtc_cursor_location_high vga) 8)
          (crtc_cursor_location_low vga) in
  let r := if cols_ s >? 0 then to_u16 (pos / cols_ s) else 0 in
  let c := if cols_ s >? 0 then to_u16 (pos mod cols_ s) else 0 in
  let vis := Z.land (crtc_cursor_start vga) 0x20 =? 0 in
  set_cursor_ (mkTextCursor r c vis) s.

(** *** VSync handler *)

Definition OnVSync (s : VGATextStream) : VGATextStream :=
  if negb (enabled_ s) || (client_fd_ s <? 0) || negb (handshake_done_ s)
  then s
  else
    let s := set_vsync_count_ (vsync_count_ s + 1) s in
    let current_mode := mode vga in
    let s :=
      if negb (VGAModes_eqb current_mode (last_mode_ s)) then
        let s := set_last_mode_ current_mode s in
        let s := set_mode_notified_ false s in
        let s := SendModeNotification s in
        set_force_redraw_ true s
      else s in
    if IsTextMode && client_wants_text_ s then
      let s :=
        if Z.rem (vsync_count_ s) 120 =? 0
        then set_force_redraw_ true s else s in
      let s := SnapshotTextBuffer s in
      let s := SnapshotCursor s in
      GenerateTextOutput s
    else s.

End WithEmulator.

(** ** The reader thread *)

Section InputThread.

Variable vga : VGA_Type.

(** The branch of [InputThreadFunc] that takes a new connection, [accepted]
    being what [accept] returned. *)
Definition accept_client (accepted : Z) (s : VGATextStream) : VGATextStream :=
  let s := set_client_fd_ accepted s in
  if client_fd_ s >=? 0 then
    let s := set_handshake_done_ false s in
    let s := set_mode_notified_ false s in
    let s := SendHello s in
    Invalidate s
  else s.

(** The branch that reads one message once [poll] reported input;
    [channel0] is what the uninitialised [channel] holds, [peek] what
    [recv(.., MSG_PEEK)] returns after a failed read and [eagain] whether
    [errno] is then [EAGAIN]. *)
Definition read_client (channel0 peek : Z) (eagain : bool) (s : VGATextStream)
  : VGATextStream :=
  let '(ok, channel, payload, s) := ReadMessage channel0 [] s in
  if ok then ProcessMessage vga channel payload s
  else if (peek =? 0) || ((peek <? 0) && negb eagain)
  then drop_client s else s.

(** One pass of the loop of [InputThreadFunc] while [running_] holds;
    [listen_fd] is the value of [listen_fd_] and [readable] whether [poll]
    reported input on the client socket.  The pass runs on its own, as
    every call does here. *)
Definition InputThreadFunc_pass (listen_fd accepted : Z) (readable : bool)
    (channel0 peek : Z) (eagain : bool) (s : VGATextStream) : VGATextStream :=
  let s :=
    if (client_fd_ s <? 0) && (listen_fd >=? 0)
    then accept_client accepted s else s in
  if client_fd_ s >=? 0 then
    if readable then read_client channel0 peek eagain s else s
  else s.

End InputThread.

(** [Close], as far as the object modelled here goes: the client socket is
    closed and the handshake forgotten.  The thread, the listening socket
    and its path are not part of the object. *)
Definition Close (s : VGATextStream) : VGATextStream :=
  let s := if client_fd_ s >=? 0 then set_client_fd_ (-1) s else s in
  set_handshake_done_ false s.

(** * Vocabulary of the statements *)

(** The wire frame of [(channel, payload)]: the channel byte, the payload
    length as three big-endian bytes, the payload. *)
Definition frame_of (channel : Z) (payload : list Z) : list Z :=
  [ channel;
    Z.land (Z.shiftr (size payload) 16) 0xFF;
    Z.land (Z.shiftr (size payload) 8) 0xFF;
    Z.land (size payload) 0xFF ] ++ payload.

(** [only_socket s s']: [s'] is [s] up to the client socket's send side. *)
Definition only_socket (s s' : VGATextStream) : Prop :=
  exists room tx, s' = set_sock_room room (set_sock_tx tx s).

(** The object as the constructor and the default member initialisers
    leave it: no client, zeroed frame buffers, 80x25, unknown render state.
    [cursor_] and [prev_cursor_] have no initialiser; [c0] and [p0] stand
    for what they hold.  The socket has [room] bytes of room. *)
Definition new_VGATextStream (c0 p0 : TextCursor) (room : Z) : VGATextStream :=
  {| client_fd_ := -1;
     current_ := fun _ _ => mkTextCell 0 0;
     previous_ := fun _ _ => mkTextCell 0 0;
     cursor_ := c0; prev_cursor_ := p0;
     cols_ := 80; rows_ := 25; prev_cols_ := 0; prev_rows_ := 0;
     ansi_attr_ := 0xFF; ansi_row_ := -1; ansi_col_ := -1;
     text_buffer_ := [];
     input_state_ := NORMAL; csi_params_ := [];
     last_mode_ := M_ERROR; mode_notified_ := false;
     client_wants_text_ := true; client_wants_graphics_ := false;
     client_wants_audio_ := false;
     enabled_ := false; force_redraw_ := true; vsync_count_ := 0;
     handshake_done_ := false;
     sock_room := room; sock_tx := []; sock_rx := []; bios_keys := [] |}.

(** A freshly accepted client on descriptor 5, before its HELLO. *)
Definition accepted_client : VGATextStream :=
  set_enabled_ true
    (set_client_fd_ 5
       (new_VGATextStream (mkTextCursor 0 0 false) (mkTextCursor 0 0 false)
          65536)).

(** A standard 80x25 colour text mode. *)
Definition vga_text_80x25 : VGA_Type :=
  {| mode := M_TEXT; crtc_offset := 40; crtc_maximum_scan_line := 0x4F;
     crtc_vertical_display_end := 0x8F; crtc_cursor_location_high := 0;
     crtc_cursor_location_low := 0; crtc_cursor_start := 0x0D;
     config_display_start := 0 |}.

(** [only_parser s s']: [s'] is [s] up to the tokenizer's state and the
    keys handed to the BIOS. *)
Definition only_parser (s s' : VGATextStream) : Prop :=
  exists st params keys,
    s' = set_bios_keys keys (set_csi_params_ params (set_input_state_ st s)).

(** A space on a black background, which a full redraw trims at the end of
    a row. *)
Definition is_blank (c : TextCell) : bool :=
  (character c =? 0x20) && (Z.land (attribute c) 0x70 =? 0).

(** The capability bytes a HELLO payload really holds: the bytes after the
    3-byte header, at most as many as the count byte announces. *)
Definition caps_present (payload : list Z) : list Z :=
  firstn (Z.to_nat (nth 2 payload 0)) (skipn 3 payload).

(** Whether one of the capability ids [ids] appears among [caps]. *)
Definition has_cap (ids caps : list Z) : bool :=
  existsb (fun cap => existsb (Z.eqb cap) ids) caps.

(** The dimensions [SnapshotTextBuffer] computes from the registers. *)
Definition snapshot_cols (vga : VGA_Type) : Z :=
  let cols :=
    if crtc_offset vga >? 0 then to_int (crtc_offset vga * 2) else 80 in
  if cols >? TEXTSTREAM_MAX_COLS then TEXTSTREAM_MAX_COLS else cols.

Definition snapshot_rows (vga : VGA_Type) : Z :=
  let max_sl := Z.land (crtc_maximum_scan_line vga) 0x1F in
  let rows :=
    if max_sl >? 0
    then to_int ((crtc_vertical_display_end vga + 1) / (max_sl + 1)) else 25 in
  let rows := if rows >? TEXTSTREAM_MAX_ROWS then TEXTSTREAM_MAX_ROWS else rows in
  if rows <? 24 then 25 else rows.

(** [emitted s out attr s']: [s'] is [s] after the bytes [out] were
    appended to the text buffer, with [attr] the last attribute emitted;
    the virtual cursor may have moved, nothing else changed. *)
Definition emitted (s : VGATextStream) (out : list Z) (attr : Z)
    (s' : VGATextStream) : Prop :=
  exists r c,
    s' = set_ansi_col_ c (set_ansi_row_ r (set_ansi_attr_ attr
           (set_text_buffer_ (text_buffer_ s ++ out) s))).

(** What rendering never touches: the frame buffers and the width. *)
Definition same_screen (s s' : VGATextStream) : Prop :=
  current_ s' = current_ s /\ previous_ s' = previous_ s /\ cols_ s' = cols_ s.

(** The indices [i, i+1, ..., i+n-1] a loop visits. *)
Fixpoint zseq (n : nat) (i : Z) : list Z :=
  match n with
  | O => []
  | S n' => i :: zseq n' (i + 1)
  end.

(** The cells of a [rows] x [cols] screen in row-major order, the order in
    which a differential update visits them. *)
Definition all_cells (rows cols : nat) : list (Z * Z) :=
  flat_map (fun r => map (pair r) (zseq cols 0)) (zseq rows 0).

(** The differential update of a sequence of cells, one after the other. *)
Definition diff_cells (cells : list (Z * Z)) (st : DiffState) : DiffState :=
  fold_left (fun st rc => diff_cell (fst rc) (snd rc) st) cells st.

Definition cell_at (s : VGATextStream) (rc : Z * Z) : TextCell :=
  current_ s (fst rc) (snd rc).

(** Whether the cell at [rc] differs from the previous frame. *)
Definition changed (s : VGATextStream) (rc : Z * Z) : bool :=
  TextCell_ne (current_ s (fst rc) (snd rc)) (previous_ s (fst rc) (snd rc)).

(** The parts of a row of a full redraw: the attribute reset and line break
    before it, the last column to emit, the attribute reset after it. *)
Definition row_prelude (r : Z) (s : VGATextStream) : VGATextStream :=
  if r >? 0 then
    let s := if negb (ansi_attr_ s =? 0x07) then EmitSetAttribute 0x07 s else s in
    push_back 0x0A (push_back 0x0D s)
  else s.

Definition row_last_col (s : VGATextStream) (r : Z) : Z :=
  find_last_col (Z.to_nat (cols_ s)) (current_ s r) (cols_ s - 1).

Definition row_epilogue (last_col : Z) (s : VGATextStream) : VGATextStream :=
  if negb (ansi_attr_ s =? 0x07) && (last_col <? cols_ s - 1)
  then EmitSetAttribute 0x07 s else s.

(** The number of positions of [l] at which [pat] occurs. *)
Fixpoint count_sub (pat l : list Z) : nat :=
  match l with
  | [] => 0
  | _ :: l' =>
      (if list_eq_dec Z.eq_dec (firstn (length pat) l) pat then 1 else 0)
      + count_sub pat l'
  end%nat.

(** The escape sequences of a frame. *)
Definition hide_cursor : list Z := [0x1B; 0x5B; 0x3F; 0x32; 0x35; 0x6C].
Definition show_cursor : list Z := [0x1B; 0x5B; 0x3F; 0x32; 0x35; 0x68].
Definition clear_home : list Z := [0x1B; 0x5B; 0x32; 0x4A; 0x1B; 0x5B; 0x48].
Definition sgr_default : list Z :=
  [0x1B; 0x5B; 0x30; 0x3B; 0x33; 0x37; 0x3B; 0x34; 0x30; 0x6D].
Definition crlf : list Z := [0x0D; 0x0A].

(** The payload of the single-cell scenario: cursor to row 3, column 4,
    SGR bright white on blue, the letter A. *)
Definition single_cell_payload : list Z :=
  [0x1B; 0x5B; 0x33; 0x3B; 0x34; 0x48;
   0x1B; 0x5B; 0x30; 0x3B; 0x39; 0x37; 0x3B; 0x34; 0x34; 0x6D;
   0x41].

(** A space on the default attribute, and a screen full of them. *)
Definition blank_cell : TextCell := mkTextCell 0x20 0x07.
Definition blank_grid : Grid := fun _ _ => blank_cell.

(** An 80x25 session that streams: client connected, handshake done, the
    given frame buffers and cursors, render state unknown. *)
Definition streaming_session (cur prev : Grid) (c p : TextCursor) (full : bool)
  : VGATextStream :=
  {| client_fd_ := 5;
     current_ := cur; previous_ := prev; cursor_ := c; prev_cursor_ := p;
     cols_ := 80; rows_ := 25; prev_cols_ := 80; prev_rows_ := 25;
     ansi_attr_ := 0xFF; ansi_row_ := -1; ansi_col_ := -1;
     text_buffer_ := [];
     input_state_ := NORMAL; csi_params_ := [];
     last_mode_ := M_TEXT; mode_notified_ := true;
     client_wants_text_ := true; client_wants_graphics_ := false;
     client_wants_audio_ := false;
     enabled_ := true; force_redraw_ := full; vsync_count_ := 0;
     handshake_done_ := true;
     sock_room := 65536; sock_tx := []; sock_rx := []; bios_keys := [] |}.

Definition cursor_home : TextCursor := mkTextCursor 0 0 true.

(** A blank screen due for a full redraw whose cursor, visible at the top
    left, is where the previous frame left it. *)
Definition blank_redraw : VGATextStream :=
  streaming_session blank_grid blank_grid cursor_home cursor_home true.

(** The same screen when the previous frame had the cursor hidden, as on
    the first frame of a zero-filled object. *)
Definition blank_first_frame : VGATextStream :=
  streaming_session blank_grid (fun _ _ => mkTextCell 0 0) cursor_home
    (mkTextCursor 0 0 false) true.

(** A differential frame in which the cell at row 2, column 3 turned from a
    blank into a bright white A on blue. *)
Definition single_cell_frame : VGATextStream :=
  streaming_session (grid_set blank_grid 2 3 (mkTextCell 0x41 0x1F)) blank_grid
    cursor_home cursor_home false.

(** A full redraw of a screen with a bright white on blue A at the start
    of row 0 and a B of the same attribute at the start of row 1. *)
Definition two_rows_redraw : VGATextStream :=
  streaming_session
    (grid_set (grid_set blank_grid 0 0 (mkTextCell 0x41 0x1F)) 1 0
       (mkTextCell 0x42 0x1F))
    blank_grid cursor_home cursor_home true.

(** A differential frame with two changed cells of one attribute. *)
Definition two_cells_frame : VGATextStream :=
  streaming_session
    (grid_set (grid_set blank_grid 2 3 (mkTextCell 0x41 0x1F)) 5 7
       (mkTextCell 0x42 0x1F))
    blank_grid cursor_home cursor_home false.

(** A text plane full of blanks: the character at even addresses, the
    attribute at odd ones. *)
Definition blank_memory (a : Z) : Z := if Z.even a then 0x20 else 0x07.

(** A session from the accepted client on: the server's HELLO, the client's
    HELLO, the first vsync tick over a blank 80x25 screen. *)
Definition after_first_frame : VGATextStream :=
  OnVSync vga_text_80x25 blank_memory
    (ProcessMessage vga_text_80x25 StreamChannel.CONTROL
       [ControlMsg.HELLO; 0; 1; 3; 1; 2; 3]
       (Invalidate (SendHello accepted_client))).

(** The same session after the client asked for a REFRESH and the next
    vsync tick came. *)
Definition after_refresh : VGATextStream :=
  OnVSync vga_text_80x25 blank_memory
    (ProcessMessage vga_text_80x25 StreamChannel.CONTROL [ControlMsg.REFRESH]
       after_first_frame).

(** ** Vocabulary of the further properties *)

(** A message is a channel and a payload; [frames_of] is the wire image of
    a sequence of messages, [send_frames] sends them one after the other
    and [read_frames] reads up to [n] messages, stopping at the first
    failed read. *)
Definition Message : Type := (Z * list Z)%type.

Definition frames_of (msgs : list Message) : list Z :=
  flat_map (fun m => frame_of (fst m) (snd m)) msgs.

Definition send_frames (msgs : list Message) (s : VGATextStream) : VGATextStream :=
  fold_left (fun t m => SendMessage (fst m) (snd m) t) msgs s.

Fixpoint read_frames (n : nat) (s : VGATextStream)
  : list Message * VGATextStream :=
  match n with
  | O => ([], s)
  | S n' =>
      let '(ok, channel, payload, s1) := ReadMessage 0 [] s in
      if ok then
        let '(ms, s2) := read_frames n' s1 in ((channel, payload) :: ms, s2)
      else ([], s1)
  end.

(** The two halves of [GenerateTextOutput] between the reset of the buffer
    and the flush: the cells, then the cursor. *)
Definition render_cells (full : bool) (s : VGATextStream) : VGATextStream :=
  if full then
    let s := EmitClearScreen s in
    let s := EmitSetAttribute 0x07 s in
    let s := for_range (Z.to_nat (rows_ s)) 0 full_redraw_row s in
    set_ansi_col_ 0 (set_ansi_row_ (rows_ s - 1) s)
  else
    snd (for_range (Z.to_nat (rows_ s)) 0 diff_row (-1, -1, s)).

Definition render_cursor (s : VGATextStream) : VGATextStream :=
  if TextCursor_ne (cursor_ s) (prev_cursor_ s) then
    let s :=
      if visible (cursor_ s)
      then EmitMoveCursor (row (cursor_ s)) (col (cursor_ s)) s else s in
    if negb (eqb (visible (cursor_ s)) (visible (prev_cursor_ s)))
    then EmitCursorVisibility (visible (cursor_ s)) s else s
  else s.

(** The bytes the cursor handling of a pass adds: nothing for a cursor that
    did not change; else the move when the cursor is visible, then the
    show or hide sequence when the visibility changed. *)
Definition cursor_bytes (cur prev : TextCursor) : list Z :=
  if TextCursor_ne cur prev then
    (if visible cur then move_bytes (row cur) (col cur) else [])
    ++ (if eqb (visible cur) (visible prev) then []
        else if visible cur then show_cursor else hide_cursor)
  else [].

(** The cell of video memory at row [r], column [c] of a text plane of
    [cols] columns that starts at [base]. *)
Definition video_cell (mem_readb : Z -> Z) (base cols r c : Z) : TextCell :=
  let addr := to_u32 (base + (r * cols + c) * 2) in
  mkTextCell (mem_readb addr) (mem_readb (to_u32 (addr + 1))).

(** Whether [r], [c] is a cell of a [rows] x [cols] screen. *)
Definition in_window (rows cols r c : Z) : bool :=
  (0 <=? r) && (r <? rows) && (0 <=? c) && (c <? cols).

(** Whether the dimensions the registers give differ from the last ones the
    client was told. *)
Definition dims_changed (vga : VGA_Type) (s : VGATextStream) : bool :=
  negb (snapshot_cols vga =? prev_cols_ s)
  || negb (snapshot_rows vga =? prev_rows_ s).

(** The cursor [SnapshotCursor] computes once the width is the one
    [SnapshotTextBuffer] computed. *)
Definition snapshot_cursor (vga : VGA_Type) : TextCursor :=
  let pos :=
    Z.lor (Z.shiftl (crtc_cursor_location_high vga) 8)
          (crtc_cursor_location_low vga) in
  let cols := snapshot_cols vga in
  mkTextCursor (if cols >? 0 then to_u16 (pos / cols) else 0)
               (if cols >? 0 then to_u16 (pos mod cols) else 0)
               (Z.land (crtc_cursor_start vga) 0x20 =? 0).

(** The guard of [OnVSync], and the part between the guard and the mode
    test: the tick count and the mode change. *)
Definition vsync_guard (s : VGATextStream) : bool :=
  negb (enabled_ s) || (client_fd_ s <? 0) || negb (handshake_done_ s).

Definition vsync_prologue (vga : VGA_Type) (s : VGATextStream) : VGATextStream :=
  let s := set_vsync_count_ (vsync_count_ s + 1) s in
  if negb (VGAModes_eqb (mode vga) (last_mode_ s)) then
    set_force_redraw_ true
      (SendModeNotification vga
         (set_mode_notified_ false (set_last_mode_ (mode vga) s)))
  else s.

(** The body of [OnVSync] after its guard: the statements from
    [vsync_count_++] on. *)
Definition OnVSync_body (vga : VGA_Type) (mem_readb : Z -> Z)
    (s : VGATextStream) : VGATextStream :=
  let s := vsync_prologue vga s in
  if IsTextMode vga && client_wants_text_ s then
    let s :=
      if Z.rem (vsync_count_ s) 120 =? 0
      then set_force_redraw_ true s else s in
    let s := SnapshotTextBuffer vga mem_readb s in
    let s := SnapshotCursor vga s in
    GenerateTextOutput s
  else s.

(** A tick during which the reader thread runs.  [OnVSync] evaluates its
    guard on the object as it finds it; the passes [reader] of the reader
    thread run; the body goes on with the object they left.  The members
    the guard reads, [client_fd_] and [handshake_done_], are a plain [int]
    and a plain [bool] that the reader thread writes without a lock. *)
Definition OnVSync_interleaved (vga : VGA_Type) (mem_readb : Z -> Z)
    (reader : VGATextStream -> VGATextStream) (s : VGATextStream)
  : VGATextStream :=
  if vsync_guard s then reader s
  else OnVSync_body vga mem_readb (reader s).

(** The text of row [r] of a screen whose cells all have the default
    attribute: the characters up to the last one that is not a space. *)
Definition row_text (s : VGATextStream) (r : Z) : list Z :=
  flat_map (fun c => utf8_of_cp437 (character (current_ s r c)))
           (zseq (Z.to_nat (row_last_col s r + 1)) 0).

(** The text of the first [n] rows, a line break before every row but the
    first. *)
Definition screen_text (s : VGATextStream) (n : nat) : list Z :=
  flat_map (fun r => (if r >? 0 then crlf else []) ++ row_text s r) (zseq n 0).

(** A decoder of one UTF-8 sequence of one to three bytes: the code point
    of a well-formed sequence in its shortest form, nothing otherwise. *)
Definition utf8_cont (b : Z) : bool := (0x80 <=? b) && (b <? 0xC0).

Definition utf8_decode (bs : list Z) : option Z :=
  match bs with
  | [b0] => if (0 <=? b0) && (b0 <? 0x80) then Some b0 else None
  | [b0; b1] =>
      if (0xC2 <=? b0) && (b0 <? 0xE0) && utf8_cont b1
      then Some ((b0 - 0xC0) * 64 + (b1 - 0x80)) else None
  | [b0; b1; b2] =>
      let u := (b0 - 0xE0) * 4096 + (b1 - 0x80) * 64 + (b2 - 0x80) in
      if (0xE0 <=? b0) && (b0 <? 0xF0) && utf8_cont b1 && utf8_cont b2
         && (0x800 <=? u) && negb ((0xD800 <=? u) && (u <? 0xE000))
      then Some u else None
  | _ => None
  end.

Definition option_Z_eqb (a : option Z) (b : Z) : bool :=
  match a with Some x => x =? b | None => false end.

Fixpoint bytes_eqb (a b : list Z) : bool :=
  match a, b with
  | [], [] => true
  | x :: a', y :: b' => (x =? y) && bytes_eqb a' b'
  | _, _ => false
  end.

(** The checks the 256 characters and the 256 attributes pass, one by
    one. *)
Definition utf8_check (ch : Z) : bool :=
  option_Z_eqb (utf8_decode (utf8_of_cp437 ch)) (tbl cp437_to_unicode ch)
  && ((ch =? 0)
      || forallb (fun b => (0x20 <=? b) && (b <? 256) && negb (b =? 0x7F))
           (utf8_of_cp437 ch))
  && (negb ((0x20 <=? ch) && (ch <? 0x7F))
      || bytes_eqb (utf8_of_cp437 ch) [ch]).

Definition sgr_check (a : Z) : bool :=
  forallb (fun b => implb (bytes_eqb (sgr_bytes a) (sgr_bytes b)) (a =? b))
          (zseq 256 0).

Definition is_u16 (x : Z) : Prop := 0 <= x < 65536.

Definition is_digit (d : Z) : Prop := 0x30 <= d <= 0x39.

(** [appended s s']: [s'] has the key log of [s] with at most one more
    16-bit key code at its end. *)
Definition appended (s s' : VGATextStream) : Prop :=
  exists keys,
    bios_keys s' = bios_keys s ++ keys
    /\ (length keys <= 1)%nat /\ Forall is_u16 keys.

(** A session that completed its handshake has a client. *)
Definition session_ok (s : VGATextStream) : Prop :=
  handshake_done_ s = true -> 0 <= client_fd_ s.

(** A session that streams a blank 80x25 screen, its cursor at home. *)
Definition idle_session : VGATextStream :=
  streaming_session blank_grid blank_grid cursor_home cursor_home false.

(** The registers of a 320x200 graphics mode, and of the text mode with
    the cursor at offset 300 (row 3, column 60). *)
Definition vga_graphics : VGA_Type :=
  {| mode := M_VGA; crtc_offset := 40; crtc_maximum_scan_line := 0x41;
     crtc_vertical_display_end := 0x8F; crtc_cursor_location_high := 0;
     crtc_cursor_location_low := 0; crtc_cursor_start := 0x0D;
     config_display_start := 0 |}.

Definition vga_cursor_3_60 : VGA_Type :=
  {| mode := M_TEXT; crtc_offset := 40; crtc_maximum_scan_line := 0x4F;
     crtc_vertical_display_end := 0x8F; crtc_cursor_location_high := 1;
     crtc_cursor_location_low := 0x2C; crtc_cursor_start := 0x0D;
     config_display_start := 0 |}.

(** A streaming session whose client has sent GOODBYE, not read yet. *)
Definition goodbye_pending : VGATextStream :=
  set_sock_rx (frame_of StreamChannel.CONTROL [ControlMsg.GOODBYE])
    idle_session.

(** Two passes of the reader thread: the first reads the pending message,
    the second finds no client and accepts the next one, descriptor 7, from
    the listening socket 3; nothing from the new client is pending. *)
Definition client_replaced (s : VGATextStream) : VGATextStream :=
  InputThreadFunc_pass vga_text_80x25 3 7 false 0 0 false
    (InputThreadFunc_pass vga_text_80x25 3 7 true 0 0 false s).

(** * Properties *)

(** ** Loops *)

Lemma for_range_app {St : Type} (a b : nat) (i : Z) (body : Z -> St -> St) (s : St) :
  for_range (a + b) i body s
  = for_range b (i + Z.of_nat a) body (for_range a i body s).
Proof.
  revert i s. induction a as [|a IH]; intros i s.
  - simpl. now rewrite Z.add_0_r.
  - cbn [Nat.add for_range]. rewrite IH. f_equal. lia.
Qed.

Lemma for_range_inv {St : Type} (P : St -> Prop) (n : nat) (i : Z)
    (body : Z -> St -> St) (s : St) :
  P s ->
  (forall j t, i <= j < i + Z.of_nat n -> P t -> P (body j t)) ->
  P (for_range n i body s).
Proof.
  revert i s. induction n as [|n IH]; intros i s Hs Hstep; [exact Hs|].
  cbn [for_range]. apply IH.
  - apply Hstep; [lia | exact Hs].
  - intros j t Hj. apply Hstep. lia.
Qed.

Lemma for_range_id {St : Type} (n : nat) (i : Z) (body : Z -> St -> St) (s : St) :
  (forall j, i <= j < i + Z.of_nat n -> body j s = s) ->
  for_range n i body s = s.
Proof.
  intros H. apply (for_range_inv (fun t => t = s)); [reflexivity|].
  intros j t Hj ->. now apply H.
Qed.

(** ** Framing *)

(** A 24-bit length survives the split into three big-endian bytes. *)
Lemma be24_join_split (len : Z) :
  0 <= len <= 0xFFFFFF ->
  Z.lor (Z.lor (Z.shiftl (Z.land (Z.shiftr len 16) 0xFF) 16)
               (Z.shiftl (Z.land (Z.shiftr len 8) 0xFF) 8))
        (Z.land len 0xFF) = len.
Proof.
  intros Hlen. apply Z.bits_inj'. intros n Hn.
  change 0xFF with (Z.ones 8).
  rewrite !Z.lor_spec.
  assert (Hhigh : 24 <= n -> Z.testbit len n = false).
  { intros H24. destruct (Z.eq_dec len 0) as [->|Hne]; [apply Z.bits_0|].
    apply Z.bits_above_log2; [lia|].
    apply Z.log2_lt_pow2; [lia|].
    apply Z.lt_le_trans with (2 ^ 24); [lia|].
    apply Z.pow_le_mono_r; lia. }
  destruct (Z.lt_ge_cases n 8) as [H8|H8].
  - rewrite !Z.shiftl_spec_low by lia. cbn [orb].
    rewrite Z.land_spec, Z.ones_spec_low by lia. apply andb_true_r.
  - rewrite (Z.land_spec len), (Z.ones_spec_high 8 n) by lia.
    rewrite andb_false_r, orb_false_r.
    destruct (Z.lt_ge_cases n 16) as [H16|H16].
    + rewrite (Z.shiftl_spec_low _ 16) by lia. cbn [orb].
      rewrite Z.shiftl_spec, Z.land_spec, Z.shiftr_spec by lia.
      rewrite Z.ones_spec_low by lia. rewrite andb_true_r.
      f_equal. lia.
    + rewrite !Z.shiftl_spec, !Z.land_spec, !Z.shiftr_spec by lia.
      rewrite (Z.ones_spec_high 8 (n - 8)) by lia.
      rewrite andb_false_r, orb_false_r.
      replace (n - 16 + 16) with n by lia.
      destruct (Z.lt_ge_cases n 24) as [H24|H24].
      * rewrite Z.ones_spec_low by lia. apply andb_true_r.
      * rewrite Hhigh by lia. reflexivity.
Qed.

Lemma size_nonneg (l : list Z) : 0 <= size l.
Proof. unfold size. lia. Qed.

Lemma size_app (l1 l2 : list Z) : size (l1 ++ l2) = size l1 + size l2.
Proof. unfold size. rewrite length_app. lia. Qed.

Lemma firstn_size_app (l1 l2 : list Z) :
  firstn (Z.to_nat (size l1)) (l1 ++ l2) = l1.
Proof.
  unfold size. rewrite Nat2Z.id.
  rewrite firstn_app, Nat.sub_diag, firstn_all. cbn. apply app_nil_r.
Qed.

Lemma skipn_size_app (l1 l2 : list Z) :
  skipn (Z.to_nat (size l1)) (l1 ++ l2) = l2.
Proof.
  unfold size. rewrite Nat2Z.id.
  rewrite skipn_app, Nat.sub_diag, skipn_all. reflexivity.
Qed.

Lemma only_socket_refl (s : VGATextStream) : only_socket s s.
Proof. exists (sock_room s), (sock_tx s). now destruct s. Qed.

Lemma only_socket_trans (s1 s2 s3 : VGATextStream) :
  only_socket s1 s2 -> only_socket s2 s3 -> only_socket s1 s3.
Proof.
  intros (r1 & t1 & ->) (r2 & t2 & ->). exists r2, t2. reflexivity.
Qed.

Lemma sys_write_only_socket (buf : list Z) (s : VGATextStream) :
  only_socket s (snd (sys_write buf s)).
Proof.
  unfold sys_write. destruct (sock_room s <=? 0); cbn [snd].
  - apply only_socket_refl.
  - eexists _, _. reflexivity.
Qed.

(** Whatever [SendMessage] does, it only touches the socket. *)
Lemma SendMessage_only_socket (channel : Z) (data : list Z) (s : VGATextStream) :
  only_socket s (SendMessage channel data s).
Proof.
  unfold SendMessage.
  destruct ((client_fd_ s <? 0) || (size data >? 0xFFFFFF));
    [apply only_socket_refl|].
  cbv zeta.
  match goal with
  | |- context [sys_write ?h s] =>
      pose proof (sys_write_only_socket h s) as H1;
      destruct (sys_write h s) as [sent s1]
  end.
  cbn [snd] in H1.
  destruct (negb (sent =? 4)); [exact H1|].
  destruct (size data >? 0); [|exact H1].
  eapply only_socket_trans; [exact H1 | apply sys_write_only_socket].
Qed.
Lemma sys_write_all (buf : list Z) (s : VGATextStream) :
  0 < size buf <= sock_room s ->
  sys_write buf s
  = (size buf, set_sock_room (sock_room s - size buf)
                 (set_sock_tx (sock_tx s ++ buf) s)).
Proof.
  intros H. unfold sys_write.
  destruct (sock_room s <=? 0) eqn:E; [lia|].
  rewrite Z.min_r by lia.
  replace (Z.to_nat (size buf)) with (length buf) by (unfold size; lia).
  rewrite firstn_all. reflexivity.
Qed.

Lemma size_empty (l : list Z) : size l <= 0 -> l = [].
Proof. destruct l; [reflexivity|]. unfold size. cbn [length]. lia. Qed.

Lemma SendMessage_connected (channel : Z) (data : list Z) (s : VGATextStream) :
  0 <= client_fd_ s -> size data <= 0xFFFFFF -> 4 + size data <= sock_room s ->
  SendMessage channel data s
  = set_sock_room (sock_room s - (4 + size data))
      (set_sock_tx (sock_tx s ++ frame_of channel data) s).
Proof.
  intros Hfd Hlen Hroom. pose proof (size_nonneg data) as Hnn.
  unfold SendMessage.
  destruct (client_fd_ s <? 0) eqn:E1; [lia|].
  destruct (size data >? 0xFFFFFF) eqn:E2; [zbool; lia|]. cbn [orb]. cbv zeta.
  rewrite sys_write_all by (change (size [_; _; _; _]) with 4; lia).
  change (size [_; _; _; _]) with 4. cbn [Z.eqb Pos.eqb negb].
  destruct (size data >? 0) eqn:E3; zbool.
  - rewrite sys_write_all by (obj; lia). obj.
    unfold frame_of. rewrite <- app_assoc.
    replace (sock_room s - 4 - size data) with (sock_room s - (4 + size data)) by lia.
    reflexivity.
  - rewrite (size_empty data) by lia.
    unfold frame_of. rewrite app_nil_r. reflexivity.
Qed.

Lemma store_at_all (data v : list Z) :
  length v = length data -> store_at 0 data v = data.
Proof.
  intros H. unfold store_at. cbn [Z.to_nat firstn Nat.add app].
  rewrite skipn_all2 by lia. apply app_nil_r.
Qed.

Lemma resize_length (len : Z) (v : list Z) :
  length (resize len v) = Z.to_nat len.
Proof.
  unfold resize. rewrite length_app, length_firstn, repeat_length. lia.
Qed.

Lemma sys_read_exact (a b : list Z) (s : VGATextStream) :
  a <> [] ->
  sys_read (size a) (set_sock_rx (a ++ b) s) = (size a, a, set_sock_rx b s).
Proof.
  intros Ha. unfold sys_read. obj.
  destruct (a ++ b) eqn:E; [now apply app_eq_nil in E|]. rewrite <- E.
  rewrite firstn_size_app, skipn_size_app. reflexivity.
Qed.

Lemma ReadMessage_frame (c : Z) (p rest : list Z) (channel0 : Z)
    (payload0 : list Z) (r : VGATextStream) :
  0 <= client_fd_ r -> size p <= 0xFFFFFF ->
  ReadMessage channel0 payload0 (set_sock_rx (frame_of c p ++ rest) r)
  = (true, c, p, set_sock_rx rest r).
Proof.
  intros Hfd Hlen. pose proof (size_nonneg p) as Hnn.
  unfold ReadMessage.
  replace (client_fd_ (set_sock_rx _ r) <? 0) with false by (obj; lia).
  unfold frame_of. rewrite <- app_assoc.
  match goal with
  | |- context [sys_read 4 (set_sock_rx (?h ++ ?q) r)] =>
      change 4 with (size h) at 1; rewrite (sys_read_exact h q r) by discriminate;
      change (size h) with 4
  end.
  cbn [Z.eqb Pos.eqb negb nth].
  rewrite be24_join_split by lia.
  destruct (size p >? 0) eqn:E3; zbool.
  - destruct (Z.to_nat (size p)) as [|fuel] eqn:Ef; [lia|].
    cbn [read_payload]. destruct (0 <? size p) eqn:E4; [|lia].
    rewrite Z.sub_0_r, sys_read_exact by (intros ->; discriminate).
    destruct (size p <=? 0) eqn:E5; [lia|].
    rewrite store_at_all by (rewrite resize_length; unfold size; lia).
    cbn [Z.add]. destruct fuel; cbn [read_payload]; rewrite Z.ltb_irrefl; reflexivity.
  - rewrite (size_empty p) by lia. reflexivity.
Qed.

(** The payload loop of [ReadMessage] never runs out of iterations: with
    [len - total] of them or more, the result is the same. *)
Lemma read_payload_fuel (fuel1 fuel2 : nat) (len total : Z) (payload : list Z)
    (s : VGATextStream) :
  (Z.to_nat (len - total) <= fuel1)%nat ->
  (Z.to_nat (len - total) <= fuel2)%nat ->
  read_payload fuel1 len total payload s = read_payload fuel2 len total payload s.
Proof.
  revert fuel2 total payload s.
  induction fuel1 as [|f1 IH]; intros fuel2 total payload s H1 H2.
  - destruct fuel2; cbn [read_payload]; destruct (total <? len) eqn:E;
      try reflexivity; lia.
  - destruct fuel2 as [|f2]; cbn [read_payload]; destruct (total <? len) eqn:E;
      try reflexivity; try lia.
    unfold sys_read. destruct (sock_rx s) as [|b rx] eqn:Erx; [reflexivity|].
    set (got := firstn (Z.to_nat (len - total)) (b :: rx)).
    assert (0 < size got).
    { subst got. destruct (Z.to_nat (len - total)) eqn:En; [lia|].
      unfold size. cbn [firstn length]. lia. }
    destruct (size got <=? 0) eqn:E0; [lia|].
    apply IH; lia.
Qed.

(** C1.  Framing round trip.  On a connected socket that takes the whole
    frame, [SendMessage] transmits exactly the frame of [(c, p)] (the
    channel byte, the length as three big-endian bytes, the payload) for
    every payload of at most 0xFFFFFF bytes, and [ReadMessage], run on a
    connection whose pending input starts with these bytes, returns [true]
    with exactly [c] and [p], leaving what follows the frame unread.  For
    every payload longer than 0xFFFFFF bytes [SendMessage] does nothing at
    all. *)
Theorem framing_round_trip (c : Z) (p : list Z) (s r : VGATextStream)
    (channel0 : Z) (payload0 rest : list Z) :
  (size p <= 0xFFFFFF ->
   0 <= client_fd_ s -> 4 + size p <= sock_room s -> 0 <= client_fd_ r ->
   sock_tx (SendMessage c p s) = sock_tx s ++ frame_of c p
   /\ ReadMessage channel0 payload0 (set_sock_rx (frame_of c p ++ rest) r)
      = (true, c, p, set_sock_rx rest r))
  /\ (0xFFFFFF < size p -> SendMessage c p s = s).
Proof.
  split.
  - intros Hlen Hs Hroom Hr. split.
    + rewrite SendMessage_connected by assumption. reflexivity.
    + now apply ReadMessage_frame.
  - intros Hlen. unfold SendMessage.
    destruct (size p >? 0xFFFFFF) eqn:E; [|zbool; lia].
    now rewrite orb_true_r.
Qed.

(** A two-byte payload on channel 1, and a payload of 0x1000000 bytes. *)
Lemma framing_round_trip_witness :
  (sock_tx (SendMessage 1 [0x41; 0x42] accepted_client)
   = sock_tx accepted_client ++ [1; 0; 0; 2; 0x41; 0x42]
   /\ ReadMessage 0 [] (set_sock_rx ([1; 0; 0; 2; 0x41; 0x42] ++ [7]) accepted_client)
      = (true, 1, [0x41; 0x42], set_sock_rx [7] accepted_client))
  /\ SendMessage 1 (repeat 0 (Z.to_nat 0x1000000)) accepted_client
     = accepted_client.
Proof.
  split.
  - apply (framing_round_trip 1 [0x41; 0x42] accepted_client accepted_client
             0 [] [7]); cbn; lia.
  - apply (framing_round_trip 1 (repeat 0 (Z.to_nat 0x1000000)) accepted_client
             accepted_client 0 [] []).
    unfold size. rewrite repeat_length. lia.
Defined.

(** ** Session handshake *)

Lemma SendControl_only_socket (msg : Z) (data : list Z) (s : VGATextStream) :
  only_socket s (SendControl msg data s).
Proof. apply SendMessage_only_socket. Qed.

(** [SendModeNotification] touches the socket and [mode_notified_] only. *)
Lemma SendModeNotification_effect (vga : VGA_Type) (s : VGATextStream) :
  exists room tx mn,
    SendModeNotification vga s
    = set_mode_notified_ mn (set_sock_room room (set_sock_tx tx s)).
Proof.
  unfold SendModeNotification.
  assert (Hs : exists room tx mn,
             s = set_mode_notified_ mn (set_sock_room room (set_sock_tx tx s))).
  { exists (sock_room s), (sock_tx s), (mode_notified_ s). now destruct s. }
  destruct (negb (handshake_done_ s)); [exact Hs|].
  destruct (IsTextMode vga).
  - destruct (SendControl_only_socket ControlMsg.MODE_TEXT
                [Z.land (Z.shiftr (cols_ s) 8) 255; Z.land (cols_ s) 255;
                 Z.land (Z.shiftr (rows_ s) 8) 255; Z.land (rows_ s) 255] s)
      as (room & tx & ->).
    now exists room, tx, true.
  - destruct (IsGraphicsMode vga); [|exact Hs].
    destruct (SendControl_only_socket ControlMsg.MODE_UNSUPPORTED [] s)
      as (room & tx & ->).
    now exists room, tx, true.
Qed.

Lemma skipn_nth_cons (n : nat) (l : list Z) (d : Z) :
  (n < length l)%nat -> skipn n l = nth n l d :: skipn (S n) l.
Proof.
  revert l. induction n as [|n IH]; intros [|x l] H; cbn [length] in H; try lia.
  - reflexivity.
  - cbn [skipn nth]. rewrite IH by lia. reflexivity.
Qed.

(** The capability loop handles the capability bytes present, in order. *)
Lemma hello_caps_fold (fuel : nat) (i cap_count : Z) (payload : list Z)
    (s : VGATextStream) :
  0 <= i ->
  hello_caps fuel i cap_count payload s
  = fold_left (fun t cap => hello_cap cap t)
      (firstn (Nat.min fuel (Z.to_nat (cap_count - i)))
         (skipn (Z.to_nat (3 + i)) payload)) s.
Proof.
  revert i s. induction fuel as [|fuel IH]; intros i s Hi; [reflexivity|].
  cbn [hello_caps].
  destruct (i <? cap_count) eqn:E1; cbn [andb].
  - destruct (3 + i <? size payload) eqn:E2.
    + rewrite IH by lia.
      replace (Z.to_nat (cap_count - i)) with (S (Z.to_nat (cap_count - (i + 1))))
        by lia.
      rewrite (skipn_nth_cons (Z.to_nat (3 + i)) payload 0)
        by (unfold size in E2; lia).
      cbn [Nat.min firstn fold_left].
      replace (S (Z.to_nat (3 + i))) with (Z.to_nat (3 + (i + 1))) by lia.
      reflexivity.
    + rewrite skipn_all2 by (unfold size in E2; lia).
      now rewrite firstn_nil.
  - replace (Z.to_nat (cap_count - i)) with 0%nat by lia.
    now rewrite Nat.min_0_r.
Qed.

Lemma hello_cap_flags (caps : list Z) (s : VGATextStream) :
  let s' := fold_left (fun t cap => hello_cap cap t) caps s in
  client_wants_text_ s' = client_wants_text_ s || has_cap [0x01] caps
  /\ client_wants_graphics_ s'
     = client_wants_graphics_ s || has_cap [0x10; 0x11; 0x12] caps
  /\ client_wants_audio_ s' = client_wants_audio_ s || has_cap [0x20; 0x21] caps
  /\ client_fd_ s' = client_fd_ s
  /\ sock_tx s' = sock_tx s.
Proof.
  revert s. induction caps as [|cap caps IH]; intros s; cbn zeta.
  - cbn. now rewrite !orb_false_r.
  - cbn [fold_left]. specialize (IH (hello_cap cap s)). cbn zeta in IH.
    destruct IH as (-> & -> & -> & -> & ->).
    change (has_cap ?ids (cap :: caps)) with
      (existsb (Z.eqb cap) ids || has_cap ids caps).
    cbn [existsb].
    generalize (has_cap [1] caps), (has_cap [16; 17; 18] caps),
      (has_cap [32; 33] caps). intros h1 h2 h3.
    unfold hello_cap.
    change StreamCap.TEXT_OUTPUT with 0x01.
    change StreamCap.GRAPHICS_PNG with 0x10.
    change StreamCap.GRAPHICS_JPEG with 0x11.
    change StreamCap.GRAPHICS_H264 with 0x12.
    change StreamCap.AUDIO_PCM with 0x20.
    change StreamCap.AUDIO_OPUS with 0x21.
    destruct (cap =? 1) eqn:E1; destruct (cap =? 16) eqn:E2;
      destruct (cap =? 17) eqn:E3; destruct (cap =? 18) eqn:E4;
      destruct (cap =? 32) eqn:E5; destruct (cap =? 33) eqn:E6;
      try lia; cbn [orb]; obj;
      destruct (client_wants_text_ s), (client_wants_graphics_ s),
        (client_wants_audio_ s); cbn [orb]; repeat split; reflexivity.
Qed.

Lemma HandleHello_short (vga : VGA_Type) (payload : list Z) (s : VGATextStream) :
  size payload < 3 -> HandleHello vga payload s = s.
Proof.
  intros H. unfold HandleHello.
  destruct (size payload <? 3) eqn:E; [reflexivity|lia].
Qed.

(** C5.  HELLO capability parsing.  For a HELLO payload of at least 3
    bytes, after [HandleHello] the flag [client_wants_text_] tells whether
    capability id 0x01 is among the capability bytes present in the payload
    (at most as many as the count byte says, stopping at the payload's
    end), [client_wants_graphics_] whether one of 0x10, 0x11, 0x12 is,
    [client_wants_audio_] whether 0x20 or 0x21 is; any other id changes
    nothing; the handshake is done and the client stays connected.  For a
    payload of fewer than 3 bytes [HandleHello] leaves the whole object as
    it was: flags, [handshake_done_] and the connection. *)
Theorem hello_capability_parsing (vga : VGA_Type) (payload : list Z)
    (s : VGATextStream) :
  (3 <= size payload ->
   let s' := HandleHello vga payload s in
   client_wants_text_ s' = has_cap [0x01] (caps_present payload)
   /\ client_wants_graphics_ s'
      = has_cap [0x10; 0x11; 0x12] (caps_present payload)
   /\ client_wants_audio_ s' = has_cap [0x20; 0x21] (caps_present payload)
   /\ handshake_done_ s' = true
   /\ client_fd_ s' = client_fd_ s)
  /\ (size payload < 3 -> HandleHello vga payload s = s).
Proof.
  split; [|apply HandleHello_short].
  intros Hlen. unfold HandleHello.
  destruct (size payload <? 3) eqn:E; [lia|]. cbv zeta.
  match goal with
  | |- context [SendModeNotification vga ?t] =>
      destruct (SendModeNotification_effect vga t) as (room & tx & mn & ->)
  end.
  obj. rewrite hello_caps_fold by lia.
  rewrite Z.sub_0_r, Z.add_0_r, Nat.min_id. change (Z.to_nat 3) with 3%nat.
  fold (caps_present payload).
  match goal with
  | |- context [fold_left _ _ ?t] =>
      pose proof (hello_cap_flags (caps_present payload) t) as H
  end.
  cbv zeta in H. destruct H as (-> & -> & -> & -> & _). obj.
  repeat split; reflexivity.
Qed.

(** A HELLO that announces five capabilities and holds two, one of them
    unknown; and a HELLO cut short after two bytes. *)
Lemma hello_capability_parsing_witness :
  (let s' := HandleHello vga_text_80x25 [0; 1; 5; 0x99; 0x10] accepted_client in
   client_wants_text_ s' = false
   /\ client_wants_graphics_ s' = true
   /\ client_wants_audio_ s' = false
   /\ handshake_done_ s' = true
   /\ client_fd_ s' = 5)
  /\ HandleHello vga_text_80x25 [0; 1] accepted_client = accepted_client.
Proof.
  split.
  - apply (hello_capability_parsing vga_text_80x25 [0; 1; 5; 0x99; 0x10]
             accepted_client). cbn. lia.
  - apply (hello_capability_parsing vga_text_80x25 [0; 1] accepted_client).
    cbn. lia.
Defined.

Lemma only_parser_refl (s : VGATextStream) : only_parser s s.
Proof.
  exists (input_state_ s), (csi_params_ s), (bios_keys s). now destruct s.
Qed.

Lemma only_parser_trans (s1 s2 s3 : VGATextStream) :
  only_parser s1 s2 -> only_parser s2 s3 -> only_parser s1 s3.
Proof.
  intros (a & b & c & ->) (d & e & f & ->). exists d, e, f. reflexivity.
Qed.

Lemma ProcessInputByte_only_parser (byte : Z) (s : VGATextStream) :
  only_parser s (ProcessInputByte byte s).
Proof.
  unfold ProcessInputByte, csi_final, csi_tilde, ss3_final, InjectKey,
    BIOS_AddKeyToBuffer.
  destruct s as [? ? ? ? ? ? ? ? ? ? ? ? ? st params ? ? ? ? ? ? ? ? ? ? ? ? keys].
  obj.
  destruct st;
    repeat match goal with
           | |- context [if ?c then _ else _] => destruct c
           | |- context [match ?c with [] => _ | _ :: _ => _ end] => destruct c
           end;
    eexists _, _, _; obj_cbv; reflexivity.
Qed.

Lemma HandleKeyboardInput_only_parser (data : list Z) (s : VGATextStream) :
  only_parser s (HandleKeyboardInput data s).
Proof.
  unfold HandleKeyboardInput. revert s.
  induction data as [|b data IH]; intros s; [apply only_parser_refl|].
  cbn [fold_left]. eapply only_parser_trans;
    [apply ProcessInputByte_only_parser | apply IH].
Qed.

(** While the handshake is not done, only a well-formed HELLO on the
    control channel completes it, and no other message makes the driver
    write to the client. *)
Lemma gated_until_hello (vga : VGA_Type) (channel : Z) (payload : list Z)
    (s : VGATextStream) :
  handshake_done_ s = false ->
  handshake_done_ (ProcessMessage vga channel payload s) = true
  \/ sock_tx (ProcessMessage vga channel payload s) <> sock_tx s ->
  channel = StreamChannel.CONTROL
  /\ exists hello, payload = ControlMsg.HELLO :: hello /\ 3 <= size hello.
Proof.
  intros Hh H. unfold ProcessMessage in H.
  destruct (channel =? StreamChannel.CONTROL) eqn:E.
  - split; [lia|].
    unfold HandleControlInput in H.
    destruct payload as [|msg hello]; [destruct H; congruence|].
    destruct (msg =? ControlMsg.HELLO) eqn:Em.
    + exists hello. split; [f_equal; lia|].
      destruct (Z.lt_ge_cases (size hello) 3) as [Hlt|Hge]; [|exact Hge].
      rewrite HandleHello_short in H by exact Hlt. destruct H; congruence.
    + destruct (msg =? ControlMsg.GOODBYE);
        [unfold drop_client in H; obj; destruct H; congruence|].
      destruct (msg =? ControlMsg.REFRESH); [|destruct H; congruence].
      unfold Invalidate in H. obj. destruct H; congruence.
  - exfalso. destruct (channel =? StreamChannel.KEYBOARD_IN).
    + destruct (HandleKeyboardInput_only_parser payload s) as (st & p & k & Heq).
      rewrite Heq in H. obj. destruct H; congruence.
    + destruct (channel =? StreamChannel.MOUSE_IN);
        unfold HandleMouseInput in H; destruct H; congruence.
Qed.

(** Gating of a call that runs on its own.  Entered in a state with
    [handshake_done_] false, [OnVSync] returns at once and
    [SendModeNotification] returns at once: the object is unchanged and no
    byte is written to the client.  A message that makes [handshake_done_]
    true, or makes the driver write anything, is a HELLO of at least 3
    payload bytes on the control channel. *)
Theorem handshake_gating (vga : VGA_Type) (mem_readb : Z -> Z)
    (s : VGATextStream) :
  handshake_done_ s = false ->
  (OnVSync vga mem_readb s = s
   /\ sock_tx (OnVSync vga mem_readb s) = sock_tx s)
  /\ (SendModeNotification vga s = s
      /\ sock_tx (SendModeNotification vga s) = sock_tx s)
  /\ (forall channel payload,
        handshake_done_ (ProcessMessage vga channel payload s) = true
        \/ sock_tx (ProcessMessage vga channel payload s) <> sock_tx s ->
        channel = StreamChannel.CONTROL
        /\ exists hello, payload = ControlMsg.HELLO :: hello /\ 3 <= size hello).
Proof.
  intros Hh.
  assert (Hv : OnVSync vga mem_readb s = s).
  { unfold OnVSync. rewrite Hh. cbn [negb]. now rewrite !orb_true_r. }
  assert (Hm : SendModeNotification vga s = s).
  { unfold SendModeNotification. now rewrite Hh. }
  rewrite Hv, Hm.
  split; [split; reflexivity|]. split; [split; reflexivity|].
  intros channel payload H.
  exact (gated_until_hello vga channel payload s Hh H).
Qed.

(** A client that was accepted and has not said HELLO yet. *)
Lemma handshake_gating_witness :
  handshake_done_ accepted_client = false
  /\ OnVSync vga_text_80x25 (fun _ => 0x20) accepted_client = accepted_client
  /\ SendModeNotification vga_text_80x25 accepted_client = accepted_client.
Proof.
  split; [reflexivity|].
  destruct (handshake_gating vga_text_80x25 (fun _ => 0x20) accepted_client
              eq_refl) as ([H1 _] & [H2 _] & _).
  split; [exact H1 | exact H2].
Defined.

(** With no pass of the reader thread in between, the interleaved tick is
    [OnVSync]. *)
Lemma OnVSync_alone (vga : VGA_Type) (mem_readb : Z -> Z) (s : VGATextStream) :
  OnVSync vga mem_readb s = OnVSync_interleaved vga mem_readb (fun t => t) s.
Proof. reflexivity. Qed.

(** C2 at the input on which it fails.  A tick finds a streaming session
    and passes the guard of [OnVSync].  Before its body runs, the reader
    thread reads the client's GOODBYE and accepts the next client: the new
    client has been sent the server's HELLO and [handshake_done_] is false;
    a tick that started now would do nothing.  The body of the tick that
    had passed the guard goes on: it redraws the screen and a TEXT_OUT frame
    of 71 payload bytes leaves to the new client, while [handshake_done_] is
    false before and after. *)
Theorem handshake_gate_race :
  let s1 := client_replaced goodbye_pending in
  let s2 := OnVSync_interleaved vga_text_80x25 blank_memory client_replaced
              goodbye_pending in
  (handshake_done_ goodbye_pending = true
   /\ vsync_guard goodbye_pending = false)
  /\ (client_fd_ s1 = 7 /\ handshake_done_ s1 = false
      /\ sock_tx s1
         = frame_of StreamChannel.CONTROL [ControlMsg.HELLO; 0; 1; 3; 1; 2; 3])
  /\ OnVSync vga_text_80x25 blank_memory s1 = s1
  /\ (handshake_done_ s2 = false
      /\ sock_tx s2
         = sock_tx s1
           ++ frame_of StreamChannel.TEXT_OUT
                (hide_cursor ++ clear_home ++ sgr_default
                 ++ concat (repeat crlf 24))).
Proof.
  cbv zeta.
  assert (H1 : handshake_done_ (client_replaced goodbye_pending) = false)
    by (vm_compute; reflexivity).
  split; [split; reflexivity|].
  split; [split; [vm_compute; reflexivity|]; split;
          [exact H1 | vm_compute; reflexivity]|].
  split.
  - destruct (handshake_gating vga_text_80x25 blank_memory
                (client_replaced goodbye_pending) H1) as ((H & _) & _).
    exact H.
  - split; vm_compute; reflexivity.
Qed.

(** ** Input tokenizer *)

(** C8.  Tokenizer keycode mapping.  From the NORMAL state with an empty
    parameter buffer, the bytes 1B 5B 41 add exactly one keycode, 0x4800,
    to the BIOS buffer; the bytes 1B 5B 32 30 7E add exactly one, 0x4300;
    the single byte 01 adds exactly one, 0x1E01. *)
Theorem tokenizer_keycodes (s : VGATextStream) :
  input_state_ s = NORMAL -> csi_params_ s = [] ->
  bios_keys (HandleKeyboardInput [0x1B; 0x5B; 0x41] s) = bios_keys s ++ [0x4800]
  /\ bios_keys (HandleKeyboardInput [0x1B; 0x5B; 0x32; 0x30; 0x7E] s)
     = bios_keys s ++ [0x4300]
  /\ bios_keys (HandleKeyboardInput [0x01] s) = bios_keys s ++ [0x1E01].
Proof.
  intros Hst Hp. destruct s. cbn in Hst, Hp. subst.
  repeat split; reflexivity.
Qed.

(** The three inputs on a fresh tokenizer with an empty key log. *)
Lemma tokenizer_keycodes_witness :
  bios_keys (HandleKeyboardInput [0x1B; 0x5B; 0x41] accepted_client) = [0x4800]
  /\ bios_keys (HandleKeyboardInput [0x1B; 0x5B; 0x32; 0x30; 0x7E] accepted_client)
     = [0x4300]
  /\ bios_keys (HandleKeyboardInput [0x01] accepted_client) = [0x1E01].
Proof.
  exact (tokenizer_keycodes accepted_client eq_refl eq_refl).
Defined.

(** C10.  High-byte input is ignored.  In the NORMAL state a byte in
    0x80..0xFF leaves the object as it is: no key is injected, the parser
    state and the CSI parameter buffer are unchanged. *)
Theorem high_byte_ignored (b : Z) (s : VGATextStream) :
  input_state_ s = NORMAL -> 0x80 <= b <= 0xFF ->
  ProcessInputByte b s = s
  /\ bios_keys (ProcessInputByte b s) = bios_keys s
  /\ input_state_ (ProcessInputByte b s) = input_state_ s
  /\ csi_params_ (ProcessInputByte b s) = csi_params_ s.
Proof.
  intros Hst Hb.
  assert (H : ProcessInputByte b s = s).
  { unfold ProcessInputByte. rewrite Hst.
    destruct (b =? 0x1B) eqn:E1; [lia|].
    destruct (b =? 0x7F) eqn:E2; [lia|].
    destruct (b <? 0x20) eqn:E3; [lia|].
    destruct (b <? 0x80) eqn:E4; [lia|].
    reflexivity. }
  rewrite H. repeat split; reflexivity.
Qed.

(** The byte 0xE9 on a fresh tokenizer. *)
Lemma high_byte_ignored_witness :
  ProcessInputByte 0xE9 accepted_client = accepted_client.
Proof.
  apply (high_byte_ignored 0xE9 accepted_client); [reflexivity | lia].
Defined.

(** ** Snapshot dimensions *)

Lemma SnapshotTextBuffer_dims (vga : VGA_Type) (mem_readb : Z -> Z)
    (s : VGATextStream) :
  cols_ (SnapshotTextBuffer vga mem_readb s) = snapshot_cols vga
  /\ rows_ (SnapshotTextBuffer vga mem_readb s) = snapshot_rows vga.
Proof.
  unfold SnapshotTextBuffer. fold (snapshot_cols vga).
  cbv zeta. fold (snapshot_rows vga).
  set (C := snapshot_cols vga). set (R := snapshot_rows vga).
  apply (for_range_inv (fun t => cols_ t = C /\ rows_ t = R)).
  - match goal with |- context [if ?b then _ else _] => destruct b end.
    + match goal with
      | |- context [SendModeNotification vga ?t] =>
          destruct (SendModeNotification_effect vga t) as (room & tx & mn & ->)
      end.
      split; reflexivity.
    + split; reflexivity.
  - intros r t _ Ht.
    apply (for_range_inv (fun t => cols_ t = C /\ rows_ t = R)); [exact Ht|].
    intros c u _ Hu. exact Hu.
Qed.

(** C6.  Dimension clamp.  With the offset register a byte, after every
    [SnapshotTextBuffer] call [1 <= cols_ <= 132] and [24 <= rows_ <= 60];
    [cols_] is 80 when the offset register is zero, [rows_] is 25 when the
    maximum-scan-line field is zero, and a computed row count below 24
    gives 25. *)
Theorem snapshot_dimension_clamp (vga : VGA_Type) (mem_readb : Z -> Z)
    (s : VGATextStream) :
  is_u8 (crtc_offset vga) ->
  let s' := SnapshotTextBuffer vga mem_readb s in
  (1 <= cols_ s' <= 132 /\ 24 <= rows_ s' <= 60)
  /\ (crtc_offset vga = 0 -> cols_ s' = 80)
  /\ (Z.land (crtc_maximum_scan_line vga) 0x1F = 0 -> rows_ s' = 25)
  /\ (0 < Z.land (crtc_maximum_scan_line vga) 0x1F ->
      to_int ((crtc_vertical_display_end vga + 1)
              / (Z.land (crtc_maximum_scan_line vga) 0x1F + 1)) < 24 ->
      rows_ s' = 25).
Proof.
  intros Hoff s'.
  destruct (SnapshotTextBuffer_dims vga mem_readb s) as [Hc Hr].
  subst s'. rewrite Hc, Hr. clear Hc Hr.
  unfold snapshot_cols, snapshot_rows, TEXTSTREAM_MAX_COLS, TEXTSTREAM_MAX_ROWS,
    is_u8 in *.
  cbv zeta. zbool.
  assert (Hint : 0 < crtc_offset vga ->
                 to_int (crtc_offset vga * 2) = crtc_offset vga * 2).
  { intros Hp. unfold to_int. rewrite Z.mod_small; lia. }
  repeat split.
  - destruct (0 <? crtc_offset vga) eqn:E; [rewrite Hint by lia|];
      repeat case_if; lia.
  - destruct (0 <? crtc_offset vga) eqn:E; [rewrite Hint by lia|];
      repeat case_if; lia.
  - repeat case_if; lia.
  - repeat case_if; lia.
  - intros ->. reflexivity.
  - intros ->. reflexivity.
  - intros Hpos Hlt. destruct (0 <? Z.land _ 31) eqn:E; [|lia].
    repeat case_if; lia.
Qed.

(** The 80x25 mode: the offset register (40) gives 80 columns; the low
    byte of the vertical display end (143) over 16 scan lines gives 9 rows,
    which the correction turns into 25. *)
Lemma snapshot_dimension_clamp_witness :
  is_u8 (crtc_offset vga_text_80x25)
  /\ (1 <= cols_ (SnapshotTextBuffer vga_text_80x25 (fun _ => 0x20) accepted_client)
      <= 132
      /\ 24 <= rows_ (SnapshotTextBuffer vga_text_80x25 (fun _ => 0x20)
                        accepted_client) <= 60)
  /\ rows_ (SnapshotTextBuffer vga_text_80x25 (fun _ => 0x20) accepted_client)
     = 25.
Proof.
  assert (H : is_u8 (crtc_offset vga_text_80x25)) by (unfold is_u8; cbn; lia).
  split; [exact H|].
  destruct (snapshot_dimension_clamp vga_text_80x25 (fun _ => 0x20)
              accepted_client H) as (Hdims & _ & _ & Hrows).
  split; [exact Hdims|].
  apply Hrows; vm_compute; reflexivity.
Defined.

(** ** Renderer *)

Lemma for_range_snoc {St : Type} (n : nat) (i : Z) (body : Z -> St -> St) (s : St) :
  for_range (S n) i body s = body (i + Z.of_nat n) (for_range n i body s).
Proof.
  replace (S n) with (n + 1)%nat by lia. now rewrite for_range_app.
Qed.

Lemma for_range_fold {St : Type} (n : nat) (i : Z) (body : Z -> St -> St) (s : St) :
  for_range n i body s = fold_left (fun t j => body j t) (zseq n i) s.
Proof.
  revert i s. induction n as [|n IH]; intros i s; [reflexivity|].
  cbn [for_range zseq fold_left]. apply IH.
Qed.

(** The digit loop never runs out of iterations: one iteration per decimal
    digit is enough, so ten cover every [int]. *)
Lemma digits_fuel (f1 f2 : nat) (n : Z) (acc : list Z) :
  0 <= n < 10 ^ Z.of_nat (S f1) -> (f1 <= f2)%nat ->
  digits (S f1) n acc = digits (S f2) n acc.
Proof.
  revert f2 n acc. induction f1 as [|f1 IH]; intros f2 n acc Hn Hf.
  - cbn [digits]. replace (n / 10) with 0; [reflexivity|].
    symmetry. apply Z.div_small. cbn in Hn. lia.
  - destruct f2 as [|f2]; [lia|].
    cbn [digits]. destruct (n / 10 =? 0) eqn:E; [reflexivity|].
    change (digits (S f1) (n / 10) ((48 + n mod 10) :: acc)
            = digits (S f2) (n / 10) ((48 + n mod 10) :: acc)).
    apply IH; [|lia].
    split; [apply Z.div_pos; lia|].
    apply Z.div_lt_upper_bound; [lia|].
    rewrite Nat2Z.inj_succ, Z.pow_succ_r in Hn by lia. lia.
Qed.

(** The search for the last column never runs out of iterations: with
    [last_col + 1] of them or more, the result is the same. *)
Lemma find_last_col_fuel (fuel1 fuel2 : nat) (line : Z -> TextCell) (last_col : Z) :
  (Z.to_nat (last_col + 1) <= fuel1)%nat ->
  (Z.to_nat (last_col + 1) <= fuel2)%nat ->
  find_last_col fuel1 line last_col = find_last_col fuel2 line last_col.
Proof.
  revert fuel2 last_col.
  induction fuel1 as [|f1 IH]; intros fuel2 last_col H1 H2.
  - destruct fuel2 as [|f2]; [reflexivity|]. cbn [find_last_col].
    destruct (last_col >=? 0) eqn:E; [zbool; lia|]. reflexivity.
  - cbn [find_last_col].
    destruct (last_col >=? 0) eqn:E; zbool.
    + destruct fuel2 as [|f2]; [lia|]. cbn [find_last_col]. zbool. rewrite E.
      case_if; [|reflexivity]. apply IH; lia.
    + destruct fuel2 as [|f2]; [reflexivity|]. cbn [find_last_col]. zbool.
      now rewrite E.
Qed.

(** What the search returns: the cells after it are blank, and it is -1 or
    the column of a cell that is not. *)
Lemma find_last_col_spec (fuel : nat) (line : Z -> TextCell) (last_col : Z) :
  (Z.to_nat (last_col + 1) <= fuel)%nat -> -1 <= last_col ->
  let r := find_last_col fuel line last_col in
  -1 <= r <= last_col
  /\ (forall c, r < c <= last_col -> is_blank (line c) = true)
  /\ (0 <= r -> is_blank (line r) = false).
Proof.
  revert last_col. induction fuel as [|f IH]; intros last_col Hf Hl; cbv zeta.
  - cbn [find_last_col]. repeat split; try lia.
  - cbn [find_last_col]. destruct (last_col >=? 0) eqn:E; zbool; cbn [andb].
    + fold (is_blank (line last_col)).
      destruct (is_blank (line last_col)) eqn:Eb.
      * specialize (IH (last_col - 1) ltac:(lia) ltac:(lia)). cbv zeta in IH.
        destruct IH as (I1 & I2 & I3). repeat split; try lia; [|exact I3].
        intros c Hc. destruct (Z.eq_dec c last_col) as [->|]; [exact Eb|].
        apply I2. lia.
      * repeat split; try lia. intros _. exact Eb.
    + repeat split; try lia.
Qed.

Lemma emitted_refl (s : VGATextStream) : emitted s [] (ansi_attr_ s) s.
Proof.
  exists (ansi_row_ s), (ansi_col_ s). rewrite app_nil_r. now destruct s.
Qed.

Lemma emitted_trans (s s1 s2 : VGATextStream) (o1 o2 : list Z) (a1 a2 : Z) :
  emitted s o1 a1 s1 -> emitted s1 o2 a2 s2 -> emitted s (o1 ++ o2) a2 s2.
Proof.
  intros (r1 & c1 & ->) (r2 & c2 & ->). exists r2, c2. obj.
  now rewrite app_assoc.
Qed.

Lemma emitted_EmitMoveCursor (r c : Z) (s : VGATextStream) :
  emitted s (move_bytes r c) (ansi_attr_ s) (EmitMoveCursor r c s).
Proof. exists r, c. now destruct s. Qed.

Lemma emitted_EmitSetAttribute (attr : Z) (s : VGATextStream) :
  emitted s (sgr_bytes attr) attr (EmitSetAttribute attr s).
Proof. exists (ansi_row_ s), (ansi_col_ s). now destruct s. Qed.

Lemma emitted_EmitCharacter (ch : Z) (s : VGATextStream) :
  emitted s (utf8_of_cp437 ch) (ansi_attr_ s) (EmitCharacter ch s).
Proof.
  unfold EmitCharacter. cbv zeta. case_if.
  - exists (ansi_row_ s + 1), 0. now destruct s.
  - exists (ansi_row_ s), (ansi_col_ s + 1). now destruct s.
Qed.

(** A cell emission: an SGR sequence exactly when the attribute is not the
    last one emitted, then the character; the attribute becomes the last
    one emitted. *)
Lemma emitted_emit_cell (cell : TextCell) (s : VGATextStream) :
  emitted s
    ((if attribute cell =? ansi_attr_ s then [] else sgr_bytes (attribute cell))
     ++ utf8_of_cp437 (character cell))
    (attribute cell) (emit_cell cell s).
Proof.
  unfold emit_cell. destruct (attribute cell =? ansi_attr_ s) eqn:E; cbn [negb].
  - replace (attribute cell) with (ansi_attr_ s) at 1 by lia.
    apply emitted_EmitCharacter.
  - eapply emitted_trans; [apply emitted_EmitSetAttribute|].
    exact (emitted_EmitCharacter (character cell)
             (EmitSetAttribute (attribute cell) s)).
Qed.

Create HintDb render.
#[local] Hint Resolve emitted_refl emitted_EmitMoveCursor
  emitted_EmitSetAttribute emitted_EmitCharacter emitted_emit_cell : render.

Lemma same_screen_refl (s : VGATextStream) : same_screen s s.
Proof. repeat split; reflexivity. Qed.

Lemma same_screen_trans (s1 s2 s3 : VGATextStream) :
  same_screen s1 s2 -> same_screen s2 s3 -> same_screen s1 s3.
Proof. intros (A & B & C) (D & E & F). repeat split; congruence. Qed.

Lemma emitted_same_screen (s s' : VGATextStream) (out : list Z) (a : Z) :
  emitted s out a s' -> same_screen s s'.
Proof. intros (r & c & ->). repeat split; reflexivity. Qed.

Lemma TextCursor_ne_refl (c : TextCursor) : TextCursor_ne c c = false.
Proof.
  unfold TextCursor_ne. rewrite !Z.eqb_refl, eqb_reflx. reflexivity.
Qed.

Lemma TextCell_ne_refl (a : TextCell) : TextCell_ne a a = false.
Proof. unfold TextCell_ne, TextCell_eq. now rewrite !Z.eqb_refl. Qed.

Lemma FlushTextOutput_only_socket (s : VGATextStream) :
  only_socket s (FlushTextOutput s).
Proof.
  unfold FlushTextOutput. destruct (text_buffer_ s).
  - apply only_socket_refl.
  - apply SendMessage_only_socket.
Qed.

(** *** Differential update, cell by cell *)

Lemma diff_cell_unchanged (r c : Z) (st : DiffState) :
  TextCell_ne (current_ (snd st) r c) (previous_ (snd st) r c) = false ->
  diff_cell r c st = st.
Proof.
  intros H. destruct st as [[wr wc] s]. cbn [snd] in H. unfold diff_cell.
  now rewrite H.
Qed.

Lemma diff_cell_changed (r c wr wc : Z) (s : VGATextStream) :
  TextCell_ne (current_ s r c) (previous_ s r c) = true ->
  exists wr' wc' s',
    diff_cell r c (wr, wc, s) = (wr', wc', s')
    /\ emitted s
         ((if negb (r =? wr) || negb (c =? wc) then move_bytes r c else [])
          ++ (if attribute (current_ s r c) =? ansi_attr_ s then []
              else sgr_bytes (attribute (current_ s r c)))
          ++ utf8_of_cp437 (character (current_ s r c)))
         (attribute (current_ s r c)) s'.
Proof.
  intros H. unfold diff_cell. rewrite H.
  set (mv := negb (r =? wr) || negb (c =? wc)).
  set (s1 := if mv then EmitMoveCursor r c s else s).
  assert (H1 : emitted s (if mv then move_bytes r c else []) (ansi_attr_ s) s1).
  { subst s1. destruct mv; [apply emitted_EmitMoveCursor | apply emitted_refl]. }
  assert (Hattr : ansi_attr_ s1 = ansi_attr_ s).
  { destruct H1 as (r1 & c1 & ->). reflexivity. }
  pose proof (emitted_emit_cell (current_ s r c) s1) as H2.
  rewrite Hattr in H2.
  pose proof (emitted_trans _ _ _ _ _ _ _ H1 H2) as H3.
  cbv zeta. case_if; eauto.
Qed.

Lemma diff_row_unchanged (r : Z) (st : DiffState) :
  (forall c, 0 <= c < cols_ (snd st) ->
             current_ (snd st) r c = previous_ (snd st) r c) ->
  diff_row r st = st.
Proof.
  intros H. unfold diff_row. apply for_range_id. intros c Hc.
  apply diff_cell_unchanged. rewrite H by lia. apply TextCell_ne_refl.
Qed.

(** C3.  Diff idempotence.  When [force_redraw_] is false, every cell of
    [current_] within the screen equals the cell of [previous_] at the same
    place, and the cursor equals the previous cursor, [GenerateTextOutput]
    leaves [text_buffer_] empty and writes nothing to the client: no
    TEXT_OUT frame is sent. *)
Theorem diff_idempotence (s : VGATextStream) :
  force_redraw_ s = false ->
  (forall r c, 0 <= r < rows_ s -> 0 <= c < cols_ s ->
               current_ s r c = previous_ s r c) ->
  cursor_ s = prev_cursor_ s ->
  text_buffer_ (GenerateTextOutput s) = []
  /\ sock_tx (GenerateTextOutput s) = sock_tx s.
Proof.
  intros Hf Hcells Hcur. unfold GenerateTextOutput. obj. rewrite Hf.
  rewrite for_range_id.
  2:{ intros r Hr. apply diff_row_unchanged. obj. intros c Hc.
      apply Hcells; lia. }
  obj. rewrite Hcur, TextCursor_ne_refl. unfold FlushTextOutput. obj.
  split; reflexivity.
Qed.

(** A blank screen equal to its previous frame. *)
Lemma diff_idempotence_witness :
  text_buffer_
    (GenerateTextOutput
       (streaming_session blank_grid blank_grid cursor_home cursor_home false))
  = []
  /\ sock_tx
       (GenerateTextOutput
          (streaming_session blank_grid blank_grid cursor_home cursor_home false))
     = [].
Proof.
  apply (diff_idempotence
           (streaming_session blank_grid blank_grid cursor_home cursor_home false));
    reflexivity.
Defined.

Lemma single_cell_diff_loops (s : VGATextStream) :
  ansi_attr_ s = 0xFF ->
  2 < rows_ s -> 3 < cols_ s ->
  previous_ s 2 3 = mkTextCell 0x20 0x07 ->
  current_ s 2 3 = mkTextCell 0x41 0x1F ->
  (forall r c, 0 <= r < rows_ s -> 0 <= c < cols_ s -> (r, c) <> (2, 3) ->
               current_ s r c = previous_ s r c) ->
  exists wr wc s',
    for_range (Z.to_nat (rows_ s)) 0 diff_row (-1, -1, s) = (wr, wc, s')
    /\ emitted s single_cell_payload 0x1F s'.
Proof.
  intros Hattr Hrows Hcols Hprev Hcur Hrest.
  replace (Z.to_nat (rows_ s)) with (2 + (1 + Z.to_nat (rows_ s - 3)))%nat by lia.
  rewrite for_range_app.
  rewrite (for_range_id 2).
  2:{ intros r Hr. apply diff_row_unchanged. cbn [snd]. intros c Hc.
      apply Hrest; try lia. intros [= -> ->]. lia. }
  rewrite for_range_app. cbn [for_range Z.of_nat Z.add Pos.of_succ_nat Pos.succ].
  unfold diff_row at 2. cbn [snd].
  replace (Z.to_nat (cols_ s)) with (3 + (1 + Z.to_nat (cols_ s - 4)))%nat by lia.
  rewrite for_range_app.
  rewrite (for_range_id 3).
  2:{ intros c Hc. apply diff_cell_unchanged. cbn [snd].
      rewrite Hrest by (try lia; intros [= ->]; lia). apply TextCell_ne_refl. }
  rewrite for_range_app. cbn [for_range Z.of_nat Z.add Pos.of_succ_nat Pos.succ].
  destruct (diff_cell_changed 2 3 (-1) (-1) s) as (wr & wc & s' & Hd & He).
  { rewrite Hcur, Hprev. reflexivity. }
  rewrite Hd. rewrite Hcur, Hattr in He.
  change (emitted s single_cell_payload 0x1F s') in He.
  destruct (emitted_same_screen _ _ _ _ He) as (Hg1 & Hg2 & Hg3).
  rewrite (for_range_id (Z.to_nat (cols_ s - 4))).
  2:{ intros c Hc. apply diff_cell_unchanged. cbn [snd]. rewrite Hg1, Hg2.
      rewrite Hrest by (try lia; intros [= ->]; lia). apply TextCell_ne_refl. }
  rewrite for_range_id.
  2:{ intros r Hr. apply diff_row_unchanged. cbn [snd]. intros c Hc.
      rewrite Hg1, Hg2. rewrite Hg3 in Hc.
      apply Hrest; try lia. intros [= -> ->]. lia. }
  eauto.
Qed.

(** C7.  Single-cell differential update.  With [force_redraw_] false, the
    cursor unchanged, the last emitted attribute unknown (0xFF), and
    [current_] differing from [previous_] only at row 2, column 3, where
    [previous_] holds (0x20, 0x07) and [current_] holds (0x41, 0x1F), the
    text buffer after [GenerateTextOutput] is exactly
    1B 5B 33 3B 34 48, 1B 5B 30 3B 39 37 3B 34 34 6D, 41; on a connected
    socket with room for it this payload leaves as one TEXT_OUT frame.
    (The screen is any that has the cell: more than 2 rows and 3 columns;
    the unknown cursor position plays no part.) *)
Theorem single_cell_diff (s : VGATextStream) :
  force_redraw_ s = false ->
  cursor_ s = prev_cursor_ s ->
  ansi_attr_ s = 0xFF ->
  2 < rows_ s -> 3 < cols_ s ->
  previous_ s 2 3 = mkTextCell 0x20 0x07 ->
  current_ s 2 3 = mkTextCell 0x41 0x1F ->
  (forall r c, 0 <= r < rows_ s -> 0 <= c < cols_ s -> (r, c) <> (2, 3) ->
               current_ s r c = previous_ s r c) ->
  text_buffer_ (GenerateTextOutput s) = single_cell_payload
  /\ (0 <= client_fd_ s -> 21 <= sock_room s ->
      sock_tx (GenerateTextOutput s)
      = sock_tx s ++ frame_of StreamChannel.TEXT_OUT single_cell_payload).
Proof.
  intros Hf Hcur Hattr Hrows Hcols Hp Hc Hrest.
  unfold GenerateTextOutput. obj. rewrite Hf.
  set (s0 := set_force_redraw_ false (set_text_buffer_ [] s)).
  destruct (single_cell_diff_loops s0) as (wr & wc & s1 & Hloop & He);
    try assumption.
  change (rows_ s) with (rows_ s0). rewrite Hloop. cbn [snd].
  destruct He as (r' & c' & ->). subst s0. obj.
  rewrite Hcur, TextCursor_ne_refl.
  split.
  - match goal with
    | |- context [FlushTextOutput ?t] =>
        destruct (FlushTextOutput_only_socket t) as (room & tx & ->)
    end.
    reflexivity.
  - intros Hfd Hroom. unfold FlushTextOutput. obj.
    cbn [app single_cell_payload].
    rewrite SendMessage_connected by (obj; cbn; lia).
    reflexivity.
Qed.

(** The 80x25 frame of the scenario, with the TEXT_OUT frame it sends. *)
Lemma single_cell_diff_witness :
  text_buffer_ (GenerateTextOutput single_cell_frame) = single_cell_payload
  /\ sock_tx (GenerateTextOutput single_cell_frame)
     = [0x01; 0x00; 0x00; 0x11] ++ single_cell_payload.
Proof.
  assert (Hrest : forall r c : Z,
             0 <= r < rows_ single_cell_frame ->
             0 <= c < cols_ single_cell_frame -> (r, c) <> (2, 3) ->
             current_ single_cell_frame r c = previous_ single_cell_frame r c).
  { intros r c _ _ Hne. cbn. unfold grid_set.
    destruct (r =? 2) eqn:Er; [|reflexivity].
    destruct (c =? 3) eqn:Ec; [|reflexivity].
    exfalso. apply Hne. f_equal; lia. }
  destruct (single_cell_diff single_cell_frame eq_refl eq_refl eq_refl
              eq_refl eq_refl eq_refl eq_refl Hrest) as [H1 H2].
  split; [exact H1|]. apply H2; cbn; lia.
Defined.

(** *** Differential update as one pass over the cells *)

Lemma diff_cell_same_screen (r c : Z) (st : DiffState) :
  same_screen (snd st) (snd (diff_cell r c st)).
Proof.
  destruct (TextCell_ne (current_ (snd st) r c) (previous_ (snd st) r c)) eqn:E.
  - destruct st as [[wr wc] s]. cbn [snd] in *.
    destruct (diff_cell_changed r c wr wc s E) as (wr' & wc' & s' & -> & He).
    cbn [snd]. eapply emitted_same_screen; eauto.
  - rewrite diff_cell_unchanged by exact E. apply same_screen_refl.
Qed.

Lemma diff_cells_same_screen (cells : list (Z * Z)) (st : DiffState) :
  same_screen (snd st) (snd (diff_cells cells st)).
Proof.
  revert st. induction cells as [|rc cells IH]; intros st.
  - apply same_screen_refl.
  - cbn [diff_cells fold_left]. eapply same_screen_trans;
      [apply (diff_cell_same_screen (fst rc) (snd rc)) | apply IH].
Qed.

Lemma diff_cells_app (l1 l2 : list (Z * Z)) (st : DiffState) :
  diff_cells (l1 ++ l2) st = diff_cells l2 (diff_cells l1 st).
Proof. apply fold_left_app. Qed.

Lemma diff_row_cells (r : Z) (st : DiffState) :
  diff_row r st
  = diff_cells (map (pair r) (zseq (Z.to_nat (cols_ (snd st))) 0)) st.
Proof.
  unfold diff_row, diff_cells. rewrite for_range_fold.
  generalize (zseq (Z.to_nat (cols_ (snd st))) 0). intros l. revert st.
  induction l as [|c l IH]; intros st; [reflexivity|].
  cbn [map fold_left fst snd]. apply IH.
Qed.

Lemma diff_rows_cells (rows : list Z) (st : DiffState) :
  fold_left (fun t r => diff_row r t) rows st
  = diff_cells
      (flat_map (fun r => map (pair r) (zseq (Z.to_nat (cols_ (snd st))) 0)) rows)
      st.
Proof.
  revert st. induction rows as [|r rows IH]; intros st; [reflexivity|].
  cbn [fold_left flat_map]. rewrite diff_cells_app, IH, diff_row_cells.
  destruct (diff_cells_same_screen
              (map (pair r) (zseq (Z.to_nat (cols_ (snd st))) 0)) st)
    as (_ & _ & ->).
  reflexivity.
Qed.

(** The two loops of a differential update visit the cells of the screen
    in row-major order. *)
Lemma diff_pass_cells (wr wc : Z) (s : VGATextStream) :
  for_range (Z.to_nat (rows_ s)) 0 diff_row (wr, wc, s)
  = diff_cells (all_cells (Z.to_nat (rows_ s)) (Z.to_nat (cols_ s))) (wr, wc, s).
Proof. rewrite for_range_fold. apply diff_rows_cells. Qed.

Lemma diff_cells_unchanged (cells : list (Z * Z)) (s : VGATextStream)
    (st : DiffState) :
  same_screen s (snd st) ->
  forallb (fun rc => negb (changed s rc)) cells = true ->
  diff_cells cells st = st.
Proof.
  intros (E1 & E2 & _).
  induction cells as [|rc cells IH]; intros H; [reflexivity|].
  cbn [forallb] in H. apply andb_true_iff in H as [H1 H2].
  cbn [diff_cells fold_left]. rewrite diff_cell_unchanged.
  - apply IH, H2.
  - unfold changed in H1. rewrite E1, E2. now apply negb_true_iff in H1.
Qed.

(** In a differential update, a changed cell that follows a changed cell
    of the same attribute, with only unchanged cells between them, adds its
    character and at most a cursor move. *)
Lemma diff_stickiness (pre mid : list (Z * Z)) (p1 p2 : Z * Z) (st : DiffState) :
  changed (snd st) p1 = true -> changed (snd st) p2 = true ->
  forallb (fun rc => negb (changed (snd st) rc)) mid = true ->
  attribute (cell_at (snd st) p2) = attribute (cell_at (snd st) p1) ->
  exists mv,
    (mv = [] \/ mv = move_bytes (fst p2) (snd p2))
    /\ text_buffer_ (snd (diff_cells (pre ++ p1 :: mid ++ [p2]) st))
       = text_buffer_ (snd (diff_cells (pre ++ [p1]) st)) ++ mv
         ++ utf8_of_cp437 (character (cell_at (snd st) p2)).
Proof.
  intros Hc1 Hc2 Hmid Hattr.
  set (st1 := diff_cells (pre ++ [p1]) st).
  replace (pre ++ p1 :: mid ++ [p2]) with ((pre ++ [p1]) ++ mid ++ [p2])
    by (rewrite <- app_assoc; reflexivity).
  rewrite diff_cells_app. fold st1.
  assert (Hscr : same_screen (snd st) (snd st1)) by apply diff_cells_same_screen.
  assert (Ha : ansi_attr_ (snd st1) = attribute (cell_at (snd st) p1)).
  { subst st1. rewrite diff_cells_app. cbn [diff_cells fold_left].
    set (st0 := diff_cells pre st).
    assert (H0 : same_screen (snd st) (snd st0)) by apply diff_cells_same_screen.
    destruct st0 as [[wr wc] s0]. cbn [snd] in H0.
    destruct H0 as (E1 & E2 & _).
    destruct (diff_cell_changed (fst p1) (snd p1) wr wc s0)
      as (wr' & wc' & s' & -> & He).
    { rewrite E1, E2. exact Hc1. }
    cbn [snd]. destruct He as (r' & c' & ->). obj. unfold cell_at.
    now rewrite E1. }
  destruct Hscr as (E1 & E2 & E3).
  rewrite diff_cells_app, (diff_cells_unchanged mid (snd st))
    by (repeat split; assumption).
  cbn [diff_cells fold_left].
  destruct st1 as [[wr wc] s1]. cbn [snd] in *.
  destruct (diff_cell_changed (fst p2) (snd p2) wr wc s1)
    as (wr' & wc' & s' & -> & He).
  { rewrite E1, E2. exact Hc2. }
  cbn [snd]. destruct He as (r' & c' & ->). obj.
  rewrite E1. fold (cell_at (snd st) p2). rewrite Ha, Hattr, Z.eqb_refl.
  cbn [app].
  match goal with |- context [if ?b then _ else _] => destruct b end; eauto.
Qed.

(** *** Full redraw, within a row *)

Lemma full_redraw_cells_same_screen (r : Z) (n : nat) (i : Z) (s : VGATextStream) :
  same_screen s (for_range n i (full_redraw_cell r) s).
Proof.
  apply (for_range_inv (same_screen s)); [apply same_screen_refl|].
  intros c t _ Ht. eapply same_screen_trans; [exact Ht|].
  eapply emitted_same_screen. apply emitted_emit_cell.
Qed.

Lemma full_redraw_cells_attr (r : Z) (k : nat) (s : VGATextStream) :
  ansi_attr_ (for_range (S k) 0 (full_redraw_cell r) s)
  = attribute (current_ s r (Z.of_nat k)).
Proof.
  rewrite for_range_snoc, Z.add_0_l.
  set (s0 := for_range k 0 (full_redraw_cell r) s).
  destruct (full_redraw_cells_same_screen r k 0 s) as (E & _). fold s0 in E.
  unfold full_redraw_cell. rewrite E.
  destruct (emitted_emit_cell (current_ s r (Z.of_nat k)) s0) as (r' & c' & ->).
  reflexivity.
Qed.

(** In a row of a full redraw, a cell that follows a cell of the same
    attribute adds its character and nothing else. *)
Lemma full_redraw_row_stickiness (r : Z) (k : nat) (s : VGATextStream) :
  attribute (current_ s r (Z.of_nat k + 1)) = attribute (current_ s r (Z.of_nat k)) ->
  text_buffer_ (for_range (S (S k)) 0 (full_redraw_cell r) s)
  = text_buffer_ (for_range (S k) 0 (full_redraw_cell r) s)
    ++ utf8_of_cp437 (character (current_ s r (Z.of_nat k + 1))).
Proof.
  intros Hattr.
  rewrite (for_range_snoc (S k)).
  replace (0 + Z.of_nat (S k)) with (Z.of_nat k + 1) by lia.
  pose proof (full_redraw_cells_attr r k s) as Ha.
  destruct (full_redraw_cells_same_screen r (S k) 0 s) as (E & _).
  set (s1 := for_range (S k) 0 (full_redraw_cell r) s) in *.
  unfold full_redraw_cell. rewrite E.
  destruct (emitted_emit_cell (current_ s r (Z.of_nat k + 1)) s1) as (r' & c' & ->).
  obj. now rewrite Ha, Hattr, Z.eqb_refl.
Qed.

(** *** Full redraw, across rows *)

Lemma emitted_row_prelude (r : Z) (s : VGATextStream) :
  ansi_attr_ s = 0x07 ->
  emitted s (if r >? 0 then crlf else []) 0x07 (row_prelude r s).
Proof.
  intros Ha. unfold row_prelude. destruct (r >? 0).
  - rewrite Ha. cbn [Z.eqb Pos.eqb negb].
    exists (ansi_row_ s), (ansi_col_ s). unfold push_back. obj.
    rewrite <- app_assoc. destruct s. cbn in *. subst. reflexivity.
  - rewrite <- Ha. apply emitted_refl.
Qed.

Lemma row_epilogue_default (last_col : Z) (s : VGATextStream) :
  ansi_attr_ s = 0x07 -> row_epilogue last_col s = s.
Proof. intros Ha. unfold row_epilogue. now rewrite Ha. Qed.

(** [full_redraw_row] is its three parts in sequence. *)
Lemma full_redraw_row_parts (r : Z) (s : VGATextStream) :
  full_redraw_row r s
  = row_epilogue (row_last_col (row_prelude r s) r)
      (for_range (Z.to_nat (row_last_col (row_prelude r s) r + 1)) 0
         (full_redraw_cell r) (row_prelude r s)).
Proof. reflexivity. Qed.

Lemma row_last_col_same_screen (s s' : VGATextStream) (r : Z) :
  same_screen s s' -> row_last_col s' r = row_last_col s r.
Proof. intros (E1 & _ & E3). unfold row_last_col. now rewrite E1, E3. Qed.

Lemma emitted_row_epilogue (last_col : Z) (s : VGATextStream) :
  exists out a, emitted s out a (row_epilogue last_col s).
Proof. unfold row_epilogue. case_if; eauto with render. Qed.

Lemma emitted_full_redraw_cells (r : Z) (n : nat) (i : Z) (s : VGATextStream) :
  exists out a, emitted s out a (for_range n i (full_redraw_cell r) s).
Proof.
  apply (for_range_inv (fun t => exists out a, emitted s out a t)).
  - eauto with render.
  - intros c t _ (out & a & He). eexists _, _.
    eapply emitted_trans; [exact He | unfold full_redraw_cell; auto with render].
Qed.

Lemma emitted_text (s s' : VGATextStream) (out : list Z) (a : Z) :
  emitted s out a s' ->
  text_buffer_ s' = text_buffer_ s ++ out /\ ansi_attr_ s' = a.
Proof. intros (r & c & ->). split; reflexivity. Qed.

(** A row whose last emitted cell has the default attribute leaves the
    default attribute behind. *)
Lemma full_redraw_row_ends_default (r : Z) (s : VGATextStream) :
  0 <= row_last_col s r ->
  attribute (current_ s r (row_last_col s r)) = 0x07 ->
  ansi_attr_ (full_redraw_row r s) = 0x07
  /\ same_screen s (full_redraw_row r s).
Proof.
  intros Hlc Hattr. rewrite full_redraw_row_parts.
  assert (Hp : same_screen s (row_prelude r s)).
  { unfold row_prelude. destruct (r >? 0); [|apply same_screen_refl].
    destruct (negb (ansi_attr_ s =? 7)); repeat split; reflexivity. }
  rewrite (row_last_col_same_screen _ _ r Hp).
  set (s1 := row_prelude r s) in *.
  replace (Z.to_nat (row_last_col s r + 1)) with (S (Z.to_nat (row_last_col s r)))
    by lia.
  pose proof (full_redraw_cells_attr r (Z.to_nat (row_last_col s r)) s1) as Ha.
  pose proof (full_redraw_cells_same_screen r (S (Z.to_nat (row_last_col s r))) 0 s1)
    as Hs.
  set (s2 := for_range _ 0 (full_redraw_cell r) s1) in *.
  destruct Hp as (E1 & E2 & E3).
  rewrite Z2Nat.id, E1, Hattr in Ha by lia.
  rewrite row_epilogue_default by exact Ha.
  split; [exact Ha|].
  eapply same_screen_trans; [|exact Hs]. repeat split; assumption.
Qed.

(** A blank row entered with the default attribute adds its line break
    only. *)
Lemma full_redraw_row_blank (r : Z) (s : VGATextStream) :
  ansi_attr_ s = 0x07 -> row_last_col s r = -1 ->
  emitted s (if r >? 0 then crlf else []) 0x07 (full_redraw_row r s).
Proof.
  intros Ha Hlc. rewrite full_redraw_row_parts.
  pose proof (emitted_row_prelude r s Ha) as Hp.
  rewrite (row_last_col_same_screen _ _ r (emitted_same_screen _ _ _ _ Hp)), Hlc.
  cbn [Z.add Z.to_nat for_range].
  rewrite row_epilogue_default; [exact Hp|].
  now destruct (emitted_text _ _ _ _ Hp).
Qed.

(** A row entered with the default attribute whose first cell has the
    default attribute starts with the line break and that cell's
    character. *)
Lemma full_redraw_row_first_default (r : Z) (s : VGATextStream) :
  ansi_attr_ s = 0x07 -> 0 <= row_last_col s r ->
  attribute (current_ s r 0) = 0x07 ->
  exists rest,
    text_buffer_ (full_redraw_row r s)
    = text_buffer_ s ++ (if r >? 0 then crlf else [])
      ++ utf8_of_cp437 (character (current_ s r 0)) ++ rest.
Proof.
  intros Ha Hlc Hattr. rewrite full_redraw_row_parts.
  pose proof (emitted_row_prelude r s Ha) as Hp.
  pose proof (emitted_same_screen _ _ _ _ Hp) as Hs.
  rewrite (row_last_col_same_screen _ _ r Hs).
  destruct (emitted_text _ _ _ _ Hp) as [Hp1 Hp2].
  set (s1 := row_prelude r s) in *.
  replace (Z.to_nat (row_last_col s r + 1)) with (S (Z.to_nat (row_last_col s r)))
    by lia.
  cbn [for_range].
  pose proof (emitted_emit_cell (current_ s1 r 0) s1) as Hc.
  fold (full_redraw_cell r 0 s1) in Hc.
  destruct Hs as (E1 & _). rewrite E1, Hp2, Hattr in Hc. cbn [Z.eqb Pos.eqb app] in Hc.
  destruct (emitted_text _ _ _ _ Hc) as [Hc1 _].
  set (s2 := full_redraw_cell r 0 s1) in *.
  destruct (emitted_full_redraw_cells r (Z.to_nat (row_last_col s r)) (0 + 1) s2)
    as (o3 & a3 & H3).
  destruct (emitted_text _ _ _ _ H3) as [H31 _].
  set (s3 := for_range _ (0 + 1) (full_redraw_cell r) s2) in *.
  destruct (emitted_row_epilogue (row_last_col s r) s3) as (o4 & a4 & H4).
  destruct (emitted_text _ _ _ _ H4) as [H41 _].
  exists (o3 ++ o4). rewrite H41, H31, Hc1, Hp1. now rewrite <- !app_assoc.
Qed.

(** Blank rows entered with the default attribute add their line breaks
    only. *)
Lemma full_redraw_blank_rows (n : nat) (r : Z) (s : VGATextStream) :
  0 < r -> ansi_attr_ s = 0x07 ->
  (forall j, r <= j < r + Z.of_nat n -> row_last_col s j = -1) ->
  emitted s (concat (repeat crlf n)) 0x07 (for_range n r full_redraw_row s).
Proof.
  revert r s. induction n as [|n IH]; intros r s Hr Ha Hblank.
  - cbn. rewrite <- Ha. apply emitted_refl.
  - cbn [for_range repeat concat].
    pose proof (full_redraw_row_blank r s Ha) as H1.
    rewrite Hblank in H1 by lia. specialize (H1 eq_refl).
    replace (r >? 0) with true in H1 by lia.
    eapply emitted_trans; [exact H1|].
    apply IH; [lia | now destruct (emitted_text _ _ _ _ H1) |].
    intros j Hj.
    rewrite (row_last_col_same_screen _ _ j (emitted_same_screen _ _ _ _ H1)).
    apply Hblank. lia.
Qed.

(** Across the rows of a full redraw: after a row that ends with a cell of
    the default attribute, and blank rows, a row that starts with a cell of
    the default attribute adds the line breaks and the cell's character. *)
Lemma full_redraw_default_stickiness (r : Z) (n : nat) (s : VGATextStream) :
  0 <= r ->
  0 <= row_last_col s r ->
  attribute (current_ s r (row_last_col s r)) = 0x07 ->
  (forall j, r < j <= r + Z.of_nat n -> row_last_col s j = -1) ->
  0 <= row_last_col s (r + Z.of_nat n + 1) ->
  attribute (current_ s (r + Z.of_nat n + 1) 0) = 0x07 ->
  exists rest,
    text_buffer_ (for_range (S (S n)) r full_redraw_row s)
    = text_buffer_ (full_redraw_row r s) ++ concat (repeat crlf (S n))
      ++ utf8_of_cp437 (character (current_ s (r + Z.of_nat n + 1) 0)) ++ rest.
Proof.
  intros Hr Hlc Hattr Hblank Hlc2 Hattr2.
  change (for_range (S (S n)) r full_redraw_row s)
    with (for_range (S n) (r + 1) full_redraw_row (full_redraw_row r s)).
  destruct (full_redraw_row_ends_default r s Hlc Hattr) as [Ha1 Hs1].
  set (s1 := full_redraw_row r s) in *.
  rewrite for_range_snoc.
  pose proof (full_redraw_blank_rows n (r + 1) s1) as Hb.
  specialize (Hb ltac:(lia) Ha1).
  assert (Hb' : forall j, r + 1 <= j < r + 1 + Z.of_nat n -> row_last_col s1 j = -1).
  { intros j Hj. rewrite (row_last_col_same_screen _ _ j Hs1). apply Hblank. lia. }
  specialize (Hb Hb').
  destruct (emitted_text _ _ _ _ Hb) as [Hb1 Hb2].
  pose proof (same_screen_trans _ _ _ Hs1 (emitted_same_screen _ _ _ _ Hb)) as Hs2.
  set (s2 := for_range n (r + 1) full_redraw_row s1) in *.
  replace (r + 1 + Z.of_nat n) with (r + Z.of_nat n + 1) by lia.
  destruct (full_redraw_row_first_default (r + Z.of_nat n + 1) s2) as (rest & Hrest).
  - exact Hb2.
  - now rewrite (row_last_col_same_screen _ _ _ Hs2).
  - destruct Hs2 as (E1 & _). now rewrite E1.
  - exists rest. rewrite Hrest, Hb1.
    replace (r + Z.of_nat n + 1 >? 0) with true. 2:{ clear - Hr. symmetry. apply Z.gtb_lt. lia. }
    destruct Hs2 as (E1 & _). rewrite E1.
    replace (S n) with (n + 1)%nat by lia.
    rewrite repeat_app, concat_app. cbn [repeat concat].
    rewrite app_nil_r. now rewrite <- !app_assoc.
Qed.

(** C9, as stated, fails across the rows of a full redraw.  The screen has
    an A at (0,0) and a B at (1,0), both with attribute 0x1F, every other
    cell blank; A and B are the only cells emitted, one after the other.
    The renderer resets the attribute to 0x07 after A, so B is preceded by
    the SGR of 0x1F again: the sequence occurs twice in the payload. *)
Lemma stickiness_fails_across_rows :
  text_buffer_ (GenerateTextOutput two_rows_redraw)
  = hide_cursor ++ clear_home ++ sgr_default
    ++ sgr_bytes 0x1F ++ [0x41] ++ sgr_default
    ++ crlf ++ sgr_bytes 0x1F ++ [0x42] ++ sgr_default
    ++ concat (repeat crlf 23)
  /\ count_sub (sgr_bytes 0x1F) (text_buffer_ (GenerateTextOutput two_rows_redraw))
     = 2%nat.
Proof. split; vm_compute; reflexivity. Qed.

(** C9, amended.  A cell is preceded by an SGR sequence exactly when its
    attribute differs from [ansi_attr_], and its emission makes its
    attribute the last one emitted.  So after a cell emitted with attribute
    [a], the next cell emitted with the same attribute produces no SGR
    sequence
    - when both belong to a differential update (whose two loops are one
      pass over the cells in row-major order, and where only unchanged
      cells and a cursor move can lie between the two);
    - when both are in the same row of a full redraw;
    - when [a] is the default 0x07 and the two are in different rows of a
      full redraw (the last cell emitted of a row, blank rows, then the
      first cell of a row): only the line breaks lie between them. *)
Theorem attribute_stickiness :
  (forall cell s,
      ansi_attr_ (emit_cell cell s) = attribute cell
      /\ text_buffer_ (emit_cell cell s)
         = text_buffer_ s
           ++ (if attribute cell =? ansi_attr_ s then []
               else sgr_bytes (attribute cell))
           ++ utf8_of_cp437 (character cell))
  /\ (forall wr wc s,
        for_range (Z.to_nat (rows_ s)) 0 diff_row (wr, wc, s)
        = diff_cells (all_cells (Z.to_nat (rows_ s)) (Z.to_nat (cols_ s)))
            (wr, wc, s))
  /\ (forall pre mid p1 p2 st,
        changed (snd st) p1 = true -> changed (snd st) p2 = true ->
        forallb (fun rc => negb (changed (snd st) rc)) mid = true ->
        attribute (cell_at (snd st) p2) = attribute (cell_at (snd st) p1) ->
        exists mv,
          (mv = [] \/ mv = move_bytes (fst p2) (snd p2))
          /\ text_buffer_ (snd (diff_cells (pre ++ p1 :: mid ++ [p2]) st))
             = text_buffer_ (snd (diff_cells (pre ++ [p1]) st)) ++ mv
               ++ utf8_of_cp437 (character (cell_at (snd st) p2)))
  /\ (forall r k s,
        attribute (current_ s r (Z.of_nat k + 1))
        = attribute (current_ s r (Z.of_nat k)) ->
        text_buffer_ (for_range (S (S k)) 0 (full_redraw_cell r) s)
        = text_buffer_ (for_range (S k) 0 (full_redraw_cell r) s)
          ++ utf8_of_cp437 (character (current_ s r (Z.of_nat k + 1))))
  /\ (forall r n s,
        0 <= r ->
        0 <= row_last_col s r ->
        attribute (current_ s r (row_last_col s r)) = 0x07 ->
        (forall j, r < j <= r + Z.of_nat n -> row_last_col s j = -1) ->
        0 <= row_last_col s (r + Z.of_nat n + 1) ->
        attribute (current_ s (r + Z.of_nat n + 1) 0) = 0x07 ->
        exists rest,
          text_buffer_ (for_range (S (S n)) r full_redraw_row s)
          = text_buffer_ (full_redraw_row r s) ++ concat (repeat crlf (S n))
            ++ utf8_of_cp437 (character (current_ s (r + Z.of_nat n + 1) 0))
            ++ rest).
Proof.
  split; [|split; [|split; [|split]]].
  - intros cell s.
    destruct (emitted_emit_cell cell s) as (r' & c' & ->). obj.
    split; reflexivity.
  - apply diff_pass_cells.
  - apply diff_stickiness.
  - apply full_redraw_row_stickiness.
  - apply full_redraw_default_stickiness.
Qed.

(** The differential frame with an A at (2,3) and a B at (5,7), both of
    attribute 0x1F: B adds a cursor move and its character, no SGR. *)
Lemma attribute_stickiness_witness :
  exists mv,
    (mv = [] \/ mv = move_bytes 5 7)
    /\ text_buffer_ (snd (diff_cells [(2, 3); (2, 4); (5, 7)]
                            (-1, -1, two_cells_frame)))
       = text_buffer_ (snd (diff_cells [(2, 3)] (-1, -1, two_cells_frame)))
         ++ mv ++ [0x42].
Proof.
  destruct attribute_stickiness as (_ & _ & H & _).
  exact (H [] [(2, 4)] (2, 3) (5, 7) (-1, -1, two_cells_frame)
           eq_refl eq_refl eq_refl eq_refl).
Defined.

(** ** Full redraw of a blank screen *)

(** C4 at the input on which it fails.  A blank screen is redrawn in full
    while the cursor, visible at (0,0), has not changed since the previous
    frame (a periodic resync, or a REFRESH).  The payload begins as C4 says
    and holds the 24 CR LF pairs, and ends there: the cursor hidden by the
    first bytes is not shown again. *)
Theorem full_redraw_blank_cursor_unchanged :
  text_buffer_ (GenerateTextOutput blank_redraw)
  = hide_cursor ++ clear_home ++ sgr_default ++ concat (repeat crlf 24)
  /\ count_sub crlf (text_buffer_ (GenerateTextOutput blank_redraw)) = 24%nat
  /\ ~ (exists pre,
          text_buffer_ (GenerateTextOutput blank_redraw) = pre ++ show_cursor).
Proof.
  assert (H : text_buffer_ (GenerateTextOutput blank_redraw)
              = hide_cursor ++ clear_home ++ sgr_default
                ++ concat (repeat crlf 24)) by (vm_compute; reflexivity).
  split; [exact H|]. split; [vm_compute; reflexivity|].
  intros [pre Hpre]. rewrite H in Hpre.
  apply (f_equal (@rev Z)) in Hpre.
  rewrite (rev_app_distr pre show_cursor) in Hpre.
  set (rp := rev pre) in Hpre. vm_compute in Hpre. discriminate Hpre.
Qed.

(** The full redraw of the blank screen for every previous cursor: after
    the line breaks come a cursor move when the cursor differs from the
    previous one, and the show-cursor bytes only when the previous cursor
    was hidden. *)
Lemma full_redraw_blank_payload (p : TextCursor) :
  text_buffer_
    (GenerateTextOutput
       (streaming_session blank_grid blank_grid cursor_home p true))
  = hide_cursor ++ clear_home ++ sgr_default ++ concat (repeat crlf 24)
    ++ (if TextCursor_ne cursor_home p
        then move_bytes 0 0 ++ (if visible p then [] else show_cursor)
        else []).
Proof.
  destruct p as [[|pr|pr] [|pc|pc] [|]]; vm_compute; reflexivity.
Qed.

(** The same redraw when the previous cursor was hidden, as on the first
    frame of a zero-filled object: the frame C4 describes, with the move to
    the cursor's place before the show-cursor bytes. *)
Lemma full_redraw_blank_first_frame :
  text_buffer_ (GenerateTextOutput blank_first_frame)
  = hide_cursor ++ clear_home ++ sgr_default ++ concat (repeat crlf 24)
    ++ move_bytes 0 0 ++ show_cursor
  /\ count_sub crlf (text_buffer_ (GenerateTextOutput blank_first_frame)) = 24%nat.
Proof. split; vm_compute; reflexivity. Qed.

(** The failing input in a run.  The first frame of the session shows the
    cursor; after a REFRESH the next tick redraws the blank screen in full,
    hides the cursor, and sends a frame that ends with the line breaks. *)
Lemma first_frame_then_refresh :
  sock_tx after_first_frame
  = frame_of StreamChannel.CONTROL [ControlMsg.HELLO; 0; 1; 3; 1; 2; 3]
    ++ frame_of StreamChannel.CONTROL [ControlMsg.MODE_TEXT; 0; 80; 0; 25]
    ++ frame_of StreamChannel.CONTROL [ControlMsg.MODE_TEXT; 0; 80; 0; 25]
    ++ frame_of StreamChannel.CONTROL [ControlMsg.MODE_TEXT; 0; 80; 0; 25]
    ++ frame_of StreamChannel.TEXT_OUT
         (hide_cursor ++ clear_home ++ sgr_default ++ concat (repeat crlf 24)
          ++ move_bytes 0 0 ++ show_cursor)
  /\ sock_tx after_refresh
     = sock_tx after_first_frame
       ++ frame_of StreamChannel.TEXT_OUT
            (hide_cursor ++ clear_home ++ sgr_default
             ++ concat (repeat crlf 24)).
Proof. split; vm_compute; reflexivity. Qed.

(** * Further properties *)

(** ** Transport *)

Lemma sys_write_tx (buf : list Z) (s : VGATextStream) :
  exists n,
    (n <= length buf)%nat
    /\ (fst (sys_write buf s) = Z.of_nat n \/ (fst (sys_write buf s) = -1 /\ n = 0%nat))
    /\ sock_tx (snd (sys_write buf s)) = sock_tx s ++ firstn n buf.
Proof.
  unfold sys_write. destruct (sock_room s <=? 0) eqn:E.
  - exists 0%nat. cbn. rewrite app_nil_r. repeat split; auto; lia.
  - exists (Z.to_nat (Z.min (sock_room s) (size buf))). cbn [fst snd].
    pose proof (size_nonneg buf). unfold size in *.
    rewrite Z2Nat.id by lia. obj. repeat split; auto; lia.
Qed.

(** X1.  Whatever the socket accepts, [SendMessage] changes nothing but the
    socket's send side, and what it adds to the stream is a prefix of the
    frame: the header, then the payload, never a byte out of order. *)
Theorem SendMessage_writes_prefix (channel : Z) (data : list Z)
    (s : VGATextStream) :
  only_socket s (SendMessage channel data s)
  /\ exists n,
       sock_tx (SendMessage channel data s)
       = sock_tx s ++ firstn n (frame_of channel data).
Proof.
  split; [apply SendMessage_only_socket|].
  unfold SendMessage, frame_of.
  destruct ((client_fd_ s <? 0) || (size data >? 0xFFFFFF)).
  { exists 0%nat. cbn. now rewrite app_nil_r. }
  cbv zeta.
  match goal with |- context [sys_write ?h s] => set (header := h) end.
  destruct (sys_write_tx header s) as (n1 & Hn1 & Hret & Htx).
  destruct (sys_write header s) as [sent s1]. cbn [fst snd] in *.
  destruct (sent =? 4) eqn:E4; cbn [negb].
  - assert (n1 = 4%nat) as -> by (destruct Hret as [?|[? ?]]; lia).
    rewrite firstn_all2 in Htx by (cbn; lia).
    destruct (size data >? 0).
    + destruct (sys_write_tx data s1) as (n2 & Hn2 & _ & Htx2).
      exists (4 + n2)%nat. rewrite Htx2, Htx, <- app_assoc. f_equal.
    + exists 4%nat. rewrite Htx. reflexivity.
  - exists n1. rewrite Htx. f_equal.
    assert (n1 <= 4)%nat by (cbn in Hn1; lia).
    rewrite firstn_app. replace (n1 - length header)%nat with 0%nat by (cbn; lia).
    cbn [firstn]. now rewrite app_nil_r.
Qed.

Lemma sys_read_all (count : Z) (rx : list Z) (s : VGATextStream) :
  rx <> [] -> size rx <= count ->
  sys_read count (set_sock_rx rx s) = (size rx, rx, set_sock_rx [] s).
Proof.
  intros Hne Hle. unfold sys_read. obj.
  destruct rx as [|b rx']; [congruence|]. set (rx := b :: rx') in *.
  rewrite firstn_all2, skipn_all2 by (unfold size in Hle; lia).
  reflexivity.
Qed.

Lemma sys_read_empty (count : Z) (s : VGATextStream) :
  sys_read count (set_sock_rx [] s) = (-1, [], set_sock_rx [] s).
Proof. reflexivity. Qed.

Lemma sys_read_header (a b c d : Z) (rest : list Z) (s : VGATextStream) :
  sys_read 4 (set_sock_rx ([a; b; c; d] ++ rest) s)
  = (4, [a; b; c; d], set_sock_rx rest s).
Proof. reflexivity. Qed.

(** X2.  A frame cut short.  When only a proper prefix of a frame is pending,
    [ReadMessage] fails, and it has consumed the bytes that were there: the
    next read starts in the middle of the frame. *)
Theorem ReadMessage_incomplete (c : Z) (p : list Z) (k : nat) (channel0 : Z)
    (payload0 : list Z) (r : VGATextStream) :
  0 <= client_fd_ r ->
  size p <= 0xFFFFFF ->
  (k < length (frame_of c p))%nat ->
  let res :=
    ReadMessage channel0 payload0 (set_sock_rx (firstn k (frame_of c p)) r) in
  fst (fst (fst res)) = false /\ snd res = set_sock_rx [] r.
Proof.
  intros Hfd Hlen Hk. pose proof (size_nonneg p) as Hnn. cbv zeta.
  unfold ReadMessage.
  replace (client_fd_ (set_sock_rx _ r) <? 0) with false by (obj; lia).
  unfold frame_of in *. rewrite length_app in Hk. cbn [length] in Hk.
  set (header := [c; Z.land (Z.shiftr (size p) 16) 255;
                  Z.land (Z.shiftr (size p) 8) 255; Z.land (size p) 255]) in *.
  destruct (Nat.lt_ge_cases k 4) as [Hk4|Hk4].
  - (* the header itself is cut short *)
    rewrite firstn_app. change (length header) with 4%nat.
    replace (k - 4)%nat with 0%nat by lia.
    cbn [firstn]. rewrite app_nil_r.
    destruct k as [|k'].
    + cbn [firstn]. rewrite sys_read_empty. cbn. split; reflexivity.
    + rewrite sys_read_all.
      * replace (size (firstn (S k') header) =? 4) with false.
        { cbn. split; reflexivity. }
        symmetry. apply Z.eqb_neq.
        unfold size. rewrite length_firstn. change (length header) with 4%nat. lia.
      * subst header. cbn [firstn]. discriminate.
      * unfold size. rewrite length_firstn. change (length header) with 4%nat. lia.
  - (* the payload is cut short *)
    rewrite firstn_app, firstn_all2 by (change (length header) with 4%nat; lia).
    change (length header) with 4%nat.
    set (part := firstn (k - 4) p).
    assert (Hpart : size part < size p).
    { subst part. unfold size. rewrite length_firstn. lia. }
    pose proof (size_nonneg part) as Hpn.
    subst header. rewrite sys_read_header.
    cbn [Z.eqb Pos.eqb negb nth]. rewrite be24_join_split by lia.
    destruct (size p >? 0) eqn:E0; zbool; [|lia].
    destruct part as [|b part'] eqn:Epart.
    + destruct (Z.to_nat (size p)) as [|fuel] eqn:Ef; [lia|].
      cbn [read_payload]. destruct (0 <? size p); [|lia].
      rewrite sys_read_empty. cbn. split; reflexivity.
    + assert (Hp1 : 1 <= size (b :: part')) by (unfold size; cbn [length]; lia).
      destruct (Z.to_nat (size p)) as [|[|fuel]] eqn:Ef; [lia|lia|].
      cbn [read_payload]. destruct (0 <? size p); [|lia].
      rewrite sys_read_all by (try discriminate; lia).
      destruct (size (b :: part') <=? 0) eqn:E1; [lia|].
      cbn [Z.add]. destruct (size (b :: part') <? size p) eqn:E2; [|lia].
      rewrite sys_read_empty. cbn. split; reflexivity.
Qed.

(** A frame of two payload bytes cut after the first of them. *)
Lemma ReadMessage_incomplete_witness :
  fst (fst (fst (ReadMessage 0 []
                   (set_sock_rx [1; 0; 0; 2; 0x41] accepted_client)))) = false
  /\ snd (ReadMessage 0 [] (set_sock_rx [1; 0; 0; 2; 0x41] accepted_client))
     = set_sock_rx [] accepted_client.
Proof.
  apply (ReadMessage_incomplete 1 [0x41; 0x42] 5 0 [] accepted_client);
    cbn; lia.
Defined.

Lemma send_frames_tx (msgs : list Message) (s : VGATextStream) :
  0 <= client_fd_ s ->
  Forall (fun m => size (snd m) <= 0xFFFFFF) msgs ->
  size (frames_of msgs) <= sock_room s ->
  sock_tx (send_frames msgs s) = sock_tx s ++ frames_of msgs.
Proof.
  revert s. induction msgs as [|[c p] msgs IH]; intros s Hfd Hall Hroom.
  - cbn. now rewrite app_nil_r.
  - inversion Hall as [|? ? Hp Hrest]; subst. cbn [fst snd] in Hp.
    cbn [send_frames fold_left frames_of flat_map fst snd] in *.
    rewrite size_app in Hroom.
    assert (Hf : size (frame_of c p) = 4 + size p).
    { unfold frame_of. rewrite size_app. reflexivity. }
    pose proof (size_nonneg (flat_map (fun m => frame_of (fst m) (snd m)) msgs)).
    rewrite SendMessage_connected by lia.
    fold (send_frames msgs).
    rewrite IH; obj; try assumption; try (unfold frames_of; lia).
    unfold frames_of. now rewrite <- app_assoc.
Qed.

Lemma read_frames_ok (msgs : list Message) (rest : list Z) (r : VGATextStream) :
  0 <= client_fd_ r ->
  Forall (fun m => size (snd m) <= 0xFFFFFF) msgs ->
  read_frames (length msgs) (set_sock_rx (frames_of msgs ++ rest) r)
  = (msgs, set_sock_rx rest r).
Proof.
  intros Hfd Hall. induction Hall as [|[c p] msgs Hp Hrest IH]; [reflexivity|].
  cbn [length read_frames frames_of flat_map fst snd] in *.
  rewrite <- app_assoc, ReadMessage_frame by assumption.
  fold (frames_of msgs). rewrite IH. reflexivity.
Qed.

(** X3.  A stream of frames.  Messages sent one after the other on a socket
    with room for them arrive as the concatenation of their frames, and
    reading that many messages from these bytes gives the messages back, in
    order, leaving what follows them unread. *)
Theorem frame_stream_round_trip (msgs : list Message) (s r : VGATextStream)
    (rest : list Z) :
  0 <= client_fd_ s -> 0 <= client_fd_ r ->
  Forall (fun m => size (snd m) <= 0xFFFFFF) msgs ->
  size (frames_of msgs) <= sock_room s ->
  sock_tx (send_frames msgs s) = sock_tx s ++ frames_of msgs
  /\ read_frames (length msgs) (set_sock_rx (frames_of msgs ++ rest) r)
     = (msgs, set_sock_rx rest r).
Proof.
  intros Hs Hr Hall Hroom. split.
  - now apply send_frames_tx.
  - now apply read_frames_ok.
Qed.

(** A text frame followed by a control message. *)
Lemma frame_stream_round_trip_witness :
  sock_tx (send_frames [(1, [0x41]); (0, [0x20])] accepted_client)
  = [1; 0; 0; 1; 0x41; 0; 0; 0; 1; 0x20]
  /\ read_frames 2
       (set_sock_rx ([1; 0; 0; 1; 0x41; 0; 0; 0; 1; 0x20] ++ [7]) accepted_client)
     = ([(1, [0x41]); (0, [0x20])], set_sock_rx [7] accepted_client).
Proof.
  apply (frame_stream_round_trip [(1, [0x41]); (0, [0x20])]
           accepted_client accepted_client [7]).
  - cbn. lia.
  - cbn. lia.
  - repeat constructor; cbn; lia.
  - cbn. lia.
Defined.

(** ** Session *)

(** X4.  The server's own HELLO is a HELLO a client may send: read back and
    processed it completes the handshake, asks for text and for neither
    graphics nor audio. *)
Theorem hello_echo_completes_handshake (vga : VGA_Type) (s r : VGATextStream)
    (rest : list Z) (channel0 : Z) (payload0 : list Z) :
  0 <= client_fd_ s -> 11 <= sock_room s -> 0 <= client_fd_ r ->
  exists wire channel payload r1,
    sock_tx (SendHello s) = sock_tx s ++ wire
    /\ ReadMessage channel0 payload0 (set_sock_rx (wire ++ rest) r)
       = (true, channel, payload, r1)
    /\ handshake_done_ (ProcessMessage vga channel payload r1) = true
    /\ client_wants_text_ (ProcessMessage vga channel payload r1) = true
    /\ client_wants_graphics_ (ProcessMessage vga channel payload r1) = false
    /\ client_wants_audio_ (ProcessMessage vga channel payload r1) = false.
Proof.
  intros Hs Hroom Hr.
  unfold SendHello, SendControl.
  match goal with
  | |- context [SendMessage ?c ?p s] =>
      exists (frame_of c p), c, p, (set_sock_rx rest r)
  end.
  split; [rewrite SendMessage_connected by (cbn; lia); reflexivity|].
  split; [apply ReadMessage_frame; [assumption | cbn; lia]|].
  cbn [ProcessMessage HandleControlInput].
  change (ProcessMessage vga StreamChannel.CONTROL _ (set_sock_rx rest r))
    with (HandleHello vga [0; 1; 3; 1; 2; 3] (set_sock_rx rest r)).
  unfold HandleHello. cbn [size length Z.of_nat Pos.of_succ_nat Pos.succ Z.ltb Z.compare Pos.compare Pos.compare_cont nth].
  cbv zeta.
  match goal with
  | |- context [SendModeNotification vga ?t] =>
      destruct (SendModeNotification_effect vga t) as (room & tx & mn & ->)
  end.
  obj. repeat split; reflexivity.
Qed.

(** The accepted client of an 80x25 session echoing the server's HELLO. *)
Lemma hello_echo_completes_handshake_witness :
  exists wire channel payload r1,
    sock_tx (SendHello accepted_client) = sock_tx accepted_client ++ wire
    /\ ReadMessage 0 [] (set_sock_rx (wire ++ []) accepted_client)
       = (true, channel, payload, r1)
    /\ handshake_done_ (ProcessMessage vga_text_80x25 channel payload r1) = true
    /\ client_wants_text_ (ProcessMessage vga_text_80x25 channel payload r1)
       = true
    /\ client_wants_graphics_ (ProcessMessage vga_text_80x25 channel payload r1)
       = false
    /\ client_wants_audio_ (ProcessMessage vga_text_80x25 channel payload r1)
       = false.
Proof.
  apply (hello_echo_completes_handshake vga_text_80x25 accepted_client
           accepted_client [] 0 []); cbn; lia.
Defined.

Lemma be16_split (x : Z) :
  0 <= x < 65536 ->
  0 <= Z.land (Z.shiftr x 8) 0xFF < 256
  /\ 0 <= Z.land x 0xFF < 256
  /\ Z.land (Z.shiftr x 8) 0xFF * 256 + Z.land x 0xFF = x.
Proof.
  intros Hx. change 0xFF with (Z.ones 8).
  rewrite !Z.land_ones, Z.shiftr_div_pow2 by lia.
  change (2 ^ 8) with 256.
  pose proof (Z.mod_pos_bound x 256 ltac:(lia)).
  pose proof (Z.mod_pos_bound (x / 256) 256 ltac:(lia)).
  assert (x / 256 < 256) by (apply Z.div_lt_upper_bound; lia).
  assert (0 <= x / 256) by (apply Z.div_pos; lia).
  rewrite (Z.mod_small (x / 256)) by lia.
  pose proof (Z.div_mod x 256 ltac:(lia)). lia.
Qed.

(** X5.  In a text mode, after the handshake, [SendModeNotification] sends
    one 5-byte MODE_TEXT message whose four data bytes are the columns and
    the rows, each as a big-endian 16-bit number. *)
Theorem mode_text_carries_dimensions (vga : VGA_Type) (s : VGATextStream) :
  handshake_done_ s = true -> IsTextMode vga = true ->
  0 <= client_fd_ s -> 9 <= sock_room s ->
  0 <= cols_ s < 65536 -> 0 <= rows_ s < 65536 ->
  exists ch cl rh rl,
    sock_tx (SendModeNotification vga s)
    = sock_tx s ++ [0x00; 0x00; 0x00; 0x05; 0x10; ch; cl; rh; rl]
    /\ (0 <= ch < 256 /\ 0 <= cl < 256 /\ 0 <= rh < 256 /\ 0 <= rl < 256)
    /\ ch * 256 + cl = cols_ s /\ rh * 256 + rl = rows_ s
    /\ mode_notified_ (SendModeNotification vga s) = true.
Proof.
  intros Hh Ht Hfd Hroom Hc Hr.
  unfold SendModeNotification. rewrite Hh, Ht. cbn [negb].
  unfold SendControl. rewrite SendMessage_connected by (cbn; lia).
  destruct (be16_split _ Hc) as (C1 & C2 & C3).
  destruct (be16_split _ Hr) as (R1 & R2 & R3).
  eexists _, _, _, _. obj.
  split; [reflexivity|]. repeat split; try lia.
Qed.

(** The 80x25 session: the dimension bytes are 00 50 00 19. *)
Lemma mode_text_carries_dimensions_witness :
  exists ch cl rh rl,
    sock_tx (SendModeNotification vga_text_80x25 idle_session)
    = sock_tx idle_session ++ [0x00; 0x00; 0x00; 0x05; 0x10; ch; cl; rh; rl]
    /\ (0 <= ch < 256 /\ 0 <= cl < 256 /\ 0 <= rh < 256 /\ 0 <= rl < 256)
    /\ ch * 256 + cl = cols_ idle_session /\ rh * 256 + rl = rows_ idle_session
    /\ mode_notified_ (SendModeNotification vga_text_80x25 idle_session) = true.
Proof.
  apply (mode_text_carries_dimensions vga_text_80x25 idle_session);
    try reflexivity; cbn; lia.
Defined.

(** X6.  After a GOODBYE the client is gone: no descriptor, no handshake,
    nothing was sent in reply, and from then on sending, mode notification,
    the vsync handler and reading do nothing. *)
Theorem goodbye_silences (vga : VGA_Type) (mem_readb : Z -> Z)
    (tail : list Z) (s : VGATextStream) :
  let s' := ProcessMessage vga StreamChannel.CONTROL
              (ControlMsg.GOODBYE :: tail) s in
  client_fd_ s' = -1 /\ handshake_done_ s' = false
  /\ sock_tx s' = sock_tx s
  /\ (forall channel data, SendMessage channel data s' = s')
  /\ SendModeNotification vga s' = s'
  /\ OnVSync vga mem_readb s' = s'
  /\ (forall channel payload, fst (fst (fst (ReadMessage channel payload s'))) = false).
Proof.
  cbv zeta.
  change (ProcessMessage vga StreamChannel.CONTROL (ControlMsg.GOODBYE :: tail) s)
    with (drop_client s).
  unfold drop_client.
  split; [reflexivity|]. split; [reflexivity|]. split; [reflexivity|].
  split; [intros channel data; reflexivity|].
  split; [reflexivity|].
  split; [unfold OnVSync; obj; now rewrite orb_true_r|].
  intros channel payload. reflexivity.
Qed.

(** X7.  A message on a channel other than CONTROL and KEYBOARD_IN, an empty
    control message, and a control message other than HELLO, GOODBYE and
    REFRESH (RESIZE among them) leave the object as it is. *)
Theorem unknown_messages_ignored (vga : VGA_Type) (channel : Z)
    (payload : list Z) (s : VGATextStream) :
  (channel <> StreamChannel.CONTROL /\ channel <> StreamChannel.KEYBOARD_IN)
  \/ (channel = StreamChannel.CONTROL
      /\ forall msg tail, payload = msg :: tail ->
           msg <> ControlMsg.HELLO /\ msg <> ControlMsg.GOODBYE
           /\ msg <> ControlMsg.REFRESH) ->
  ProcessMessage vga channel payload s = s.
Proof.
  intros [[H0 H2]|[-> Hmsg]]; unfold ProcessMessage.
  - destruct (channel =? StreamChannel.CONTROL) eqn:E0; [lia|].
    destruct (channel =? StreamChannel.KEYBOARD_IN) eqn:E2; [lia|].
    now destruct (channel =? StreamChannel.MOUSE_IN).
  - cbn [Z.eqb StreamChannel.CONTROL]. unfold HandleControlInput.
    destruct payload as [|msg tail]; [reflexivity|].
    destruct (Hmsg msg tail eq_refl) as (N1 & N2 & N3).
    destruct (msg =? ControlMsg.HELLO) eqn:E1; [lia|].
    destruct (msg =? ControlMsg.GOODBYE) eqn:E2; [lia|].
    destruct (msg =? ControlMsg.REFRESH) eqn:E3; [lia|]. reflexivity.
Qed.

(** A mouse message, and a RESIZE request. *)
Lemma unknown_messages_ignored_witness :
  ProcessMessage vga_text_80x25 StreamChannel.MOUSE_IN [1; 2; 3] accepted_client
  = accepted_client
  /\ ProcessMessage vga_text_80x25 StreamChannel.CONTROL
       [ControlMsg.RESIZE; 0; 80; 0; 25] accepted_client
     = accepted_client.
Proof.
  split.
  - apply (unknown_messages_ignored vga_text_80x25 StreamChannel.MOUSE_IN
             [1; 2; 3] accepted_client).
    left. split; vm_compute; discriminate.
  - apply (unknown_messages_ignored vga_text_80x25 StreamChannel.CONTROL
             [ControlMsg.RESIZE; 0; 80; 0; 25] accepted_client).
    right. split; [reflexivity|].
    intros msg tail H. injection H as <- _.
    repeat split; vm_compute; discriminate.
Defined.

(** ** The render pass *)

Lemma GenerateTextOutput_parts (s : VGATextStream) :
  GenerateTextOutput s
  = let t :=
      FlushTextOutput
        (render_cursor
           (render_cells (force_redraw_ s)
              (set_force_redraw_ false (set_text_buffer_ [] s)))) in
    set_prev_cursor_ (cursor_ t) (set_previous_ (current_ t) t).
Proof. reflexivity. Qed.

Lemma emitted_push_back (b : Z) (s : VGATextStream) :
  emitted s [b] (ansi_attr_ s) (push_back b s).
Proof. exists (ansi_row_ s), (ansi_col_ s). now destruct s. Qed.

Lemma emitted_insert_end (bs : list Z) (s : VGATextStream) :
  emitted s bs (ansi_attr_ s) (insert_end bs s).
Proof. exists (ansi_row_ s), (ansi_col_ s). now destruct s. Qed.

Lemma emitted_attr (s s' : VGATextStream) (out : list Z) (a : Z) :
  emitted s out a s' -> ansi_attr_ s' = a.
Proof. intros (r & c & ->). reflexivity. Qed.

Lemma emitted_row_prelude_any (r : Z) (s : VGATextStream) :
  exists out a, emitted s out a (row_prelude r s).
Proof.
  unfold row_prelude. destruct (r >? 0); [|eauto with render].
  set (s1 := if negb (ansi_attr_ s =? 7) then EmitSetAttribute 7 s else s).
  assert (H1 : exists out a, emitted s out a s1)
    by (subst s1; case_if; eauto with render).
  destruct H1 as (o1 & a1 & H1).
  eexists _, _.
  eapply emitted_trans; [exact H1|].
  eapply emitted_trans; apply emitted_push_back.
Qed.

Lemma emitted_full_redraw_row (r : Z) (s : VGATextStream) :
  exists out a, emitted s out a (full_redraw_row r s).
Proof.
  rewrite full_redraw_row_parts.
  destruct (emitted_row_prelude_any r s) as (o1 & a1 & H1).
  set (s1 := row_prelude r s) in *.
  destruct (emitted_full_redraw_cells r
              (Z.to_nat (row_last_col s1 r + 1)) 0 s1) as (o2 & a2 & H2).
  set (s2 := for_range _ 0 (full_redraw_cell r) s1) in *.
  destruct (emitted_row_epilogue (row_last_col s1 r) s2) as (o3 & a3 & H3).
  eexists _, _.
  eapply emitted_trans; [exact H1|]. eapply emitted_trans; [exact H2 | exact H3].
Qed.

Lemma emitted_full_redraw_rows (n : nat) (i : Z) (s : VGATextStream) :
  exists out a, emitted s out a (for_range n i full_redraw_row s).
Proof.
  apply (for_range_inv (fun t => exists out a, emitted s out a t)).
  - eauto with render.
  - intros r t _ (out & a & He).
    destruct (emitted_full_redraw_row r t) as (o2 & a2 & H2).
    eexists _, _. eapply emitted_trans; eassumption.
Qed.

Lemma emitted_diff_cell (r c : Z) (st : DiffState) :
  exists out a, emitted (snd st) out a (snd (diff_cell r c st)).
Proof.
  destruct (TextCell_ne (current_ (snd st) r c) (previous_ (snd st) r c)) eqn:E.
  - destruct st as [[wr wc] s]. cbn [snd] in *.
    destruct (diff_cell_changed r c wr wc s E) as (wr' & wc' & s' & -> & He).
    cbn [snd]. eauto.
  - rewrite diff_cell_unchanged by exact E. eauto with render.
Qed.

Lemma emitted_diff_rows (n : nat) (i : Z) (st : DiffState) :
  exists out a, emitted (snd st) out a (snd (for_range n i diff_row st)).
Proof.
  apply (for_range_inv (fun t => exists out a, emitted (snd st) out a (snd t))).
  - eauto with render.
  - intros r t _ Ht. unfold diff_row.
    apply (for_range_inv
             (fun u => exists out a, emitted (snd st) out a (snd u))); [exact Ht|].
    intros c u _ (out & a & He).
    destruct (emitted_diff_cell r c u) as (o2 & a2 & H2).
    eexists _, _. eapply emitted_trans; eassumption.
Qed.

Lemma emitted_render_cells (full : bool) (s : VGATextStream) :
  exists out a,
    emitted s out a (render_cells full s)
    /\ (full = true ->
        exists rest, out = hide_cursor ++ clear_home ++ sgr_default ++ rest).
Proof.
  unfold render_cells. destruct full.
  - cbv zeta.
    assert (H1 : emitted s (hide_cursor ++ clear_home) (ansi_attr_ s)
                   (EmitClearScreen s)).
    { exists 0, 0. unfold EmitClearScreen, insert_end. obj.
      rewrite <- app_assoc. now destruct s. }
    pose proof (emitted_EmitSetAttribute 7 (EmitClearScreen s)) as H2.
    pose proof (emitted_trans _ _ _ _ _ _ _ H1 H2) as H12.
    set (s2 := EmitSetAttribute 7 (EmitClearScreen s)) in *.
    destruct (emitted_full_redraw_rows (Z.to_nat (rows_ s2)) 0 s2)
      as (o3 & a3 & H3).
    pose proof (emitted_trans _ _ _ _ _ _ _ H12 H3) as H123.
    set (s3 := for_range _ 0 full_redraw_row s2) in *.
    exists ((hide_cursor ++ clear_home) ++ sgr_bytes 7 ++ o3), a3. split.
    + destruct H123 as (r' & c' & E). rewrite E. exists (rows_ s - 1), 0.
      obj. rewrite <- !app_assoc. reflexivity.
    + intros _. exists o3. rewrite <- !app_assoc. reflexivity.
  - destruct (emitted_diff_rows (Z.to_nat (rows_ s)) 0 (-1, -1, s))
      as (out & a & He).
    exists out, a. split; [exact He | discriminate].
Qed.

Lemma emitted_render_cursor (s : VGATextStream) :
  emitted s (cursor_bytes (cursor_ s) (prev_cursor_ s)) (ansi_attr_ s)
    (render_cursor s).
Proof.
  unfold render_cursor, cursor_bytes.
  destruct (TextCursor_ne (cursor_ s) (prev_cursor_ s)).
  2:{ apply emitted_refl. }
  set (s1 := if visible (cursor_ s) then _ else s).
  assert (H1 : emitted s (if visible (cursor_ s)
                          then move_bytes (row (cursor_ s)) (col (cursor_ s))
                          else []) (ansi_attr_ s) s1).
  { subst s1. destruct (visible (cursor_ s)); auto with render. }
  assert (E1 : cursor_ s1 = cursor_ s /\ prev_cursor_ s1 = prev_cursor_ s
               /\ ansi_attr_ s1 = ansi_attr_ s).
  { destruct H1 as (r' & c' & ->). repeat split; reflexivity. }
  destruct E1 as (E1 & E2 & E3). cbv zeta. rewrite E1, E2.
  destruct (eqb (visible (cursor_ s)) (visible (prev_cursor_ s))); cbn [negb].
  - rewrite app_nil_r. exact H1.
  - eapply emitted_trans; [exact H1|]. rewrite <- E3.
    unfold EmitCursorVisibility.
    destruct (visible (cursor_ s)); apply emitted_insert_end.
Qed.

(** What a pass does to the object: the text buffer holds the cells' bytes
    and the cursor's, the render state moved on, the socket took the frame,
    and the frame buffers and cursor are the reference of the next pass. *)
Lemma GenerateTextOutput_effect (s : VGATextStream) :
  exists cells a r c room tx,
    GenerateTextOutput s
    = set_prev_cursor_ (cursor_ s) (set_previous_ (current_ s)
        (set_sock_room room (set_sock_tx tx
           (set_ansi_col_ c (set_ansi_row_ r (set_ansi_attr_ a
              (set_text_buffer_ (cells ++ cursor_bytes (cursor_ s) (prev_cursor_ s))
                 (set_force_redraw_ false s))))))))
    /\ (force_redraw_ s = true ->
        exists rest, cells = hide_cursor ++ clear_home ++ sgr_default ++ rest)
    /\ (force_redraw_ s = false ->
        exists wr wc s1,
          for_range (Z.to_nat (rows_ s)) 0 diff_row
            (-1, -1, set_force_redraw_ false (set_text_buffer_ [] s))
          = (wr, wc, s1)
          /\ text_buffer_ s1 = cells).
Proof.
  rewrite GenerateTextOutput_parts. cbv zeta.
  set (s0 := set_force_redraw_ false (set_text_buffer_ [] s)).
  destruct (emitted_render_cells (force_redraw_ s) s0) as (cells & a1 & H1 & Hfull).
  pose proof (emitted_render_cursor (render_cells (force_redraw_ s) s0)) as H2.
  assert (Hdiff : force_redraw_ s = false ->
            exists wr wc s1,
              for_range (Z.to_nat (rows_ s)) 0 diff_row (-1, -1, s0) = (wr, wc, s1)
              /\ text_buffer_ s1 = cells).
  { intros Hf. rewrite Hf in H1. unfold render_cells in H1.
    change (rows_ s0) with (rows_ s) in H1.
    destruct (for_range (Z.to_nat (rows_ s)) 0 diff_row (-1, -1, s0))
      as [[wr wc] s1].
    exists wr, wc, s1. split; [reflexivity|].
    cbn [snd] in H1. destruct H1 as (r' & c' & ->). reflexivity. }
  set (s1 := render_cells (force_redraw_ s) s0) in *.
  destruct H1 as (r1 & c1 & E1). destruct H2 as (r2 & c2 & E2).
  destruct (FlushTextOutput_only_socket (render_cursor s1)) as (room & tx & ->).
  rewrite E2, E1. subst s0. obj.
  exists cells, a1, r2, c2, room, tx.
  split; [reflexivity|]. split; assumption.
Qed.

Lemma diff_loops_quiet (n : nat) (s : VGATextStream) :
  (forall r c, 0 <= r < Z.of_nat n -> 0 <= c < cols_ s ->
               current_ s r c = previous_ s r c) ->
  for_range n 0 diff_row (-1, -1, s) = (-1, -1, s).
Proof.
  intros Hcells. apply for_range_id. intros r Hr.
  apply diff_row_unchanged. cbn [snd]. intros c Hc. apply Hcells; lia.
Qed.

(** X8.  A differential pass over a screen whose cells did not change emits
    the cursor's bytes and nothing else: the move when the cursor is
    visible, then the show or hide sequence when its visibility changed. *)
Theorem cursor_only_frame (s : VGATextStream) :
  force_redraw_ s = false ->
  (forall r c, 0 <= r < rows_ s -> 0 <= c < cols_ s ->
               current_ s r c = previous_ s r c) ->
  text_buffer_ (GenerateTextOutput s)
  = cursor_bytes (cursor_ s) (prev_cursor_ s).
Proof.
  intros Hf Hcells.
  destruct (GenerateTextOutput_effect s)
    as (cells & a & r & c & room & tx & -> & _ & Hdiff).
  destruct (Hdiff Hf) as (wr & wc & s1 & Hloop & <-).
  rewrite diff_loops_quiet in Hloop
    by (intros r0 c0 Hr0 Hc0; apply Hcells; [lia | exact Hc0]).
  injection Hloop as _ _ <-. reflexivity.
Qed.

(** The cursor moved to row 3, column 4 of an unchanged blank screen. *)
Lemma cursor_only_frame_witness :
  text_buffer_
    (GenerateTextOutput
       (streaming_session blank_grid blank_grid (mkTextCursor 3 4 true)
          cursor_home false))
  = move_bytes 3 4.
Proof.
  exact (cursor_only_frame
           (streaming_session blank_grid blank_grid (mkTextCursor 3 4 true)
              cursor_home false)
           eq_refl (fun r c _ _ => eq_refl)).
Defined.

(** X9.  Every full redraw starts with hide-cursor, clear-screen and home,
    and the default SGR, and ends with the cursor's bytes. *)
Theorem full_redraw_payload_shape (s : VGATextStream) :
  force_redraw_ s = true ->
  exists rows,
    text_buffer_ (GenerateTextOutput s)
    = hide_cursor ++ clear_home ++ sgr_default ++ rows
      ++ cursor_bytes (cursor_ s) (prev_cursor_ s).
Proof.
  intros Hf.
  destruct (GenerateTextOutput_effect s)
    as (cells & a & r & c & room & tx & -> & Hfull & _).
  destruct (Hfull Hf) as (rest & ->). exists rest. obj.
  now rewrite <- !app_assoc.
Qed.

(** The full redraw of the blank screen. *)
Lemma full_redraw_payload_shape_witness :
  exists rows,
    text_buffer_ (GenerateTextOutput blank_redraw)
    = hide_cursor ++ clear_home ++ sgr_default ++ rows
      ++ cursor_bytes (cursor_ blank_redraw) (prev_cursor_ blank_redraw).
Proof. exact (full_redraw_payload_shape blank_redraw eq_refl). Defined.

Lemma GenerateTextOutput_quiet (s : VGATextStream) :
  force_redraw_ s = false ->
  (forall r c, 0 <= r < rows_ s -> 0 <= c < cols_ s ->
               current_ s r c = previous_ s r c) ->
  cursor_ s = prev_cursor_ s ->
  text_buffer_ (GenerateTextOutput s) = []
  /\ sock_tx (GenerateTextOutput s) = sock_tx s
  /\ sock_room (GenerateTextOutput s) = sock_room s.
Proof.
  intros Hf Hcells Hcur.
  rewrite GenerateTextOutput_parts. cbv zeta. rewrite Hf.
  unfold render_cells.
  rewrite diff_loops_quiet
    by (intros r0 c0 Hr0 Hc0; obj; apply Hcells; [lia | exact Hc0]).
  cbn [snd]. unfold render_cursor. obj.
  rewrite Hcur, TextCursor_ne_refl. unfold FlushTextOutput. obj.
  repeat split; reflexivity.
Qed.

(** X10.  After any pass the previous frame and cursor are the current
    ones, the redraw flag is down, the dimensions, the connection and the
    handshake are as before; so a second pass right after it emits nothing
    and sends nothing. *)
Theorem render_pass_postcondition (s : VGATextStream) :
  let s' := GenerateTextOutput s in
  (previous_ s' = current_ s /\ current_ s' = current_ s)
  /\ (prev_cursor_ s' = cursor_ s /\ cursor_ s' = cursor_ s)
  /\ force_redraw_ s' = false
  /\ (cols_ s' = cols_ s /\ rows_ s' = rows_ s)
  /\ (client_fd_ s' = client_fd_ s /\ handshake_done_ s' = handshake_done_ s)
  /\ text_buffer_ (GenerateTextOutput s') = []
  /\ sock_tx (GenerateTextOutput s') = sock_tx s'.
Proof.
  cbv zeta.
  destruct (GenerateTextOutput_effect s)
    as (cells & a & r & c & room & tx & E & _ & _).
  set (s' := GenerateTextOutput s) in *.
  assert (F : previous_ s' = current_ s /\ current_ s' = current_ s
              /\ prev_cursor_ s' = cursor_ s /\ cursor_ s' = cursor_ s
              /\ force_redraw_ s' = false /\ cols_ s' = cols_ s
              /\ rows_ s' = rows_ s /\ client_fd_ s' = client_fd_ s
              /\ handshake_done_ s' = handshake_done_ s).
  { rewrite E. repeat split; reflexivity. }
  destruct F as (F1 & F2 & F3 & F4 & F5 & F6 & F7 & F8 & F9).
  destruct (GenerateTextOutput_quiet s') as (Q1 & Q2 & _);
    [exact F5 | intros; now rewrite F1, F2 | now rewrite F3, F4 |].
  repeat split; assumption.
Qed.

Lemma zseq_snoc (n : nat) (i : Z) :
  zseq (S n) i = zseq n i ++ [i + Z.of_nat n].
Proof.
  revert i. induction n as [|n IH]; intros i.
  - cbn. now rewrite Z.add_0_r.
  - change (zseq (S (S n)) i) with (i :: zseq (S n) (i + 1)).
    rewrite IH. cbn [zseq app]. do 3 f_equal. lia.
Qed.

Lemma find_last_col_le (fuel : nat) (line : Z -> TextCell) (last_col : Z) :
  find_last_col fuel line last_col <= last_col.
Proof.
  revert last_col. induction fuel as [|f IH]; intros l; cbn [find_last_col].
  - lia.
  - case_if; [|lia]. specialize (IH (l - 1)). lia.
Qed.

Lemma GenerateTextOutput_text (s : VGATextStream) :
  text_buffer_ (GenerateTextOutput s)
  = text_buffer_ (render_cells (force_redraw_ s)
                    (set_force_redraw_ false (set_text_buffer_ [] s)))
    ++ cursor_bytes (cursor_ s) (prev_cursor_ s).
Proof.
  rewrite GenerateTextOutput_parts. cbv zeta. obj.
  set (s0 := set_force_redraw_ false (set_text_buffer_ [] s)).
  destruct (emitted_render_cells (force_redraw_ s) s0) as (cells & a1 & H1 & _).
  pose proof (emitted_render_cursor (render_cells (force_redraw_ s) s0)) as H2.
  destruct (FlushTextOutput_only_socket
              (render_cursor (render_cells (force_redraw_ s) s0)))
    as (room & tx & ->).
  obj. destruct H2 as (r2 & c2 & ->). obj.
  destruct H1 as (r1 & c1 & ->). reflexivity.
Qed.

Lemma plain_cells (r : Z) (n : nat) (s : VGATextStream) :
  ansi_attr_ s = 0x07 ->
  (forall c, 0 <= c < Z.of_nat n -> attribute (current_ s r c) = 0x07) ->
  emitted s
    (flat_map (fun c => utf8_of_cp437 (character (current_ s r c))) (zseq n 0))
    0x07 (for_range n 0 (full_redraw_cell r) s).
Proof.
  intros Ha. induction n as [|n IH]; intros Hattr.
  - cbn [zseq flat_map for_range]. rewrite <- Ha. apply emitted_refl.
  - rewrite for_range_snoc, zseq_snoc, flat_map_app. cbn [flat_map].
    rewrite app_nil_r, Z.add_0_l.
    specialize (IH ltac:(intros; apply Hattr; lia)).
    eapply emitted_trans; [exact IH|].
    destruct (emitted_same_screen _ _ _ _ IH) as (Ec & _ & _).
    pose proof (emitted_attr _ _ _ _ IH) as Ea.
    set (t := for_range n 0 (full_redraw_cell r) s) in *.
    unfold full_redraw_cell.
    pose proof (emitted_emit_cell (current_ t r (Z.of_nat n)) t) as H.
    rewrite Ea, Ec in H. rewrite Ec.
    rewrite (Hattr (Z.of_nat n)) in H by lia.
    exact H.
Qed.

Lemma plain_row (r : Z) (s : VGATextStream) :
  ansi_attr_ s = 0x07 ->
  (forall c, 0 <= c < cols_ s -> attribute (current_ s r c) = 0x07) ->
  emitted s ((if r >? 0 then crlf else []) ++ row_text s r) 0x07
    (full_redraw_row r s).
Proof.
  intros Ha Hattr. rewrite full_redraw_row_parts.
  pose proof (emitted_row_prelude r s Ha) as H1.
  destruct (emitted_same_screen _ _ _ _ H1) as (Ec & Ep & Ew).
  pose proof (emitted_attr _ _ _ _ H1) as Ea1.
  rewrite (row_last_col_same_screen s (row_prelude r s) r)
    by (repeat split; assumption).
  assert (Hle : row_last_col s r <= cols_ s - 1)
    by apply find_last_col_le.
  pose proof (plain_cells r (Z.to_nat (row_last_col s r + 1))
                (row_prelude r s) Ea1) as H2.
  rewrite Ec in H2. specialize (H2 ltac:(intros; apply Hattr; lia)).
  fold (row_text s r) in H2.
  rewrite row_epilogue_default by (eapply emitted_attr; exact H2).
  eapply emitted_trans; eassumption.
Qed.

Lemma row_text_same_screen (s s' : VGATextStream) (r : Z) :
  same_screen s s' -> row_text s' r = row_text s r.
Proof.
  intros H. unfold row_text.
  rewrite (row_last_col_same_screen s s' r H).
  destruct H as (-> & _ & _). reflexivity.
Qed.

Lemma plain_rows (n : nat) (s : VGATextStream) :
  ansi_attr_ s = 0x07 ->
  (forall r c, 0 <= r < Z.of_nat n -> 0 <= c < cols_ s ->
               attribute (current_ s r c) = 0x07) ->
  emitted s (screen_text s n) 0x07 (for_range n 0 full_redraw_row s).
Proof.
  intros Ha. induction n as [|n IH]; intros Hattr.
  - cbn [for_range]. unfold screen_text. cbn [zseq flat_map].
    rewrite <- Ha. apply emitted_refl.
  - rewrite for_range_snoc. unfold screen_text.
    rewrite zseq_snoc, flat_map_app. cbn [flat_map].
    rewrite app_nil_r, Z.add_0_l. fold (screen_text s n).
    specialize (IH ltac:(intros; apply Hattr; lia)).
    eapply emitted_trans; [exact IH|].
    pose proof (emitted_same_screen _ _ _ _ IH) as Hs.
    rewrite <- (row_text_same_screen s _ (Z.of_nat n) Hs).
    apply plain_row; [eapply emitted_attr; exact IH|].
    destruct Hs as (-> & _ & ->). intros c Hc. apply Hattr; lia.
Qed.

(** X11.  The full redraw of a screen whose cells all have the default
    attribute 0x07 is plain text: after the three opening sequences, the
    rows separated by CR LF, each row its characters in UTF-8 up to the last
    one that is not a space, with no further SGR sequence; then the
    cursor's bytes. *)
Theorem plain_screen_full_redraw (s : VGATextStream) :
  force_redraw_ s = true ->
  (forall r c, 0 <= r < rows_ s -> 0 <= c < cols_ s ->
               attribute (current_ s r c) = 0x07) ->
  text_buffer_ (GenerateTextOutput s)
  = hide_cursor ++ clear_home ++ sgr_default
    ++ screen_text s (Z.to_nat (rows_ s))
    ++ cursor_bytes (cursor_ s) (prev_cursor_ s).
Proof.
  intros Hf Hattr. rewrite GenerateTextOutput_text, Hf.
  unfold render_cells. cbv zeta.
  set (s0 := set_force_redraw_ false (set_text_buffer_ [] s)).
  assert (H1 : emitted s0 (hide_cursor ++ clear_home) (ansi_attr_ s0)
                 (EmitClearScreen s0)).
  { exists 0, 0. unfold EmitClearScreen, insert_end. obj.
    rewrite <- app_assoc. reflexivity. }
  pose proof (emitted_EmitSetAttribute 7 (EmitClearScreen s0)) as H2.
  pose proof (emitted_trans _ _ _ _ _ _ _ H1 H2) as H12.
  set (s2 := EmitSetAttribute 7 (EmitClearScreen s0)) in *.
  assert (F : current_ s2 = current_ s /\ cols_ s2 = cols_ s
              /\ rows_ s2 = rows_ s /\ ansi_attr_ s2 = 7).
  { destruct H12 as (r' & c' & ->). repeat split; reflexivity. }
  destruct F as (Fc & Fw & Fr & Fa).
  pose proof (plain_rows (Z.to_nat (rows_ s2)) s2 Fa) as H3.
  rewrite Fc, Fw, Fr in H3.
  specialize (H3 ltac:(intros; apply Hattr; lia)).
  pose proof (emitted_trans _ _ _ _ _ _ _ H12 H3) as H.
  rewrite Fr. destruct H as (r' & c' & ->). obj.
  assert (Es : screen_text s2 (Z.to_nat (rows_ s))
               = screen_text s (Z.to_nat (rows_ s))).
  { unfold screen_text. apply flat_map_ext. intros r. reflexivity. }
  rewrite Es. subst s0. obj. cbn [app].
  rewrite <- !app_assoc. reflexivity.
Qed.

(** A screen that shows the letter A at the top left. *)
Lemma plain_screen_full_redraw_witness :
  text_buffer_
    (GenerateTextOutput
       (streaming_session (grid_set blank_grid 0 0 (mkTextCell 0x41 0x07))
          blank_grid cursor_home cursor_home true))
  = hide_cursor ++ clear_home ++ sgr_default
    ++ [0x41] ++ concat (repeat crlf 24).
Proof.
  assert (H : forall r c : Z,
             attribute (grid_set blank_grid 0 0 (mkTextCell 0x41 0x07) r c)
             = 0x07).
  { intros r c. unfold grid_set.
    destruct ((r =? 0) && (c =? 0)); reflexivity. }
  exact (plain_screen_full_redraw
           (streaming_session (grid_set blank_grid 0 0 (mkTextCell 0x41 0x07))
              blank_grid cursor_home cursor_home true)
           eq_refl (fun r c _ _ => H r c)).
Defined.

Lemma one_cell_diff_loops (r0 c0 : Z) (s : VGATextStream) :
  0 <= r0 < rows_ s -> 0 <= c0 < cols_ s ->
  TextCell_ne (current_ s r0 c0) (previous_ s r0 c0) = true ->
  (forall r c, 0 <= r < rows_ s -> 0 <= c < cols_ s -> (r, c) <> (r0, c0) ->
               current_ s r c = previous_ s r c) ->
  exists wr wc s',
    for_range (Z.to_nat (rows_ s)) 0 diff_row (-1, -1, s) = (wr, wc, s')
    /\ emitted s
         (move_bytes r0 c0
          ++ (if attribute (current_ s r0 c0) =? ansi_attr_ s then []
              else sgr_bytes (attribute (current_ s r0 c0)))
          ++ utf8_of_cp437 (character (current_ s r0 c0)))
         (attribute (current_ s r0 c0)) s'.
Proof.
  intros Hr0 Hc0 Hne Hrest.
  replace (Z.to_nat (rows_ s))
    with (Z.to_nat r0 + (1 + Z.to_nat (rows_ s - r0 - 1)))%nat by lia.
  rewrite for_range_app.
  rewrite (for_range_id (Z.to_nat r0)).
  2:{ intros r Hr. apply diff_row_unchanged. cbn [snd]. intros c Hc.
      apply Hrest; try lia. intros [= -> ->]. lia. }
  rewrite for_range_app. rewrite Z.add_0_l, Z2Nat.id by lia.
  cbn [for_range].
  unfold diff_row at 2. cbn [snd].
  replace (Z.to_nat (cols_ s))
    with (Z.to_nat c0 + (1 + Z.to_nat (cols_ s - c0 - 1)))%nat by lia.
  rewrite for_range_app.
  rewrite (for_range_id (Z.to_nat c0)).
  2:{ intros c Hc. apply diff_cell_unchanged. cbn [snd].
      rewrite Hrest by (try lia; intros [= ->]; lia). apply TextCell_ne_refl. }
  rewrite for_range_app. rewrite Z.add_0_l, Z2Nat.id by lia.
  cbn [for_range].
  destruct (diff_cell_changed r0 c0 (-1) (-1) s Hne) as (wr & wc & s' & Hd & He).
  rewrite Hd.
  replace (negb (r0 =? -1) || negb (c0 =? -1)) with true in He.
  2:{ symmetry. apply orb_true_iff. left. apply negb_true_iff, Z.eqb_neq. lia. }
  destruct (emitted_same_screen _ _ _ _ He) as (Hg1 & Hg2 & Hg3).
  rewrite (for_range_id (Z.to_nat (cols_ s - c0 - 1))).
  2:{ intros c Hc. apply diff_cell_unchanged. cbn [snd]. rewrite Hg1, Hg2.
      rewrite Hrest by (try lia; intros [= ->]; lia). apply TextCell_ne_refl. }
  rewrite for_range_id.
  2:{ intros r Hr. apply diff_row_unchanged. cbn [snd]. intros c Hc.
      rewrite Hg1, Hg2. rewrite Hg3 in Hc.
      apply Hrest; try lia. intros [= -> ->]. lia. }
  eauto.
Qed.

(** X12.  A differential pass over a screen on which one cell changed emits
    one cursor move to that cell, an SGR sequence if the cell's attribute is
    not the last one emitted, and the character; then the cursor's bytes. *)
Theorem one_cell_update (r0 c0 : Z) (s : VGATextStream) :
  force_redraw_ s = false ->
  0 <= r0 < rows_ s -> 0 <= c0 < cols_ s ->
  current_ s r0 c0 <> previous_ s r0 c0 ->
  (forall r c, 0 <= r < rows_ s -> 0 <= c < cols_ s -> (r, c) <> (r0, c0) ->
               current_ s r c = previous_ s r c) ->
  text_buffer_ (GenerateTextOutput s)
  = move_bytes r0 c0
    ++ (if attribute (current_ s r0 c0) =? ansi_attr_ s then []
        else sgr_bytes (attribute (current_ s r0 c0)))
    ++ utf8_of_cp437 (character (current_ s r0 c0))
    ++ cursor_bytes (cursor_ s) (prev_cursor_ s).
Proof.
  intros Hf Hr0 Hc0 Hne Hrest.
  assert (Hne' : TextCell_ne (current_ s r0 c0) (previous_ s r0 c0) = true).
  { destruct (TextCell_ne (current_ s r0 c0) (previous_ s r0 c0)) eqn:E;
      [reflexivity|].
    exfalso. apply Hne. unfold TextCell_ne, TextCell_eq in E.
    apply negb_false_iff, andb_true_iff in E. destruct E as [E1 E2].
    apply Z.eqb_eq in E1, E2.
    destruct (current_ s r0 c0), (previous_ s r0 c0). cbn in *. now subst. }
  rewrite GenerateTextOutput_text, Hf. unfold render_cells.
  set (s0 := set_force_redraw_ false (set_text_buffer_ [] s)).
  destruct (one_cell_diff_loops r0 c0 s0) as (wr & wc & s' & -> & He);
    try assumption.
  cbn [snd]. destruct He as (r' & c' & ->). subst s0. obj. cbn [app].
  now rewrite <- !app_assoc.
Qed.

(** The frame of the single-cell scenario. *)
Lemma one_cell_update_witness :
  text_buffer_ (GenerateTextOutput single_cell_frame) = single_cell_payload.
Proof.
  assert (Hrest : forall r c : Z,
             0 <= r < rows_ single_cell_frame ->
             0 <= c < cols_ single_cell_frame -> (r, c) <> (2, 3) ->
             current_ single_cell_frame r c = previous_ single_cell_frame r c).
  { intros r c _ _ Hne. cbn. unfold grid_set.
    destruct (r =? 2) eqn:Er; [|reflexivity].
    destruct (c =? 3) eqn:Ec; [|reflexivity].
    exfalso. apply Hne. f_equal; lia. }
  assert (Hne : current_ single_cell_frame 2 3 <> previous_ single_cell_frame 2 3)
    by (vm_compute; discriminate).
  exact (one_cell_update 2 3 single_cell_frame eq_refl
           ltac:(cbn; lia) ltac:(cbn; lia) Hne Hrest).
Defined.

(** ** Snapshot *)

Lemma set_current_twice (g h : Grid) (s : VGATextStream) :
  set_current_ g (set_current_ h s) = set_current_ g s.
Proof. now destruct s. Qed.

Lemma snapshot_row_cells (mem_readb : Z -> Z) (base r : Z) (n : nat)
    (s : VGATextStream) :
  exists g,
    for_range n 0 (snapshot_cell mem_readb base r) s = set_current_ g s
    /\ forall r' c',
         g r' c' = if (r' =? r) && (0 <=? c') && (c' <? Z.of_nat n)
                   then video_cell mem_readb base (cols_ s) r c'
                   else current_ s r' c'.
Proof.
  induction n as [|n (g & E & Hg)].
  - exists (current_ s). split; [now destruct s|].
    intros r' c'. destruct (r' =? r), (0 <=? c') eqn:H0; cbn [andb]; try reflexivity.
    destruct (c' <? Z.of_nat 0) eqn:H1; [|reflexivity].
    apply Z.leb_le in H0. apply Z.ltb_lt in H1. lia.
  - rewrite for_range_snoc, E. unfold snapshot_cell at 1. obj.
    rewrite set_current_twice. eexists. split; [reflexivity|].
    intros r' c'. unfold grid_set. rewrite Hg. rewrite Z.add_0_l.
    destruct (r' =? r) eqn:Er; cbn [andb]; [|reflexivity].
    destruct (c' =? Z.of_nat n) eqn:Ec.
    + apply Z.eqb_eq in Ec. subst c'.
      replace (0 <=? Z.of_nat n) with true by (symmetry; apply Z.leb_le; lia).
      replace (Z.of_nat n <? Z.of_nat (S n)) with true
        by (symmetry; apply Z.ltb_lt; lia).
      reflexivity.
    + apply Z.eqb_neq in Ec.
      destruct (0 <=? c'); cbn [andb]; [|reflexivity].
      replace (c' <? Z.of_nat (S n)) with (c' <? Z.of_nat n); [reflexivity|].
      destruct (c' <? Z.of_nat n) eqn:E1; symmetry.
      * apply Z.ltb_lt in E1. apply Z.ltb_lt. lia.
      * apply Z.ltb_ge in E1. apply Z.ltb_ge. lia.
Qed.

Lemma snapshot_rows_cells (mem_readb : Z -> Z) (base : Z) (n : nat)
    (s : VGATextStream) :
  exists g,
    for_range n 0
      (fun r s => for_range (Z.to_nat (cols_ s)) 0
                    (snapshot_cell mem_readb base r) s) s
    = set_current_ g s
    /\ forall r c,
         g r c = if in_window (Z.of_nat n) (cols_ s) r c
                 then video_cell mem_readb base (cols_ s) r c
                 else current_ s r c.
Proof.
  induction n as [|n (g & E & Hg)].
  - exists (current_ s). split; [now destruct s|].
    intros r c. unfold in_window.
    destruct (0 <=? r) eqn:H0; cbn [andb]; [|reflexivity].
    destruct (r <? Z.of_nat 0) eqn:H1; [|reflexivity].
    apply Z.leb_le in H0. apply Z.ltb_lt in H1. lia.
  - rewrite for_range_snoc, E. rewrite Z.add_0_l.
    destruct (snapshot_row_cells mem_readb base (Z.of_nat n)
                (Z.to_nat (cols_ (set_current_ g s))) (set_current_ g s))
      as (h & -> & Hh).
    rewrite set_current_twice. exists h. split; [reflexivity|].
    intros r c. rewrite Hh. obj. rewrite Hg. unfold in_window.
    destruct (r =? Z.of_nat n) eqn:Er.
    + apply Z.eqb_eq in Er. subst r.
      replace (0 <=? Z.of_nat n) with true by (symmetry; apply Z.leb_le; lia).
      replace (Z.of_nat n <? Z.of_nat (S n)) with true
        by (symmetry; apply Z.ltb_lt; lia).
      replace (Z.of_nat n <? Z.of_nat n) with false
        by (symmetry; apply Z.ltb_ge; lia).
      cbn [andb].
      destruct (0 <=? c) eqn:H0; cbn [andb]; [|reflexivity].
      replace (c <? Z.of_nat (Z.to_nat (cols_ s))) with (c <? cols_ s);
        [reflexivity|].
      apply Z.leb_le in H0.
      destruct (c <? cols_ s) eqn:E1; symmetry.
      * apply Z.ltb_lt in E1. apply Z.ltb_lt. lia.
      * apply Z.ltb_ge in E1. apply Z.ltb_ge. lia.
    + apply Z.eqb_neq in Er. cbn [andb].
      replace (r <? Z.of_nat (S n)) with (r <? Z.of_nat n); [reflexivity|].
      destruct (r <? Z.of_nat n) eqn:E1; symmetry.
      * apply Z.ltb_lt in E1. apply Z.ltb_lt. lia.
      * apply Z.ltb_ge in E1. apply Z.ltb_ge. lia.
Qed.

Lemma snapshot_rows_ge (vga : VGA_Type) : 24 <= snapshot_rows vga.
Proof.
  unfold snapshot_rows. cbv zeta.
  repeat match goal with
         | |- context [if ?b then _ else _] => destruct b eqn:?
         end; zbool;
  repeat match goal with
         | H : (_ <? _) = true |- _ => apply Z.ltb_lt in H
         | H : (_ <? _) = false |- _ => apply Z.ltb_ge in H
         end; unfold TEXTSTREAM_MAX_ROWS in *; lia.
Qed.

Lemma SnapshotTextBuffer_effect (vga : VGA_Type) (mem_readb : Z -> Z)
    (s : VGATextStream) :
  exists g room tx mn,
    SnapshotTextBuffer vga mem_readb s
    = set_current_ g (set_mode_notified_ mn (set_sock_room room (set_sock_tx tx
        (set_prev_rows_ (snapshot_rows vga) (set_prev_cols_ (snapshot_cols vga)
           (set_force_redraw_ (force_redraw_ s || dims_changed vga s)
              (set_rows_ (snapshot_rows vga)
                 (set_cols_ (snapshot_cols vga) s))))))))
    /\ forall r c,
         g r c = if in_window (snapshot_rows vga) (snapshot_cols vga) r c
                 then video_cell mem_readb
                        (to_u32 (0xB8000 + config_display_start vga * 2))
                        (snapshot_cols vga) r c
                 else current_ s r c.
Proof.
  unfold SnapshotTextBuffer. fold (snapshot_cols vga).
  cbv zeta. fold (snapshot_rows vga).
  set (C := snapshot_cols vga). set (R := snapshot_rows vga).
  assert (HR : Z.of_nat (Z.to_nat R) = R)
    by (pose proof (snapshot_rows_ge vga); subst R; lia).
  match goal with
  | |- context [for_range _ 0 _ ?t] =>
      assert (Hpre : exists room tx mn,
                 t = set_mode_notified_ mn (set_sock_room room (set_sock_tx tx
                       (set_prev_rows_ R (set_prev_cols_ C
                          (set_force_redraw_ (force_redraw_ s || dims_changed vga s)
                             (set_rows_ R (set_cols_ C s))))))))
  end.
  { obj. unfold dims_changed. fold C R.
    destruct (negb (C =? prev_cols_ s) || negb (R =? prev_rows_ s)) eqn:Hd.
    - match goal with
      | |- context [SendModeNotification vga ?t] =>
          destruct (SendModeNotification_effect vga t) as (room & tx & mn & ->)
      end.
      exists room, tx, mn. rewrite orb_true_r. now destruct s.
    - apply orb_false_elim in Hd. destruct Hd as [Hc Hr].
      apply negb_false_iff, Z.eqb_eq in Hc.
      apply negb_false_iff, Z.eqb_eq in Hr.
      exists (sock_room s), (sock_tx s), (mode_notified_ s).
      rewrite orb_false_r. destruct s. obj_cbv. cbn in Hc, Hr. now subst. }
  destruct Hpre as (room & tx & mn & ->).
  match goal with
  | |- context [for_range ?n 0 _ ?t] =>
      destruct (snapshot_rows_cells mem_readb
                  (to_u32 (0xB8000 + config_display_start vga * 2))
                  n t) as (g & E & Hg)
  end.
  revert E Hg. obj. intros E Hg. rewrite E.
  exists g, room, tx, mn. split; [reflexivity|].
  intros r c. rewrite Hg, HR. destruct s; reflexivity.
Qed.

Lemma SnapshotTextBuffer_same_dims (vga : VGA_Type) (mem_readb : Z -> Z)
    (s : VGATextStream) :
  dims_changed vga s = false ->
  exists g,
    SnapshotTextBuffer vga mem_readb s
    = set_current_ g (set_rows_ (snapshot_rows vga)
                        (set_cols_ (snapshot_cols vga) s))
    /\ forall r c,
         g r c = if in_window (snapshot_rows vga) (snapshot_cols vga) r c
                 then video_cell mem_readb
                        (to_u32 (0xB8000 + config_display_start vga * 2))
                        (snapshot_cols vga) r c
                 else current_ s r c.
Proof.
  intros Hd.
  unfold SnapshotTextBuffer. fold (snapshot_cols vga).
  cbv zeta. fold (snapshot_rows vga).
  set (C := snapshot_cols vga). set (R := snapshot_rows vga).
  assert (HR : Z.of_nat (Z.to_nat R) = R)
    by (pose proof (snapshot_rows_ge vga); subst R; lia).
  unfold dims_changed in Hd. fold C R in Hd. obj. rewrite Hd.
  match goal with
  | |- context [for_range ?n 0 _ ?t] =>
      destruct (snapshot_rows_cells mem_readb
                  (to_u32 (0xB8000 + config_display_start vga * 2))
                  n t) as (g & E & Hg)
  end.
  revert E Hg. obj. intros E Hg. rewrite E.
  exists g. split; [reflexivity|].
  intros r c. rewrite Hg, HR. destruct s; reflexivity.
Qed.

Lemma in_window_true (rows cols r c : Z) :
  0 <= r < rows -> 0 <= c < cols -> in_window rows cols r c = true.
Proof.
  intros Hr Hc. unfold in_window.
  rewrite !andb_true_iff, !Z.leb_le, !Z.ltb_lt. lia.
Qed.

Lemma in_window_false (rows cols r c : Z) :
  ~ (0 <= r < rows /\ 0 <= c < cols) -> in_window rows cols r c = false.
Proof.
  intros H. destruct (in_window rows cols r c) eqn:E; [|reflexivity].
  unfold in_window in E.
  rewrite !andb_true_iff, !Z.leb_le, !Z.ltb_lt in E. lia.
Qed.

(** X13.  After [SnapshotTextBuffer] every cell of the screen holds the two
    bytes of its place in video memory, character then attribute, the place
    of row [r], column [c] being [2 * (r * cols_ + c)] bytes after the start
    of the text plane (32-bit address arithmetic); the cells outside the
    screen and the previous frame are untouched. *)
Theorem snapshot_reads_video_memory (vga : VGA_Type) (mem_readb : Z -> Z)
    (s : VGATextStream) (r c : Z) :
  let s' := SnapshotTextBuffer vga mem_readb s in
  let addr :=
    to_u32 (to_u32 (0xB8000 + config_display_start vga * 2)
            + (r * cols_ s' + c) * 2) in
  (0 <= r < rows_ s' /\ 0 <= c < cols_ s' ->
   current_ s' r c = mkTextCell (mem_readb addr) (mem_readb (to_u32 (addr + 1))))
  /\ (~ (0 <= r < rows_ s' /\ 0 <= c < cols_ s') ->
      current_ s' r c = current_ s r c)
  /\ previous_ s' = previous_ s.
Proof.
  cbv zeta.
  destruct (SnapshotTextBuffer_dims vga mem_readb s) as [-> ->].
  destruct (SnapshotTextBuffer_effect vga mem_readb s)
    as (g & room & tx & mn & -> & Hg).
  obj. rewrite Hg. split; [|split].
  - intros [Hr Hc]. now rewrite in_window_true.
  - intros H. now rewrite in_window_false.
  - reflexivity.
Qed.

Lemma lor_shiftl_8 (h l : Z) :
  0 <= h -> 0 <= l < 256 -> Z.lor (Z.shiftl h 8) l = h * 256 + l.
Proof.
  intros Hh Hl. rewrite Z.shiftl_mul_pow2 by lia. change (2 ^ 8) with 256.
  rewrite <- Z.lxor_lor, <- Z.add_nocarry_lxor; try reflexivity.
  - apply Z.bits_inj'. intros n Hn. rewrite Z.land_spec, Z.bits_0.
    destruct (Z.lt_ge_cases n 8) as [H8|H8].
    + change 256 with (2 ^ 8). rewrite Z.mul_pow2_bits_low by lia. reflexivity.
    + destruct (Z.eq_dec l 0) as [->|Hne];
        [now rewrite Z.bits_0, andb_false_r|].
      rewrite (Z.bits_above_log2 l n), andb_false_r; [reflexivity|lia|].
      apply Z.lt_le_trans with 8; [|exact H8].
      apply Z.log2_lt_pow2; lia.
  - apply Z.bits_inj'. intros n Hn. rewrite Z.land_spec, Z.bits_0.
    destruct (Z.lt_ge_cases n 8) as [H8|H8].
    + change 256 with (2 ^ 8). rewrite Z.mul_pow2_bits_low by lia. reflexivity.
    + destruct (Z.eq_dec l 0) as [->|Hne];
        [now rewrite Z.bits_0, andb_false_r|].
      rewrite (Z.bits_above_log2 l n), andb_false_r; [reflexivity|lia|].
      apply Z.lt_le_trans with 8; [|exact H8].
      apply Z.log2_lt_pow2; lia.
Qed.

Lemma land_bit5 (x : Z) : (Z.land x 0x20 =? 0) = negb (Z.testbit x 5).
Proof.
  change 0x20 with (2 ^ 5).
  destruct (Z.testbit x 5) eqn:E; cbn [negb].
  - apply Z.eqb_neq. intros H.
    assert (F : Z.testbit (Z.land x (2 ^ 5)) 5 = true)
      by (rewrite Z.land_spec, E, Z.pow2_bits_true by lia; reflexivity).
    rewrite H, Z.bits_0 in F. discriminate.
  - apply Z.eqb_eq. apply Z.bits_inj'. intros n Hn.
    rewrite Z.land_spec, Z.bits_0, Z.pow2_bits_eqb by lia.
    destruct (5 =? n) eqn:E5; [|apply andb_false_r].
    apply Z.eqb_eq in E5. subst n. now rewrite E.
Qed.

(** X14.  [SnapshotCursor] splits the 16-bit cursor location into a row and
    a column of the current width: [row * cols_ + col] is the location and
    [col < cols_]; the cursor is visible exactly when bit 5 of the cursor
    start register is clear. *)
Theorem snapshot_cursor_decomposition (vga : VGA_Type) (s : VGATextStream) :
  is_u8 (crtc_cursor_location_high vga) ->
  is_u8 (crtc_cursor_location_low vga) ->
  0 < cols_ s ->
  let cur := cursor_ (SnapshotCursor vga s) in
  row cur * cols_ s + col cur
  = crtc_cursor_location_high vga * 256 + crtc_cursor_location_low vga
  /\ 0 <= col cur < cols_ s
  /\ 0 <= row cur
  /\ visible cur = negb (Z.testbit (crtc_cursor_start vga) 5).
Proof.
  unfold is_u8. intros Hh Hl Hc. cbv zeta. unfold SnapshotCursor. cbv zeta.
  obj. cbn [row col visible].
  rewrite lor_shiftl_8 by lia.
  set (pos := crtc_cursor_location_high vga * 256 + crtc_cursor_location_low vga).
  assert (Hpos : 0 <= pos < 65536) by (subst pos; lia).
  replace (cols_ s >? 0) with true by (symmetry; apply Z.gtb_lt; lia).
  pose proof (Z.mod_pos_bound pos (cols_ s) Hc) as Hm.
  pose proof (Z.div_mod pos (cols_ s) ltac:(lia)) as Hdm.
  assert (Hd : 0 <= pos / cols_ s) by (apply Z.div_pos; lia).
  assert (Hd' : pos / cols_ s <= pos).
  { destruct (Z.eq_dec (cols_ s) 1) as [->|Hne]; [rewrite Z.div_1_r; lia|].
    destruct (Z.eq_dec pos 0) as [->|Hp]; [now rewrite Z.div_0_l by lia|].
    apply Z.lt_le_incl, Z.div_lt; lia. }
  assert (Hmp : pos mod cols_ s <= pos) by (apply Z.mod_le; lia).
  unfold to_u16. rewrite !Z.mod_small by lia.
  repeat split; try lia. apply land_bit5.
Qed.

(** The cursor at offset 300 of an 80-column screen: row 3, column 60. *)
Lemma snapshot_cursor_decomposition_witness :
  let cur := cursor_ (SnapshotCursor vga_cursor_3_60 accepted_client) in
  row cur * 80 + col cur = 300 /\ 0 <= col cur < 80 /\ 0 <= row cur
  /\ visible cur = true.
Proof.
  apply (snapshot_cursor_decomposition vga_cursor_3_60 accepted_client);
    unfold is_u8; cbn; lia.
Defined.

(** ** The vsync handler *)

Lemma OnVSync_parts (vga : VGA_Type) (mem_readb : Z -> Z) (s : VGATextStream) :
  OnVSync vga mem_readb s
  = if vsync_guard s then s
    else
      let s := vsync_prologue vga s in
      if IsTextMode vga && client_wants_text_ s then
        let s :=
          if Z.rem (vsync_count_ s) 120 =? 0
          then set_force_redraw_ true s else s in
        GenerateTextOutput
          (SnapshotCursor vga (SnapshotTextBuffer vga mem_readb s))
      else s.
Proof. reflexivity. Qed.

Lemma VGAModes_eqb_eq (a b : VGAModes) : VGAModes_eqb a b = true -> a = b.
Proof.
  destruct a, b; cbn; try discriminate; try reflexivity.
  intros H. apply Nat.eqb_eq in H. now subst.
Qed.

Lemma VGAModes_eqb_refl (a : VGAModes) : VGAModes_eqb a a = true.
Proof. destruct a; cbn; try reflexivity. apply Nat.eqb_refl. Qed.

Lemma vsync_prologue_effect (vga : VGA_Type) (s : VGATextStream) :
  exists room tx mn,
    vsync_prologue vga s
    = set_force_redraw_
        (force_redraw_ s || negb (VGAModes_eqb (mode vga) (last_mode_ s)))
        (set_mode_notified_ mn (set_sock_room room (set_sock_tx tx
           (set_last_mode_ (mode vga)
              (set_vsync_count_ (vsync_count_ s + 1) s)))))
    /\ (VGAModes_eqb (mode vga) (last_mode_ s) = true ->
        room = sock_room s /\ tx = sock_tx s).
Proof.
  unfold vsync_prologue. cbv zeta. obj.
  destruct (VGAModes_eqb (mode vga) (last_mode_ s)) eqn:E; cbn [negb].
  - apply VGAModes_eqb_eq in E.
    exists (sock_room s), (sock_tx s), (mode_notified_ s).
    split; [|now split].
    rewrite orb_false_r. destruct s. obj_cbv. cbn in E. now subst.
  - match goal with
    | |- context [SendModeNotification vga ?t] =>
        destruct (SendModeNotification_effect vga t) as (room & tx & mn & ->)
    end.
    exists room, tx, mn. split; [|discriminate].
    rewrite orb_true_r. now destruct s.
Qed.

Lemma SnapshotCursor_effect (vga : VGA_Type) (s : VGATextStream) :
  cols_ s = snapshot_cols vga ->
  SnapshotCursor vga s = set_cursor_ (snapshot_cursor vga) s.
Proof. intros H. unfold SnapshotCursor, snapshot_cursor. now rewrite H. Qed.

Lemma text_frame_state (vga : VGA_Type) (mem_readb : Z -> Z)
    (s : VGATextStream) :
  let t := GenerateTextOutput
             (SnapshotCursor vga (SnapshotTextBuffer vga mem_readb s)) in
  exists g,
    (forall r c,
       g r c = if in_window (snapshot_rows vga) (snapshot_cols vga) r c
               then video_cell mem_readb
                      (to_u32 (0xB8000 + config_display_start vga * 2))
                      (snapshot_cols vga) r c
               else current_ s r c)
    /\ (previous_ t = g /\ current_ t = g)
    /\ (prev_cursor_ t = snapshot_cursor vga /\ cursor_ t = snapshot_cursor vga)
    /\ force_redraw_ t = false
    /\ (prev_cols_ t = snapshot_cols vga /\ prev_rows_ t = snapshot_rows vga)
    /\ (cols_ t = snapshot_cols vga /\ rows_ t = snapshot_rows vga)
    /\ (enabled_ t = enabled_ s /\ client_fd_ t = client_fd_ s
        /\ handshake_done_ t = handshake_done_ s)
    /\ (client_wants_text_ t = client_wants_text_ s
        /\ last_mode_ t = last_mode_ s /\ vsync_count_ t = vsync_count_ s).
Proof.
  cbv zeta.
  destruct (SnapshotTextBuffer_effect vga mem_readb s)
    as (g & room & tx & mn & E & Hg).
  rewrite E. rewrite SnapshotCursor_effect by reflexivity.
  match goal with
  | |- context [GenerateTextOutput ?x] =>
      destruct (GenerateTextOutput_effect x)
        as (cells & a & r & c & room' & tx' & -> & _ & _)
  end.
  exists g. split; [exact Hg|]. obj. repeat split; reflexivity.
Qed.

Lemma OnVSync_full_redraw (vga : VGA_Type) (mem_readb : Z -> Z)
    (s : VGATextStream) :
  vsync_guard s = false ->
  IsTextMode vga = true -> client_wants_text_ s = true ->
  force_redraw_ s || negb (VGAModes_eqb (mode vga) (last_mode_ s))
  || (Z.rem (vsync_count_ s + 1) 120 =? 0) || dims_changed vga s = true ->
  exists rest,
    text_buffer_ (OnVSync vga mem_readb s)
    = hide_cursor ++ clear_home ++ sgr_default ++ rest.
Proof.
  intros Hg Ht Hw Htrig.
  rewrite OnVSync_parts, Hg. cbv zeta.
  destruct (vsync_prologue_effect vga s) as (room & tx & mn & E & _).
  rewrite E, Ht. obj. rewrite Hw. cbn [andb].
  match goal with
  | |- context [SnapshotTextBuffer vga mem_readb ?x] =>
      set (s2 := x);
      assert (F : force_redraw_ s2 || dims_changed vga s2 = true)
  end.
  { subst s2. unfold dims_changed in *.
    destruct (Z.rem (vsync_count_ s + 1) 120 =? 0) eqn:Er; obj;
      [reflexivity|].
    rewrite orb_false_r in Htrig. exact Htrig. }
  destruct (SnapshotTextBuffer_effect vga mem_readb s2)
    as (g & room' & tx' & mn' & E' & _).
  rewrite E', F. rewrite SnapshotCursor_effect by reflexivity.
  match goal with
  | |- context [GenerateTextOutput ?x] =>
      destruct (GenerateTextOutput_effect x)
        as (cells & a & r & c & room'' & tx'' & -> & Hfull & _)
  end.
  destruct (Hfull eq_refl) as (rest & ->).
  exists (rest ++ cursor_bytes (snapshot_cursor vga) (prev_cursor_ s2)).
  obj. now rewrite <- !app_assoc.
Qed.

(** X15.  In a text mode, for a client that wants text, a tick redraws the
    screen in full when a redraw was pending, when the video mode changed,
    on every 120th tick, and when the width or the height changed. *)
Theorem vsync_full_redraw_triggers (vga : VGA_Type) (mem_readb : Z -> Z)
    (s : VGATextStream) :
  vsync_guard s = false ->
  IsTextMode vga = true -> client_wants_text_ s = true ->
  force_redraw_ s = true
  \/ mode vga <> last_mode_ s
  \/ Z.rem (vsync_count_ s + 1) 120 = 0
  \/ snapshot_cols vga <> prev_cols_ s
  \/ snapshot_rows vga <> prev_rows_ s ->
  exists rest,
    text_buffer_ (OnVSync vga mem_readb s)
    = hide_cursor ++ clear_home ++ sgr_default ++ rest.
Proof.
  intros Hg Ht Hw Htrig. apply OnVSync_full_redraw; try assumption.
  unfold dims_changed.
  destruct Htrig as [H|[H|[H|[H|H]]]].
  - now rewrite H.
  - destruct (VGAModes_eqb (mode vga) (last_mode_ s)) eqn:E.
    + apply VGAModes_eqb_eq in E. contradiction.
    + cbn [negb]. now rewrite orb_true_r.
  - rewrite H. cbn [Z.eqb]. now rewrite orb_true_r.
  - apply Z.eqb_neq in H. rewrite H. cbn [negb orb]. apply orb_true_r.
  - apply Z.eqb_neq in H. rewrite H. cbn [negb orb].
    rewrite !orb_true_r. reflexivity.
Qed.

(** The 120th tick of an idle session. *)
Lemma vsync_full_redraw_triggers_witness :
  exists rest,
    text_buffer_ (OnVSync vga_text_80x25 blank_memory
                    (set_vsync_count_ 119 idle_session))
    = hide_cursor ++ clear_home ++ sgr_default ++ rest.
Proof.
  apply (vsync_full_redraw_triggers vga_text_80x25 blank_memory
           (set_vsync_count_ 119 idle_session)); try reflexivity.
  right. right. left. reflexivity.
Defined.

(** X16.  A REFRESH request sends nothing and leaves the frame buffers
    alone; the next tick redraws the screen in full. *)
Theorem refresh_forces_full_redraw (vga : VGA_Type) (mem_readb : Z -> Z)
    (tail : list Z) (s : VGATextStream) :
  vsync_guard s = false ->
  IsTextMode vga = true -> client_wants_text_ s = true ->
  let s1 := ProcessMessage vga StreamChannel.CONTROL
              (ControlMsg.REFRESH :: tail) s in
  sock_tx s1 = sock_tx s
  /\ (current_ s1 = current_ s /\ previous_ s1 = previous_ s)
  /\ exists rest,
       text_buffer_ (OnVSync vga mem_readb s1)
       = hide_cursor ++ clear_home ++ sgr_default ++ rest.
Proof.
  intros Hg Ht Hw. cbv zeta.
  assert (E : ProcessMessage vga StreamChannel.CONTROL
                (ControlMsg.REFRESH :: tail) s = Invalidate s) by reflexivity.
  rewrite E. unfold Invalidate.
  split; [reflexivity|]. split; [split; reflexivity|].
  apply OnVSync_full_redraw; try assumption; reflexivity.
Qed.

(** A REFRESH in an idle session. *)
Lemma refresh_forces_full_redraw_witness :
  let s1 := ProcessMessage vga_text_80x25 StreamChannel.CONTROL
              (ControlMsg.REFRESH :: []) idle_session in
  sock_tx s1 = sock_tx idle_session
  /\ (current_ s1 = current_ idle_session
      /\ previous_ s1 = previous_ idle_session)
  /\ exists rest,
       text_buffer_ (OnVSync vga_text_80x25 blank_memory s1)
       = hide_cursor ++ clear_home ++ sgr_default ++ rest.
Proof.
  apply (refresh_forces_full_redraw vga_text_80x25 blank_memory []
           idle_session); reflexivity.
Defined.

Lemma vsync_prologue_same_mode (vga : VGA_Type) (t : VGATextStream) :
  last_mode_ t = mode vga ->
  vsync_prologue vga t = set_vsync_count_ (vsync_count_ t + 1) t.
Proof.
  intros Ht. unfold vsync_prologue. cbv zeta. obj.
  now rewrite Ht, VGAModes_eqb_refl.
Qed.

Lemma OnVSync_other_mode (vga : VGA_Type) (mem_readb : Z -> Z)
    (t : VGATextStream) :
  vsync_guard t = false -> last_mode_ t = mode vga ->
  IsTextMode vga && client_wants_text_ t = false ->
  OnVSync vga mem_readb t = set_vsync_count_ (vsync_count_ t + 1) t.
Proof.
  intros Hg Hm Ht. rewrite OnVSync_parts, Hg. cbv zeta.
  rewrite vsync_prologue_same_mode by exact Hm. obj. now rewrite Ht.
Qed.

Lemma OnVSync_unchanged_screen (vga : VGA_Type) (mem_readb : Z -> Z)
    (t : VGATextStream) :
  vsync_guard t = false -> last_mode_ t = mode vga ->
  Z.rem (vsync_count_ t + 1) 120 <> 0 ->
  force_redraw_ t = false ->
  prev_cols_ t = snapshot_cols vga -> prev_rows_ t = snapshot_rows vga ->
  (forall r c,
     previous_ t r c
     = if in_window (snapshot_rows vga) (snapshot_cols vga) r c
       then video_cell mem_readb
              (to_u32 (0xB8000 + config_display_start vga * 2))
              (snapshot_cols vga) r c
       else current_ t r c) ->
  prev_cursor_ t = snapshot_cursor vga ->
  sock_tx (OnVSync vga mem_readb t) = sock_tx t
  /\ sock_room (OnVSync vga mem_readb t) = sock_room t.
Proof.
  intros Hg Hm Hrem Hf Hc Hr Hcells Hcur.
  destruct (IsTextMode vga && client_wants_text_ t) eqn:Ht.
  2:{ rewrite OnVSync_other_mode by assumption. now split. }
  rewrite OnVSync_parts, Hg. cbv zeta.
  rewrite vsync_prologue_same_mode by exact Hm. obj. rewrite Ht.
  replace (Z.rem (vsync_count_ t + 1) 120 =? 0) with false
    by (symmetry; now apply Z.eqb_neq).
  destruct (SnapshotTextBuffer_same_dims vga mem_readb
              (set_vsync_count_ (vsync_count_ t + 1) t)) as (g' & -> & Hg').
  { unfold dims_changed. obj. now rewrite Hc, Hr, !Z.eqb_refl. }
  rewrite SnapshotCursor_effect by reflexivity.
  match goal with
  | |- context [GenerateTextOutput ?x] =>
      destruct (GenerateTextOutput_quiet x) as (_ & Q1 & Q2)
  end.
  - exact Hf.
  - intros r c _ _. obj. now rewrite Hg', Hcells.
  - obj. now rewrite Hcur.
  - rewrite Q1, Q2. split; reflexivity.
Qed.

Lemma OnVSync_text_state (vga : VGA_Type) (mem_readb : Z -> Z)
    (s : VGATextStream) :
  vsync_guard s = false ->
  IsTextMode vga && client_wants_text_ s = true ->
  exists t,
    OnVSync vga mem_readb s = t
    /\ vsync_guard t = false /\ last_mode_ t = mode vga
    /\ vsync_count_ t = vsync_count_ s + 1
    /\ force_redraw_ t = false
    /\ prev_cols_ t = snapshot_cols vga /\ prev_rows_ t = snapshot_rows vga
    /\ (forall r c,
          previous_ t r c
          = if in_window (snapshot_rows vga) (snapshot_cols vga) r c
            then video_cell mem_readb
                   (to_u32 (0xB8000 + config_display_start vga * 2))
                   (snapshot_cols vga) r c
            else current_ t r c)
    /\ prev_cursor_ t = snapshot_cursor vga.
Proof.
  intros Hg Ht. rewrite OnVSync_parts, Hg. cbv zeta.
  destruct (vsync_prologue_effect vga s) as (room & tx & mn & E & _).
  assert (F2 : vsync_guard (vsync_prologue vga s) = false
               /\ last_mode_ (vsync_prologue vga s) = mode vga
               /\ vsync_count_ (vsync_prologue vga s) = vsync_count_ s + 1
               /\ client_wants_text_ (vsync_prologue vga s)
                  = client_wants_text_ s).
  { rewrite E. unfold vsync_guard in *. obj. now rewrite Hg. }
  clear E. generalize dependent (vsync_prologue vga s). intros s2 F2.
  destruct F2 as (G2 & M2 & V2 & W2). rewrite W2, Ht.
  assert (F3 : exists s3,
             (if Z.rem (vsync_count_ s2) 120 =? 0
              then set_force_redraw_ true s2 else s2) = s3
             /\ vsync_guard s3 = false /\ last_mode_ s3 = mode vga
             /\ vsync_count_ s3 = vsync_count_ s + 1).
  { eexists. split; [reflexivity|].
    destruct (Z.rem (vsync_count_ s2) 120 =? 0); unfold vsync_guard in *;
      obj; auto. }
  destruct F3 as (s3 & -> & G3 & M3 & V3). clear G2 M2 V2 W2 s2.
  destruct (text_frame_state vga mem_readb s3)
    as (g & Hgrid & (T1 & T2) & (T3 & T4) & T5 & (T6 & T7) & (T8 & T9)
          & (T10 & T11 & T12) & T13 & T14 & T15).
  eexists. split; [reflexivity|].
  unfold vsync_guard in *. rewrite T10, T11, T12, T14, T15, T1, T2.
  repeat (split; [assumption|]). split; [|assumption].
  intros r c. rewrite !Hgrid.
  now destruct (in_window (snapshot_rows vga) (snapshot_cols vga) r c).
Qed.

Lemma OnVSync_other_state (vga : VGA_Type) (mem_readb : Z -> Z)
    (s : VGATextStream) :
  vsync_guard s = false ->
  IsTextMode vga && client_wants_text_ s = false ->
  exists t,
    OnVSync vga mem_readb s = t
    /\ vsync_guard t = false /\ last_mode_ t = mode vga
    /\ client_wants_text_ t = client_wants_text_ s.
Proof.
  intros Hg Ht. rewrite OnVSync_parts, Hg. cbv zeta.
  destruct (vsync_prologue_effect vga s) as (room & tx & mn & E & _).
  assert (F2 : vsync_guard (vsync_prologue vga s) = false
               /\ last_mode_ (vsync_prologue vga s) = mode vga
               /\ client_wants_text_ (vsync_prologue vga s)
                  = client_wants_text_ s).
  { rewrite E. unfold vsync_guard in *. obj. now rewrite Hg. }
  clear E. generalize dependent (vsync_prologue vga s). intros s2 F2.
  destruct F2 as (G2 & M2 & W2). rewrite W2, Ht.
  exists s2. repeat split; assumption.
Qed.

(** X17.  An idle screen costs nothing.  When the emulator's registers and
    memory are the same at two consecutive ticks, the second tick sends no
    byte, unless it is a 120th tick. *)
Theorem vsync_idle_silent (vga : VGA_Type) (mem_readb : Z -> Z)
    (s : VGATextStream) :
  Z.rem (vsync_count_ s + 2) 120 <> 0 ->
  let s1 := OnVSync vga mem_readb s in
  sock_tx (OnVSync vga mem_readb s1) = sock_tx s1
  /\ sock_room (OnVSync vga mem_readb s1) = sock_room s1.
Proof.
  intros Hrem. cbv zeta.
  destruct (vsync_guard s) eqn:Hg.
  { rewrite !OnVSync_parts, !Hg. now split. }
  destruct (IsTextMode vga && client_wants_text_ s) eqn:Ht.
  - destruct (OnVSync_text_state vga mem_readb s Hg Ht)
      as (t & -> & G & M & V & F & C & R & Hcells & Hcur).
    apply OnVSync_unchanged_screen; try assumption.
    rewrite V. now replace (vsync_count_ s + 1 + 1) with (vsync_count_ s + 2)
      by lia.
  - destruct (OnVSync_other_state vga mem_readb s Hg Ht)
      as (t & -> & G & M & W).
    rewrite OnVSync_other_mode; try assumption; [now split|].
    now rewrite W.
Qed.

(** Two ticks of the blank screen's first frame. *)
Lemma vsync_idle_silent_witness :
  let s1 := OnVSync vga_text_80x25 blank_memory blank_first_frame in
  sock_tx (OnVSync vga_text_80x25 blank_memory s1) = sock_tx s1
  /\ sock_room (OnVSync vga_text_80x25 blank_memory s1) = sock_room s1.
Proof.
  apply (vsync_idle_silent vga_text_80x25 blank_memory blank_first_frame).
  vm_compute. discriminate.
Defined.

Lemma vsync_guard_false (s : VGATextStream) :
  vsync_guard s = false ->
  enabled_ s = true /\ 0 <= client_fd_ s /\ handshake_done_ s = true.
Proof.
  unfold vsync_guard. intros H.
  apply orb_false_elim in H. destruct H as [H H3].
  apply orb_false_elim in H. destruct H as [H1 H2].
  apply negb_false_iff in H1, H3. apply Z.ltb_ge in H2. auto.
Qed.

Lemma graphics_not_text (vga : VGA_Type) :
  IsGraphicsMode vga = true -> IsTextMode vga = false.
Proof. unfold IsGraphicsMode, IsTextMode. now destruct (mode vga). Qed.

(** X18.  When the program switches to a graphics mode, the tick that sees
    it sends one MODE_UNSUPPORTED message and no text frame, keeps the
    frame buffers, and leaves a full redraw pending; the next tick sends
    nothing. *)
Theorem mode_switch_to_graphics (vga : VGA_Type) (mem_readb : Z -> Z)
    (s : VGATextStream) :
  vsync_guard s = false -> IsGraphicsMode vga = true ->
  VGAModes_eqb (mode vga) (last_mode_ s) = false ->
  5 <= sock_room s ->
  let s' := OnVSync vga mem_readb s in
  sock_tx s' = sock_tx s ++ [0x00; 0x00; 0x00; 0x01; 0x12]
  /\ (mode_notified_ s' = true /\ last_mode_ s' = mode vga)
  /\ force_redraw_ s' = true
  /\ (current_ s' = current_ s /\ previous_ s' = previous_ s)
  /\ sock_tx (OnVSync vga mem_readb s') = sock_tx s'.
Proof.
  intros Hg Hgm Hm Hroom. cbv zeta.
  destruct (vsync_guard_false s Hg) as (He & Hfd & Hh).
  pose proof (graphics_not_text vga Hgm) as Ht.
  assert (E : OnVSync vga mem_readb s
              = set_force_redraw_ true (set_mode_notified_ true
                  (set_sock_room (sock_room s - 5)
                     (set_sock_tx (sock_tx s ++ [0x00; 0x00; 0x00; 0x01; 0x12])
                        (set_mode_notified_ false (set_last_mode_ (mode vga)
                           (set_vsync_count_ (vsync_count_ s + 1) s))))))).
  { rewrite OnVSync_parts, Hg. cbv zeta. unfold vsync_prologue. cbv zeta. obj.
    rewrite Hm, Ht. cbn [negb andb].
    unfold SendModeNotification. obj. rewrite Hh, Ht, Hgm. cbn [negb].
    unfold SendControl. rewrite SendMessage_connected; obj;
      try (unfold size; cbn [length]; lia).
    reflexivity. }
  rewrite E.
  split; [reflexivity|]. split; [split; reflexivity|].
  split; [reflexivity|]. split; [split; reflexivity|].
  rewrite OnVSync_other_mode.
  - reflexivity.
  - unfold vsync_guard in *. obj. exact Hg.
  - reflexivity.
  - now rewrite Ht.
Qed.

(** A text session whose program switches to a VGA graphics mode. *)
Lemma mode_switch_to_graphics_witness :
  let s' := OnVSync vga_graphics blank_memory idle_session in
  sock_tx s' = sock_tx idle_session ++ [0x00; 0x00; 0x00; 0x01; 0x12]
  /\ (mode_notified_ s' = true /\ last_mode_ s' = mode vga_graphics)
  /\ force_redraw_ s' = true
  /\ (current_ s' = current_ idle_session
      /\ previous_ s' = previous_ idle_session)
  /\ sock_tx (OnVSync vga_graphics blank_memory s') = sock_tx s'.
Proof.
  apply (mode_switch_to_graphics vga_graphics blank_memory idle_session);
    try reflexivity.
  cbn. lia.
Defined.

(** ** Input tokenizer *)

Lemma appended_refl (s : VGATextStream) : appended s s.
Proof. exists []. rewrite app_nil_r. repeat split; [cbn; lia | constructor]. Qed.

Lemma to_u16_range (x : Z) : is_u16 (to_u16 x).
Proof. unfold is_u16, to_u16. apply Z.mod_pos_bound. lia. Qed.

Lemma appended_key (code : Z) (s : VGATextStream) :
  appended s (BIOS_AddKeyToBuffer (to_u16 code) s).
Proof.
  exists [to_u16 code]. unfold BIOS_AddKeyToBuffer. obj.
  repeat split; [cbn; lia|]. constructor; [apply to_u16_range | constructor].
Qed.

Lemma appended_InjectKey (sc a : Z) (e : bool) (s : VGATextStream) :
  appended s (InjectKey sc a e s).
Proof. unfold InjectKey. cbv zeta. destruct e; apply appended_key. Qed.

Lemma appended_csi_tilde (p : Z) (s : VGATextStream) : appended s (csi_tilde p s).
Proof.
  unfold csi_tilde.
  repeat match goal with
         | |- context [if ?b then _ else _] =>
             destruct b; [apply appended_InjectKey|]
         end.
  apply appended_refl.
Qed.

Lemma appended_csi_final (b : Z) (s : VGATextStream) : appended s (csi_final b s).
Proof.
  unfold csi_final.
  repeat match goal with
         | |- context [if ?b then _ else _] =>
             destruct b; [first [apply appended_InjectKey
                                | cbv zeta; apply appended_csi_tilde]|]
         end.
  apply appended_refl.
Qed.

Lemma appended_ss3_final (b : Z) (s : VGATextStream) : appended s (ss3_final b s).
Proof.
  unfold ss3_final.
  repeat match goal with
         | |- context [if ?b then _ else _] =>
             destruct b; [apply appended_InjectKey|]
         end.
  apply appended_refl.
Qed.

Lemma appended_parser (s s' : VGATextStream) (st : InputState) (p : list Z) :
  appended s s' -> appended s (set_input_state_ st (set_csi_params_ p s')).
Proof. intros (keys & E & H). exists keys. obj. now split. Qed.

Lemma appended_state (s s' : VGATextStream) (st : InputState) :
  appended s s' -> appended s (set_input_state_ st s').
Proof. intros (keys & E & H). exists keys. obj. now split. Qed.

Lemma appended_params (s s' : VGATextStream) (p : list Z) :
  appended s s' -> appended s (set_csi_params_ p s').
Proof. intros (keys & E & H). exists keys. obj. now split. Qed.

Lemma appended_ProcessInputByte (b : Z) (s : VGATextStream) :
  appended s (ProcessInputByte b s).
Proof.
  unfold ProcessInputByte. destruct (input_state_ s); cbv zeta.
  - repeat match goal with
           | |- context [if ?b then _ else _] => destruct b
           end;
      first [apply appended_InjectKey | apply appended_state, appended_refl
            | apply appended_refl].
  - repeat match goal with
           | |- context [if ?b then _ else _] => destruct b
           end;
      first [apply appended_params, appended_state, appended_refl
            | apply appended_state, appended_key
            | apply appended_state, appended_InjectKey
            | apply appended_state, appended_refl].
  - repeat match goal with
           | |- context [if ?b then _ else _] => destruct b
           end;
      first [apply appended_params, appended_refl
            | apply appended_parser, appended_csi_final
            | apply appended_state, appended_refl].
  - apply appended_state, appended_ss3_final.
Qed.

(** X19.  Keyboard input touches the tokenizer's state and the BIOS key
    buffer only; it adds at most one key per input byte, each a 16-bit
    code, and never removes or changes a key already there. *)
Theorem keyboard_key_log_grows (data : list Z) (s : VGATextStream) :
  only_parser s (HandleKeyboardInput data s)
  /\ exists keys,
       bios_keys (HandleKeyboardInput data s) = bios_keys s ++ keys
       /\ (length keys <= length data)%nat
       /\ Forall (fun k => 0 <= k < 65536) keys.
Proof.
  split; [apply HandleKeyboardInput_only_parser|].
  unfold HandleKeyboardInput. revert s.
  induction data as [|b data IH]; intros s.
  - exists []. cbn. rewrite app_nil_r. repeat split; [lia | constructor].
  - cbn [fold_left].
    destruct (appended_ProcessInputByte b s) as (k1 & E1 & L1 & F1).
    destruct (IH (ProcessInputByte b s)) as (k2 & E2 & L2 & F2).
    exists (k1 ++ k2). rewrite E2, E1, <- app_assoc.
    split; [reflexivity|]. split.
    + rewrite length_app. cbn [length]. lia.
    + apply Forall_app. split; assumption.
Qed.

Lemma ascii_scancode_u8 (i : Z) : 0 <= tbl ascii_scancode i < 256.
Proof.
  assert (H : Forall (fun x => 0 <= x < 256) ascii_scancode).
  { apply Forall_forall. intros x Hx.
    assert (F : forallb (fun x => (0 <=? x) && (x <? 256)) ascii_scancode = true)
      by reflexivity.
    rewrite forallb_forall in F. specialize (F x Hx).
    apply andb_true_iff in F. destruct F as [F1 F2].
    apply Z.leb_le in F1. apply Z.ltb_lt in F2. lia. }
  unfold tbl.
  destruct (Nat.lt_ge_cases (Z.to_nat i) (length ascii_scancode)) as [Hlt|Hge].
  - rewrite Forall_forall in H. apply H. now apply nth_In.
  - rewrite nth_overflow by exact Hge. lia.
Qed.

Lemma keycode_pack (sc a : Z) :
  0 <= sc < 256 -> 0 <= a < 256 ->
  to_u16 (Z.lor (Z.shiftl sc 8) a) = sc * 256 + a.
Proof.
  intros Hs Ha. rewrite lor_shiftl_8 by lia.
  unfold to_u16. apply Z.mod_small. lia.
Qed.

Lemma keycode_unpack (sc a : Z) :
  0 <= sc < 256 -> 0 <= a < 256 ->
  (sc * 256 + a) / 256 = sc /\ (sc * 256 + a) mod 256 = a.
Proof.
  intros Hs Ha. split.
  - rewrite Z.add_comm, Z.div_add by lia. rewrite Z.div_small by lia. lia.
  - rewrite Z.add_comm, Z.mod_add by lia. apply Z.mod_small. lia.
Qed.

Lemma InjectKey_plain_key (scancode ascii : Z) (s : VGATextStream) :
  is_u8 scancode -> is_u8 ascii ->
  exists k,
    InjectKey scancode ascii false s = set_bios_keys (bios_keys s ++ [k]) s
    /\ k / 256 = scancode /\ k mod 256 = ascii.
Proof.
  unfold is_u8. intros Hs Ha. unfold InjectKey, BIOS_AddKeyToBuffer. cbv zeta.
  rewrite keycode_pack by lia. eexists. split; [reflexivity|].
  now apply keycode_unpack.
Qed.

(** X20.  [InjectKey] hands the BIOS one key code whose high byte is the
    scan code and whose low byte is the character, or zero for an extended
    key. *)
Theorem InjectKey_packing (scancode ascii : Z) (extended : bool)
    (s : VGATextStream) :
  is_u8 scancode -> is_u8 ascii ->
  exists k,
    InjectKey scancode ascii extended s = set_bios_keys (bios_keys s ++ [k]) s
    /\ k / 256 = scancode
    /\ k mod 256 = (if extended then 0 else ascii)
    /\ 0 <= k < 65536.
Proof.
  unfold is_u8. intros Hs Ha. unfold InjectKey, BIOS_AddKeyToBuffer. cbv zeta.
  destruct extended.
  - rewrite keycode_pack by lia. eexists. split; [reflexivity|].
    destruct (keycode_unpack scancode 0) as [-> ->]; lia.
  - rewrite keycode_pack by lia. eexists. split; [reflexivity|].
    destruct (keycode_unpack scancode ascii) as [-> ->]; lia.
Qed.

(** The key A: scan code 0x1E, character 0x61. *)
Lemma InjectKey_packing_witness :
  exists k,
    InjectKey 0x1E 0x61 false accepted_client
    = set_bios_keys (bios_keys accepted_client ++ [k]) accepted_client
    /\ k / 256 = 0x1E /\ k mod 256 = 0x61 /\ 0 <= k < 65536.
Proof.
  apply (InjectKey_packing 0x1E 0x61 false accepted_client);
    unfold is_u8; lia.
Defined.

(** X21.  In the NORMAL state a printable character 0x20..0x7E gives the key
    with that character and the scan code the table has for it; a control
    character 1..26 other than backspace, tab and return gives the key with
    that character and the scan code of its letter. *)
Theorem typed_character_keycode (b : Z) (s : VGATextStream) :
  input_state_ s = NORMAL ->
  (0x20 <= b < 0x7F ->
   exists k,
     ProcessInputByte b s = set_bios_keys (bios_keys s ++ [k]) s
     /\ k / 256 = tbl ascii_scancode b /\ k mod 256 = b)
  /\ (1 <= b <= 26 -> b <> 0x08 -> b <> 0x09 -> b <> 0x0D ->
      exists k,
        ProcessInputByte b s = set_bios_keys (bios_keys s ++ [k]) s
        /\ k / 256 = tbl ascii_scancode (0x60 + b) /\ k mod 256 = b).
Proof.
  intros Hst. split.
  - intros Hb. unfold ProcessInputByte. rewrite Hst.
    destruct (b =? 0x1B) eqn:E1; [lia|].
    destruct (b =? 0x7F) eqn:E2; [lia|].
    destruct (b <? 0x20) eqn:E3; [lia|].
    destruct (b <? 0x80) eqn:E4; [|lia].
    cbv zeta. pose proof (ascii_scancode_u8 b) as Hsc.
    destruct (InjectKey_plain_key (tbl ascii_scancode b) b s) as (k & -> & K);
      try (unfold is_u8; lia).
    exists k. split; [reflexivity | exact K].
  - intros Hb H8 H9 H13. unfold ProcessInputByte. rewrite Hst.
    destruct (b =? 0x1B) eqn:E1; [lia|].
    destruct (b =? 0x7F) eqn:E2; [lia|].
    destruct (b <? 0x20) eqn:E3; [|lia].
    destruct (b =? 0x0D) eqn:E4; [lia|].
    destruct (b =? 0x09) eqn:E5; [lia|].
    destruct (b =? 0x08) eqn:E6; [lia|].
    destruct ((b >=? 1) && (b <=? 26)) eqn:E7; [|zbool; lia].
    cbv zeta. replace (0x61 + b - 1) with (0x60 + b) by lia.
    pose proof (ascii_scancode_u8 (0x60 + b)) as Hsc.
    destruct (InjectKey_plain_key (tbl ascii_scancode (0x60 + b)) b s)
      as (k & -> & K); try (unfold is_u8; lia).
    exists k. split; [reflexivity | exact K].
Qed.

(** The letter a, and Ctrl+A. *)
Lemma typed_character_keycode_witness :
  (exists k,
     ProcessInputByte 0x61 accepted_client
     = set_bios_keys (bios_keys accepted_client ++ [k]) accepted_client
     /\ k / 256 = 0x1E /\ k mod 256 = 0x61)
  /\ (exists k,
        ProcessInputByte 0x01 accepted_client
        = set_bios_keys (bios_keys accepted_client ++ [k]) accepted_client
        /\ k / 256 = 0x1E /\ k mod 256 = 0x01).
Proof.
  split.
  - destruct (typed_character_keycode 0x61 accepted_client eq_refl) as [H _].
    apply H. lia.
  - destruct (typed_character_keycode 0x01 accepted_client eq_refl) as [_ H].
    apply H; lia.
Defined.

(** X22.  ESC followed by a byte that opens no sequence gives one key and
    leaves the tokenizer in the NORMAL state: a lower-case letter gives the
    Alt key of that letter (its scan code, character zero), any other byte
    gives the ESC key 0x011B and is itself dropped. *)
Theorem escape_prefix (b : Z) (s : VGATextStream) :
  input_state_ s = NORMAL -> b <> 0x5B -> b <> 0x4F ->
  let s' := HandleKeyboardInput [0x1B; b] s in
  input_state_ s' = NORMAL
  /\ csi_params_ s' = csi_params_ s
  /\ bios_keys s'
     = bios_keys s
       ++ [if (0x61 <=? b) && (b <=? 0x7A)
           then tbl ascii_scancode b * 256 else 0x011B].
Proof.
  intros Hst H1 H2. cbv zeta. unfold HandleKeyboardInput. cbn [fold_left].
  assert (E : ProcessInputByte 0x1B s = set_input_state_ ESC s)
    by (unfold ProcessInputByte; rewrite Hst; reflexivity).
  rewrite E. unfold ProcessInputByte. obj.
  destruct (b =? 0x5B) eqn:E1; [lia|].
  destruct (b =? 0x4F) eqn:E2; [lia|].
  cbv zeta. zbool.
  destruct ((0x61 <=? b) && (b <=? 0x7A)) eqn:E3.
  - unfold BIOS_AddKeyToBuffer. obj.
    pose proof (ascii_scancode_u8 b) as Hsc.
    rewrite Z.shiftl_mul_pow2 by lia. change (2 ^ 8) with 256.
    unfold to_u16. rewrite Z.mod_small by lia.
    repeat split; reflexivity.
  - unfold InjectKey, BIOS_AddKeyToBuffer. obj.
    repeat split; reflexivity.
Qed.

(** Alt+A, and ESC followed by a digit. *)
Lemma escape_prefix_witness :
  bios_keys (HandleKeyboardInput [0x1B; 0x61] accepted_client) = [0x1E00]
  /\ bios_keys (HandleKeyboardInput [0x1B; 0x31] accepted_client) = [0x011B].
Proof.
  split.
  - destruct (escape_prefix 0x61 accepted_client eq_refl
                ltac:(lia) ltac:(lia)) as (_ & _ & H).
    exact H.
  - destruct (escape_prefix 0x31 accepted_client eq_refl
                ltac:(lia) ltac:(lia)) as (_ & _ & H).
    exact H.
Defined.

Lemma csi_parameters_accumulate (params : list Z) (s : VGATextStream) :
  input_state_ s = CSI ->
  Forall (fun p => 0x30 <= p <= 0x3F) params ->
  HandleKeyboardInput params s = set_csi_params_ (csi_params_ s ++ params) s.
Proof.
  unfold HandleKeyboardInput. revert s.
  induction params as [|p params IH]; intros s Hst Hp.
  - cbn [fold_left]. rewrite app_nil_r. now destruct s.
  - inversion Hp as [|? ? Hp1 Hp2]; subst. cbn [fold_left].
    assert (E : ProcessInputByte p s = set_csi_params_ (csi_params_ s ++ [p]) s).
    { unfold ProcessInputByte. rewrite Hst. zbool.
      replace ((0x30 <=? p) && (p <=? 0x3F)) with true; [reflexivity|].
      symmetry. apply andb_true_iff. split; apply Z.leb_le; lia. }
    rewrite E, IH by (obj; assumption). obj.
    rewrite <- app_assoc. now destruct s.
Qed.

Lemma HandleKeyboardInput_app (a b : list Z) (s : VGATextStream) :
  HandleKeyboardInput (a ++ b) s
  = HandleKeyboardInput b (HandleKeyboardInput a s).
Proof. unfold HandleKeyboardInput. apply fold_left_app. Qed.

Lemma csi_introducer (s : VGATextStream) :
  input_state_ s = NORMAL ->
  HandleKeyboardInput [0x1B; 0x5B] s
  = set_csi_params_ [] (set_input_state_ CSI s).
Proof.
  intros Hst. unfold HandleKeyboardInput. cbn [fold_left].
  assert (E : ProcessInputByte 0x1B s = set_input_state_ ESC s)
    by (unfold ProcessInputByte; rewrite Hst; reflexivity).
  rewrite E. reflexivity.
Qed.

Lemma csi_final_byte (final : Z) (t : VGATextStream) :
  input_state_ t = CSI -> 0x40 <= final <= 0x7E ->
  HandleKeyboardInput [final] t
  = set_input_state_ NORMAL (set_csi_params_ [] (csi_final final t)).
Proof.
  intros Ht Hf. unfold HandleKeyboardInput. cbn [fold_left].
  unfold ProcessInputByte. rewrite Ht. zbool.
  replace ((0x30 <=? final) && (final <=? 0x3F)) with false.
  2:{ symmetry. apply andb_false_iff.
      destruct (Z.le_gt_cases final 0x3F); [left|right]; apply Z.leb_gt; lia. }
  replace ((0x40 <=? final) && (final <=? 0x7E)) with true; [reflexivity|].
  symmetry. apply andb_true_iff. split; apply Z.leb_le; lia.
Qed.

Lemma csi_final_no_parameter (final : Z) (p q : list Z) (s : VGATextStream) :
  final <> 0x7E ->
  bios_keys (csi_final final (set_csi_params_ p s))
  = bios_keys (csi_final final (set_csi_params_ q s)).
Proof.
  intros Hne. unfold csi_final.
  replace (final =? 0x7E) with false by (symmetry; apply Z.eqb_neq; lia).
  repeat match goal with
         | |- context [if ?b then _ else _] => destruct b
         end; reflexivity.
Qed.

(** X23.  A complete CSI sequence, [ESC [], parameter bytes 0x30..0x3F and a
    final byte 0x40..0x7E, brings the tokenizer back to the NORMAL state
    with an empty parameter buffer and adds at most one key; unless the
    final byte is [~] the parameters play no part in the key. *)
Theorem csi_sequence_completes (params : list Z) (final : Z)
    (s : VGATextStream) :
  input_state_ s = NORMAL ->
  Forall (fun p => 0x30 <= p <= 0x3F) params ->
  0x40 <= final <= 0x7E ->
  let s' := HandleKeyboardInput ([0x1B; 0x5B] ++ params ++ [final]) s in
  input_state_ s' = NORMAL /\ csi_params_ s' = []
  /\ exists keys,
       bios_keys s' = bios_keys s ++ keys /\ (length keys <= 1)%nat
       /\ (final <> 0x7E ->
           bios_keys s'
           = bios_keys (HandleKeyboardInput [0x1B; 0x5B; final] s)).
Proof.
  intros Hst Hp Hf. cbv zeta.
  rewrite !HandleKeyboardInput_app, csi_introducer by exact Hst.
  rewrite (csi_parameters_accumulate params) by (try exact Hp; reflexivity).
  rewrite csi_final_byte by (try exact Hf; reflexivity).
  obj. split; [reflexivity|]. split; [reflexivity|].
  cbn [app].
  match goal with
  | |- context [csi_final final ?t] =>
      destruct (appended_csi_final final t) as (keys & Ek & Lk & _)
  end.
  exists keys. split; [exact Ek|]. split; [exact Lk|].
  intros Hne.
  change [0x1B; 0x5B; final] with ([0x1B; 0x5B] ++ [final]).
  rewrite HandleKeyboardInput_app, csi_introducer by exact Hst.
  rewrite csi_final_byte by (try exact Hf; reflexivity). obj.
  match goal with
  | |- bios_keys (csi_final final (set_csi_params_ ?p ?u)) = _ =>
      rewrite (csi_final_no_parameter final p [] u Hne)
  end.
  now destruct s.
Qed.

(** Ctrl+Up as a terminal sends it, [ESC [ 1 ; 5 A]: the key of Up. *)
Lemma csi_sequence_completes_witness :
  let s' := HandleKeyboardInput ([0x1B; 0x5B] ++ [0x31; 0x3B; 0x35] ++ [0x41])
              accepted_client in
  input_state_ s' = NORMAL /\ csi_params_ s' = []
  /\ exists keys,
       bios_keys s' = bios_keys accepted_client ++ keys
       /\ (length keys <= 1)%nat
       /\ (0x41 <> 0x7E ->
           bios_keys s'
           = bios_keys (HandleKeyboardInput [0x1B; 0x5B; 0x41] accepted_client)).
Proof.
  apply (csi_sequence_completes [0x31; 0x3B; 0x35] 0x41 accepted_client).
  - reflexivity.
  - repeat constructor; lia.
  - lia.
Defined.

(** ** Emitters *)

Lemma bytes_eqb_eq (a b : list Z) : bytes_eqb a b = true <-> a = b.
Proof.
  revert b. induction a as [|x a IH]; intros [|y b]; cbn [bytes_eqb];
    try (split; [discriminate | discriminate]); [tauto|].
  rewrite andb_true_iff, Z.eqb_eq, IH. split.
  - intros [-> ->]. reflexivity.
  - intros H. injection H as -> ->. now split.
Qed.

Lemma In_zseq (n : nat) (i x : Z) :
  i <= x < i + Z.of_nat n -> In x (zseq n i).
Proof.
  revert i. induction n as [|n IH]; intros i H; [lia|].
  cbn [zseq]. destruct (Z.eq_dec x i) as [->|Hne]; [now left|].
  right. apply IH. lia.
Qed.

Lemma forall_u8 (P : Z -> bool) :
  forallb P (zseq 256 0) = true -> forall x, 0 <= x < 256 -> P x = true.
Proof.
  intros H x Hx. rewrite forallb_forall in H. apply H, In_zseq. lia.
Qed.

Lemma utf8_check_all : forallb utf8_check (zseq 256 0) = true.
Proof. vm_compute. reflexivity. Qed.

(** X24.  Every character is emitted as the well-formed, shortest UTF-8
    sequence of the code point the table gives it, one to three bytes.
    Except for character 0, which is emitted as a NUL byte, no byte emitted
    is a control byte: screen contents cannot forge an escape sequence.
    The printable ASCII characters are emitted as themselves. *)
Theorem characters_are_utf8 (ch : Z) :
  0 <= ch < 256 ->
  utf8_decode (utf8_of_cp437 ch) = Some (tbl cp437_to_unicode ch)
  /\ (ch <> 0 ->
      Forall (fun b => 0x20 <= b < 256 /\ b <> 0x7F) (utf8_of_cp437 ch))
  /\ (0x20 <= ch < 0x7F -> utf8_of_cp437 ch = [ch]).
Proof.
  intros Hch. pose proof (forall_u8 utf8_check utf8_check_all ch Hch) as H.
  unfold utf8_check in H. rewrite !andb_true_iff in H.
  destruct H as [[H1 H2] H3]. split; [|split].
  - unfold option_Z_eqb in H1.
    destruct (utf8_decode (utf8_of_cp437 ch)) as [u|]; [|discriminate].
    apply Z.eqb_eq in H1. now subst.
  - intros Hne. apply orb_true_iff in H2. destruct H2 as [H2|H2].
    + apply Z.eqb_eq in H2. contradiction.
    + apply Forall_forall. intros b Hb. rewrite forallb_forall in H2.
      specialize (H2 b Hb). rewrite !andb_true_iff in H2.
      destruct H2 as [[Ha Hb'] Hc].
      apply Z.leb_le in Ha. apply Z.ltb_lt in Hb'.
      apply negb_true_iff, Z.eqb_neq in Hc. lia.
  - intros Hr. apply orb_true_iff in H3. destruct H3 as [H3|H3].
    + apply negb_true_iff, andb_false_iff in H3.
      destruct H3 as [H3|H3]; [apply Z.leb_gt in H3 | apply Z.ltb_ge in H3]; lia.
    + now apply bytes_eqb_eq.
Qed.

(** The box-drawing character 0xC4 is U+2500, the letter A is itself. *)
Lemma characters_are_utf8_witness :
  utf8_decode (utf8_of_cp437 0xC4) = Some 0x2500
  /\ utf8_of_cp437 0x41 = [0x41].
Proof.
  split.
  - destruct (characters_are_utf8 0xC4 ltac:(lia)) as (H & _ & _). exact H.
  - destruct (characters_are_utf8 0x41 ltac:(lia)) as (_ & _ & H).
    apply H. lia.
Defined.

Lemma sgr_check_all : forallb sgr_check (zseq 256 0) = true.
Proof. vm_compute. reflexivity. Qed.

(** X25.  Two different attribute bytes give two different SGR sequences:
    foreground, background and blink are all in the sequence. *)
Theorem sgr_bytes_distinct (a b : Z) :
  is_u8 a -> is_u8 b -> a <> b -> sgr_bytes a <> sgr_bytes b.
Proof.
  unfold is_u8. intros Ha Hb Hne E. apply Hne.
  pose proof (forall_u8 sgr_check sgr_check_all a Ha) as H.
  unfold sgr_check in H.
  pose proof (forall_u8 _ H b Hb) as H'. cbv beta in H'.
  apply bytes_eqb_eq in E. rewrite E in H'. cbn [implb] in H'.
  now apply Z.eqb_eq.
Qed.

(** Bright white on blue, steady and blinking. *)
Lemma sgr_bytes_distinct_witness :
  (is_u8 0x1F /\ is_u8 0x9F) /\ sgr_bytes 0x1F <> sgr_bytes 0x9F.
Proof.
  assert (H : is_u8 0x1F /\ is_u8 0x9F) by (unfold is_u8; lia).
  split; [exact H|].
  apply (sgr_bytes_distinct 0x1F 0x9F); [apply H | apply H | lia].
Defined.

Lemma digits_acc (fuel : nat) (n : Z) (acc : list Z) :
  digits fuel n acc = digits fuel n [] ++ acc.
Proof.
  revert n acc. induction fuel as [|f IH]; intros n acc; [reflexivity|].
  cbn [digits]. destruct (n / 10 =? 0); [reflexivity|].
  rewrite (IH (n / 10) (_ :: acc)), (IH (n / 10) [_]), <- app_assoc.
  reflexivity.
Qed.

Lemma digits_value (fuel : nat) (n : Z) :
  0 <= n < 10 ^ Z.of_nat (S fuel) ->
  Forall is_digit (digits (S fuel) n [])
  /\ fold_left (fun a d => a * 10 + (d - 0x30)) (digits (S fuel) n []) 0 = n
  /\ digits (S fuel) n [] <> [].
Proof.
  revert n. induction fuel as [|f IH]; intros n Hn.
  - cbn [digits]. change (10 ^ Z.of_nat 1) with 10 in Hn.
    rewrite Z.div_small by lia. cbn [Z.eqb].
    rewrite Z.mod_small by lia.
    split; [|split]; [| cbn [fold_left]; lia | discriminate].
    constructor; [unfold is_digit; lia | constructor].
  - change (digits (S (S f)) n [])
      with (if n / 10 =? 0 then [0x30 + n mod 10]
            else digits (S f) (n / 10) [0x30 + n mod 10]).
    pose proof (Z.mod_pos_bound n 10 ltac:(lia)) as Hm.
    pose proof (Z.div_mod n 10 ltac:(lia)) as Hdm.
    destruct (n / 10 =? 0) eqn:E.
    + apply Z.eqb_eq in E.
      split; [|split]; [| cbn [fold_left]; lia | discriminate].
      constructor; [unfold is_digit; lia | constructor].
    + apply Z.eqb_neq in E.
      assert (Hq : 0 <= n / 10 < 10 ^ Z.of_nat (S f)).
      { split; [apply Z.div_pos; lia|].
        apply Z.div_lt_upper_bound; [lia|].
        replace (Z.of_nat (S (S f))) with (Z.of_nat (S f) + 1) in Hn by lia.
        rewrite Z.pow_add_r, Z.pow_1_r in Hn by lia. lia. }
      destruct (IH (n / 10) Hq) as (F & V & N).
      rewrite digits_acc. split; [|split].
      * apply Forall_app. split; [exact F|].
        constructor; [unfold is_digit; lia | constructor].
      * rewrite fold_left_app, V. cbn [fold_left]. lia.
      * intros H. apply app_eq_nil in H. destruct H as [_ H]. discriminate.
Qed.

Lemma atoi_digits_all (ds : list Z) (a : Z) :
  Forall is_digit ds ->
  atoi_digits ds a = fold_left (fun a d => a * 10 + (d - 0x30)) ds a.
Proof.
  intros H. revert a. induction H as [|d ds Hd _ IH]; intros a; [reflexivity|].
  cbn [atoi_digits fold_left]. unfold is_digit in Hd.
  replace ((0x30 <=? d) && (d <=? 0x39)) with true; [apply IH|].
  symmetry. apply andb_true_iff. split; apply Z.leb_le; lia.
Qed.

Lemma atoi_decimal (ds : list Z) :
  Forall is_digit ds -> ds <> [] ->
  0 <= fold_left (fun a d => a * 10 + (d - 0x30)) ds 0 < 2147483648 ->
  atoi ds = fold_left (fun a d => a * 10 + (d - 0x30)) ds 0.
Proof.
  intros H Hne Hv. destruct ds as [|d ds]; [contradiction|].
  pose proof (Forall_inv H) as Hd. unfold is_digit in Hd.
  unfold atoi. cbn [atoi_skip]. unfold isspace.
  replace (d =? 0x20) with false by (symmetry; apply Z.eqb_neq; lia).
  replace (d <=? 0x0D) with false by (symmetry; apply Z.leb_gt; lia).
  rewrite andb_false_r. cbn [orb].
  replace (d =? 0x2D) with false by (symmetry; apply Z.eqb_neq; lia).
  replace (d =? 0x2B) with false by (symmetry; apply Z.eqb_neq; lia).
  rewrite atoi_digits_all by exact H.
  unfold strtol_saturate, to_int.
  rewrite Z.min_r, Z.max_r by lia.
  rewrite Z.mod_small by lia. lia.
Qed.

Lemma fmt_d_decimal (n : Z) :
  0 <= n < 2147483648 ->
  Forall is_digit (fmt_d n) /\ atoi (fmt_d n) = n.
Proof.
  intros Hn. unfold fmt_d.
  replace (n <? 0) with false by (symmetry; apply Z.ltb_ge; lia).
  destruct (digits_value 9 n) as (F & V & N);
    [change (10 ^ Z.of_nat 10) with 10000000000; lia|].
  split; [exact F|]. rewrite atoi_decimal; rewrite ?V; auto.
Qed.

Lemma digits_length (fuel : nat) (n : Z) (acc : list Z) :
  (length (digits fuel n acc) <= fuel + length acc)%nat.
Proof.
  revert n acc. induction fuel as [|f IH]; intros n acc; [cbn; lia|].
  cbn [digits]. destruct (n / 10 =? 0); [cbn [length]; lia|].
  specialize (IH (n / 10) ((48 + n mod 10) :: acc)). cbn [length] in IH. lia.
Qed.

Lemma fmt_d_u16 (n : Z) :
  0 <= n <= 65536 ->
  Forall is_digit (fmt_d n) /\ atoi (fmt_d n) = n
  /\ (length (fmt_d n) <= 5)%nat.
Proof.
  intros Hn. destruct (fmt_d_decimal n) as [F V]; [lia|].
  split; [exact F|]. split; [exact V|].
  unfold fmt_d. replace (n <? 0) with false by (symmetry; apply Z.ltb_ge; lia).
  rewrite <- (digits_fuel 4 9) by (change (10 ^ Z.of_nat 5) with 100000; lia).
  pose proof (digits_length 5 n []) as H. cbn [length] in H. lia.
Qed.

(** X26.  For a 16-bit row and column [EmitMoveCursor] appends [ESC [ row ;
    col H] with both numbers in decimal, at most five digits each, and one
    more than the zero-based row and column; it records the zero-based
    position as the write position. *)
Theorem cursor_move_is_one_based (r c : Z) (s : VGATextStream) :
  0 <= r < 65536 -> 0 <= c < 65536 ->
  exists dr dc,
    text_buffer_ (EmitMoveCursor r c s)
    = text_buffer_ s ++ [0x1B; 0x5B] ++ dr ++ [0x3B] ++ dc ++ [0x48]
    /\ (Forall is_digit dr /\ Forall is_digit dc)
    /\ (atoi dr = r + 1 /\ atoi dc = c + 1)
    /\ (length dr <= 5 /\ length dc <= 5)%nat
    /\ (ansi_row_ (EmitMoveCursor r c s) = r
        /\ ansi_col_ (EmitMoveCursor r c s) = c).
Proof.
  intros Hr Hc.
  destruct (fmt_d_u16 (r + 1)) as (Fr & Vr & Lr); [lia|].
  destruct (fmt_d_u16 (c + 1)) as (Fc & Vc & Lc); [lia|].
  exists (fmt_d (r + 1)), (fmt_d (c + 1)).
  split; [reflexivity|]. repeat split; assumption.
Qed.

(** The move to row 2, column 3. *)
Lemma cursor_move_is_one_based_witness :
  exists dr dc,
    text_buffer_ (EmitMoveCursor 2 3 accepted_client)
    = text_buffer_ accepted_client ++ [0x1B; 0x5B] ++ dr ++ [0x3B] ++ dc ++ [0x48]
    /\ (Forall is_digit dr /\ Forall is_digit dc)
    /\ (atoi dr = 2 + 1 /\ atoi dc = 3 + 1)
    /\ (length dr <= 5 /\ length dc <= 5)%nat
    /\ (ansi_row_ (EmitMoveCursor 2 3 accepted_client) = 2
        /\ ansi_col_ (EmitMoveCursor 2 3 accepted_client) = 3).
Proof.
  apply (cursor_move_is_one_based 2 3 accepted_client); lia.
Defined.

(** ** The reader thread *)

Lemma sys_read_rx (count : Z) (s : VGATextStream) :
  exists rx, snd (sys_read count s) = set_sock_rx rx s.
Proof.
  unfold sys_read. destruct (sock_rx s) eqn:E.
  - exists []. cbn [snd]. destruct s. cbn in E. now subst.
  - eexists. reflexivity.
Qed.

Lemma set_sock_rx_twice (a b : list Z) (s : VGATextStream) :
  set_sock_rx a (set_sock_rx b s) = set_sock_rx a s.
Proof. now destruct s. Qed.

Lemma read_payload_rx (fuel : nat) (len total : Z) (payload : list Z)
    (s : VGATextStream) :
  exists rx, snd (read_payload fuel len total payload s) = set_sock_rx rx s.
Proof.
  assert (Hid : exists rx, s = set_sock_rx rx s)
    by (exists (sock_rx s); now destruct s).
  revert total payload s Hid.
  induction fuel as [|f IH]; intros total payload s Hid; cbn [read_payload].
  - destruct (total <? len); exact Hid.
  - destruct (total <? len); [|exact Hid].
    destruct (sys_read_rx (len - total) s) as (rx & E).
    destruct (sys_read (len - total) s) as [[n got] s']. cbn [snd] in E.
    subst s'. destruct (n <=? 0).
    + exists rx. reflexivity.
    + destruct (IH (total + n) (store_at total got payload) (set_sock_rx rx s))
        as (rx' & E').
      { exists rx. now rewrite set_sock_rx_twice. }
      exists rx'. now rewrite E', set_sock_rx_twice.
Qed.

Lemma ReadMessage_rx (channel0 : Z) (payload0 : list Z) (s : VGATextStream) :
  exists rx, snd (ReadMessage channel0 payload0 s) = set_sock_rx rx s.
Proof.
  assert (Hid : exists rx, s = set_sock_rx rx s)
    by (exists (sock_rx s); now destruct s).
  unfold ReadMessage. destruct (client_fd_ s <? 0); [exact Hid|].
  destruct (sys_read_rx 4 s) as (rx & E).
  destruct (sys_read 4 s) as [[n header] s1]. cbn [snd] in E. subst s1.
  destruct (negb (n =? 4)); [exists rx; reflexivity|]. cbv zeta.
  match goal with
  | |- context [if ?c then _ else _] => destruct c
  end; [|exists rx; reflexivity].
  match goal with
  | |- context [read_payload ?f ?l ?t ?p ?u] =>
      destruct (read_payload_rx f l t p u) as (rx' & E');
      destruct (read_payload f l t p u) as [[ok p'] s2]
  end.
  cbn [snd] in *. subst s2. exists rx'. now rewrite set_sock_rx_twice.
Qed.

Lemma HandleHello_session (vga : VGA_Type) (payload : list Z)
    (s : VGATextStream) :
  client_fd_ (HandleHello vga payload s) = client_fd_ s.
Proof.
  unfold HandleHello. destruct (size payload <? 3); [reflexivity|]. cbv zeta.
  match goal with
  | |- context [SendModeNotification vga ?t] =>
      destruct (SendModeNotification_effect vga t) as (room & tx & mn & ->)
  end.
  obj. rewrite hello_caps_fold by lia.
  match goal with
  | |- context [fold_left _ ?caps ?t] =>
      destruct (hello_cap_flags caps t) as (_ & _ & _ & -> & _)
  end.
  reflexivity.
Qed.

Lemma ProcessMessage_session (vga : VGA_Type) (channel : Z) (payload : list Z)
    (s : VGATextStream) :
  0 <= client_fd_ s -> session_ok (ProcessMessage vga channel payload s).
Proof.
  intros Hfd. unfold session_ok, ProcessMessage.
  destruct (channel =? StreamChannel.CONTROL).
  - unfold HandleControlInput. destruct payload as [|msg data]; [auto|].
    destruct (msg =? ControlMsg.HELLO);
      [intros _; now rewrite HandleHello_session|].
    destruct (msg =? ControlMsg.GOODBYE); [discriminate|].
    destruct (msg =? ControlMsg.REFRESH); auto.
  - destruct (channel =? StreamChannel.KEYBOARD_IN).
    + destruct (HandleKeyboardInput_only_parser payload s) as (st & p & k & ->).
      auto.
    + destruct (channel =? StreamChannel.MOUSE_IN); auto.
Qed.

Lemma accept_client_session (accepted : Z) (s : VGATextStream) :
  client_fd_ s < 0 -> session_ok s -> session_ok (accept_client accepted s).
Proof.
  intros Hfd Hs. unfold accept_client, session_ok. cbv zeta. obj.
  destruct (accepted >=? 0) eqn:E.
  - unfold SendHello. cbv zeta.
    match goal with
    | |- context [SendControl ?m ?d ?t] =>
        destruct (SendControl_only_socket m d t) as (room & tx & ->)
    end.
    unfold Invalidate. obj. discriminate.
  - intros H. apply Hs in H. lia.
Qed.

Lemma read_client_session (vga : VGA_Type) (channel0 peek : Z) (eagain : bool)
    (s : VGATextStream) :
  0 <= client_fd_ s -> session_ok s ->
  session_ok (read_client vga channel0 peek eagain s).
Proof.
  intros Hfd Hs. unfold read_client.
  destruct (ReadMessage_rx channel0 [] s) as (rx & E).
  destruct (ReadMessage channel0 [] s) as [[[ok channel] payload] s1].
  cbn [snd] in E. subst s1. destruct ok.
  - apply ProcessMessage_session. exact Hfd.
  - destruct ((peek =? 0) || ((peek <? 0) && negb eagain)).
    + unfold session_ok, drop_client. obj. discriminate.
    + unfold session_ok in *. obj. exact Hs.
Qed.

(** X27.  A completed handshake implies a connected client; a pass of the
    reader thread and a vsync tick keep this true, whatever the system
    calls return, and [Close] makes it true. *)
Theorem session_invariant (vga : VGA_Type) (mem_readb : Z -> Z)
    (listen_fd accepted : Z) (readable : bool) (channel0 peek : Z)
    (eagain : bool) (s : VGATextStream) :
  session_ok s ->
  session_ok (InputThreadFunc_pass vga listen_fd accepted readable
                channel0 peek eagain s)
  /\ session_ok (OnVSync vga mem_readb s)
  /\ session_ok (Close s).
Proof.
  intros Hs. split; [|split].
  - unfold InputThreadFunc_pass. cbv zeta.
    assert (H1 : session_ok (if (client_fd_ s <? 0) && (listen_fd >=? 0)
                             then accept_client accepted s else s)).
    { destruct (client_fd_ s <? 0) eqn:E; cbn [andb]; [|exact Hs].
      destruct (listen_fd >=? 0); [|exact Hs].
      apply accept_client_session; [lia | exact Hs]. }
    generalize dependent (if (client_fd_ s <? 0) && (listen_fd >=? 0)
                          then accept_client accepted s else s).
    intros s1 H1. destruct (client_fd_ s1 >=? 0) eqn:E; [|exact H1].
    destruct readable; [|exact H1].
    apply read_client_session; [zbool; lia | exact H1].
  - destruct (vsync_guard s) eqn:Hg.
    { rewrite OnVSync_parts, Hg. exact Hs. }
    destruct (IsTextMode vga && client_wants_text_ s) eqn:Ht.
    + destruct (OnVSync_text_state vga mem_readb s Hg Ht)
        as (t & -> & G & _).
      intros _. now apply vsync_guard_false in G.
    + destruct (OnVSync_other_state vga mem_readb s Hg Ht)
        as (t & -> & G & _).
      intros _. now apply vsync_guard_false in G.
  - unfold session_ok, Close. cbv zeta. obj. discriminate.
Qed.

(** A streaming session with a key press pending: the handshake is done
    before and after the pass and the tick, and the client is there. *)
Lemma session_invariant_witness :
  let s := set_sock_rx (frame_of StreamChannel.KEYBOARD_IN [0x61]) idle_session in
  (handshake_done_ s = true /\ client_fd_ s = 5)
  /\ (handshake_done_
        (InputThreadFunc_pass vga_text_80x25 3 7 true 0 0 false s) = true
      /\ 0 <= client_fd_
                (InputThreadFunc_pass vga_text_80x25 3 7 true 0 0 false s))
  /\ (handshake_done_ (OnVSync vga_text_80x25 blank_memory s) = true
      /\ 0 <= client_fd_ (OnVSync vga_text_80x25 blank_memory s))
  /\ session_ok (Close s).
Proof.
  cbv zeta.
  destruct (session_invariant vga_text_80x25 blank_memory 3 7 true 0 0 false
              (set_sock_rx (frame_of StreamChannel.KEYBOARD_IN [0x61])
                 idle_session))
    as (H1 & H2 & H3).
  { intros _. cbn. lia. }
  split; [split; reflexivity|].
  assert (E1 : handshake_done_
                 (InputThreadFunc_pass vga_text_80x25 3 7 true 0 0 false
                    (set_sock_rx (frame_of StreamChannel.KEYBOARD_IN [0x61])
                       idle_session)) = true) by (vm_compute; reflexivity).
  assert (E2 : handshake_done_
                 (OnVSync vga_text_80x25 blank_memory
                    (set_sock_rx (frame_of StreamChannel.KEYBOARD_IN [0x61])
                       idle_session)) = true) by (vm_compute; reflexivity).
  split; [split; [exact E1 | exact (H1 E1)]|].
  split; [split; [exact E2 | exact (H2 E2)]|].
  exact H3.
Defined.

(** X28.  A pass that accepts a connection sends the server's HELLO, version
    1 with the capabilities text, keyboard and mouse, and nothing else;
    the handshake is open, a full redraw is pending, and until the client
    answers the vsync handler does nothing. *)
Theorem accept_greets_client (vga : VGA_Type) (mem_readb : Z -> Z)
    (listen_fd accepted channel0 peek : Z) (eagain : bool)
    (s : VGATextStream) :
  client_fd_ s < 0 -> 0 <= listen_fd -> 0 <= accepted -> 11 <= sock_room s ->
  let s' := InputThreadFunc_pass vga listen_fd accepted false
              channel0 peek eagain s in
  sock_tx s'
  = sock_tx s ++ [0x00; 0x00; 0x00; 0x07; 0x01; 0x00; 0x01; 0x03; 0x01; 0x02; 0x03]
  /\ client_fd_ s' = accepted
  /\ (handshake_done_ s' = false /\ mode_notified_ s' = false)
  /\ (force_redraw_ s' = true /\ ansi_attr_ s' = 0xFF)
  /\ OnVSync vga mem_readb s' = s'.
Proof.
  intros Hfd Hl Ha Hroom. cbv zeta.
  assert (E : InputThreadFunc_pass vga listen_fd accepted false
                channel0 peek eagain s
              = Invalidate
                  (set_sock_room (sock_room s - 11)
                     (set_sock_tx
                        (sock_tx s ++ [0x00; 0x00; 0x00; 0x07; 0x01; 0x00; 0x01;
                                       0x03; 0x01; 0x02; 0x03])
                        (set_mode_notified_ false (set_handshake_done_ false
                           (set_client_fd_ accepted s)))))).
  { unfold InputThreadFunc_pass. cbv zeta.
    replace (client_fd_ s <? 0) with true by (symmetry; apply Z.ltb_lt; lia).
    replace (listen_fd >=? 0) with true by (symmetry; zbool; apply Z.leb_le; lia).
    cbn [andb].
    assert (Ea : accept_client accepted s
                 = Invalidate
                     (SendHello (set_mode_notified_ false
                        (set_handshake_done_ false (set_client_fd_ accepted s))))).
    { unfold accept_client. cbv zeta. obj.
      now replace (accepted >=? 0) with true
        by (symmetry; zbool; apply Z.leb_le; lia). }
    rewrite Ea. unfold SendHello. cbv zeta. unfold SendControl.
    rewrite SendMessage_connected;
      try (obj; unfold size; cbn [length app]; lia).
    unfold Invalidate. obj.
    replace (accepted >=? 0) with true
      by (symmetry; zbool; apply Z.leb_le; lia).
    reflexivity. }
  rewrite E. unfold Invalidate.
  split; [reflexivity|]. split; [reflexivity|].
  split; [split; reflexivity|]. split; [split; reflexivity|].
  rewrite OnVSync_parts. unfold vsync_guard. obj.
  now rewrite !orb_true_r.
Qed.

(** A fresh object that listens on descriptor 3 and accepts descriptor 5. *)
Lemma accept_greets_client_witness :
  let s := new_VGATextStream cursor_home cursor_home 65536 in
  let s' := InputThreadFunc_pass vga_text_80x25 3 5 false 0 0 false s in
  sock_tx s'
  = sock_tx s ++ [0x00; 0x00; 0x00; 0x07; 0x01; 0x00; 0x01; 0x03; 0x01; 0x02; 0x03]
  /\ client_fd_ s' = 5
  /\ (handshake_done_ s' = false /\ mode_notified_ s' = false)
  /\ (force_redraw_ s' = true /\ ansi_attr_ s' = 0xFF)
  /\ OnVSync vga_text_80x25 blank_memory s' = s'.
Proof.
  apply (accept_greets_client vga_text_80x25 blank_memory 3 5 0 0 false
           (new_VGATextStream cursor_home cursor_home 65536)); cbn; lia.
Defined.

Lemma ProcessInputByte_rx (b : Z) (rx : list Z) (s : VGATextStream) :
  ProcessInputByte b (set_sock_rx rx s) = set_sock_rx rx (ProcessInputByte b s).
Proof.
  unfold ProcessInputByte, csi_final, csi_tilde, ss3_final, InjectKey,
    BIOS_AddKeyToBuffer.
  destruct s as [? ? ? ? ? ? ? ? ? ? ? ? ? st params ? ? ? ? ? ? ? ? ? ? ? ? keys].
  obj. destruct st; cbv zeta;
    repeat match goal with
           | |- context [if ?c then _ else _] => destruct c
           end; reflexivity.
Qed.

Lemma HandleKeyboardInput_rx (data rx : list Z) (s : VGATextStream) :
  HandleKeyboardInput data (set_sock_rx rx s)
  = set_sock_rx rx (HandleKeyboardInput data s).
Proof.
  unfold HandleKeyboardInput. revert s.
  induction data as [|b data IH]; intros s; [reflexivity|].
  cbn [fold_left]. now rewrite ProcessInputByte_rx, IH.
Qed.

(** X29.  A pass that finds a whole KEYBOARD_IN frame pending consumes
    exactly that frame and types its payload, whether or not the handshake
    is done. *)
Theorem keyboard_frame_reaches_bios (vga : VGA_Type) (listen_fd accepted : Z)
    (channel0 peek : Z) (eagain : bool) (data rest : list Z)
    (s : VGATextStream) :
  0 <= client_fd_ s -> size data <= 0xFFFFFF ->
  sock_rx s = frame_of StreamChannel.KEYBOARD_IN data ++ rest ->
  InputThreadFunc_pass vga listen_fd accepted true channel0 peek eagain s
  = set_sock_rx rest (HandleKeyboardInput data s).
Proof.
  intros Hfd Hlen Hrx.
  unfold InputThreadFunc_pass. cbv zeta.
  replace (client_fd_ s <? 0) with false by (symmetry; apply Z.ltb_ge; lia).
  cbn [andb].
  replace (client_fd_ s >=? 0) with true
    by (symmetry; zbool; apply Z.leb_le; lia).
  unfold read_client.
  replace s with (set_sock_rx (frame_of StreamChannel.KEYBOARD_IN data ++ rest) s)
    at 1 by (rewrite <- Hrx; now destruct s).
  rewrite ReadMessage_frame by assumption.
  unfold ProcessMessage. cbn [Z.eqb StreamChannel.KEYBOARD_IN
                               StreamChannel.CONTROL Pos.eqb].
  apply HandleKeyboardInput_rx.
Qed.

(** The letter a typed before the handshake. *)
Lemma keyboard_frame_reaches_bios_witness :
  InputThreadFunc_pass vga_text_80x25 3 6 true 0 0 false
    (set_sock_rx [0x02; 0; 0; 1; 0x61] accepted_client)
  = set_sock_rx []
      (HandleKeyboardInput [0x61]
         (set_sock_rx [0x02; 0; 0; 1; 0x61] accepted_client)).
Proof.
  apply (keyboard_frame_reaches_bios vga_text_80x25 3 6 0 0 false [0x61] []
           (set_sock_rx [0x02; 0; 0; 1; 0x61] accepted_client)).
  - cbn. lia.
  - cbn. lia.
  - reflexivity.
Defined.
